(** * newGit scraper: a shallow embedding of [script.py] and its specification

    The development follows the layout of the script: shared text helpers,
    the spreadsheet store ([save_dict_to_excel_row],
    [copy_columns_by_references]), the three site extractors, the three site
    pipelines and the flattening step of [main].

    External collaborators are modelled by what the script relies on:
    - Python [str] values are byte strings ([string]); classification of
      characters follows Python on the ASCII range;
    - an openpyxl worksheet is its [_cells] dictionary (a finite map from
      (row, column) to a value) together with [_current_row];
    - writing a workbook keeps the cells that hold a value (a cell whose value
      is [None] and that has no style is skipped by the writer, an empty text
      is written as a cell without a value), reading one sets [_current_row]
      to [max_row]; styles and cells without a value are not part of a file;
    - the HTML parsers and the browser are oracles (type classes). *)

From Stdlib Require Import String Ascii List ZArith Lia Bool.
From stdpp Require Import base option list gmap strings fin_maps pretty.

Open Scope string_scope.
Set Warnings "-register-all".

(** ** Python values, exceptions and dictionaries *)

Inductive value :=
  | VNone
  | VStr (s : string)
  | VNum (z : Z)
  | VCompound (dumps : string).
  (* [VCompound j]: a dict, list or tuple whose [json.dumps] text is [j] *)

#[global] Instance value_eq_dec : EqDecision value.
Proof. solve_decision. Defined.

(** An exception: its class name and its message ([str(e)]). *)
Inductive exn := Exn (kind : string) (msg : string).

Definition exn_kind (e : exn) : string := let 'Exn k _ := e in k.
Definition exn_msg (e : exn) : string := let 'Exn _ m := e in m.

Inductive outcome (A : Type) :=
  | Returned (a : A)
  | Raised (e : exn).
Arguments Returned {A} a.
Arguments Raised {A} e.

(** A [dict]: keys in insertion order, each key once. *)
Abbreviation pydict := (list (string * value)).

Fixpoint dict_lookup (d : pydict) (k : string) : option value :=
  match d with
  | [] => None
  | (k', v) :: d' => if decide (k = k') then Some v else dict_lookup d' k
  end.

(** [d.get(k)] *)
Definition dict_get (d : pydict) (k : string) : value :=
  default VNone (dict_lookup d k).

(** [d[k] = v] *)
Fixpoint dict_set (d : pydict) (k : string) (v : value) : pydict :=
  match d with
  | [] => [(k, v)]
  | (k', v') :: d' =>
      if decide (k = k') then (k, v) :: d' else (k', v') :: dict_set d' k v
  end.

Definition dict_keys (d : pydict) : list string := d.*1.

(** ** Text helpers *)

Module PyStr.

Definition code (c : ascii) : N := N_of_ascii c.

Definition in_range (lo hi : N) (c : ascii) : bool :=
  ((lo <=? code c) && (code c <=? hi))%N.

(** [str.isspace] and the regex class [\s] below U+0080 *)
Definition is_space (c : ascii) : bool :=
  in_range 9 13 c || in_range 28 32 c.

Definition is_digit (c : ascii) : bool := in_range 48 57 c.
Definition is_upper (c : ascii) : bool := in_range 65 90 c.
Definition is_lower (c : ascii) : bool := in_range 97 122 c.
Definition is_alnum (c : ascii) : bool :=
  is_digit c || is_upper c || is_lower c.

Definition lower_char (c : ascii) : ascii :=
  if is_upper c then ascii_of_N (code c + 32) else c.
Definition upper_char (c : ascii) : ascii :=
  if is_lower c then ascii_of_N (code c - 32) else c.

Fixpoint map_chars (f : ascii → ascii) (s : string) : string :=
  match s with
  | "" => ""
  | String c s' => String (f c) (map_chars f s')
  end.

Definition lower : string → string := map_chars lower_char.
Definition upper : string → string := map_chars upper_char.

Fixpoint lstrip (s : string) : string :=
  match s with
  | "" => ""
  | String c s' => if is_space c then lstrip s' else s
  end.
Definition rstrip (s : string) : string :=
  String.rev (lstrip (String.rev s)).
Definition strip (s : string) : string := rstrip (lstrip s).

(** [s.startswith(p)] *)
Fixpoint starts_with (p s : string) : bool :=
  match p with
  | "" => true
  | String a p' =>
      match s with
      | "" => false
      | String b s' => Ascii.eqb a b && starts_with p' s'
      end
  end.

(** [sub in s] *)
Fixpoint contains (sub s : string) : bool :=
  if starts_with sub s then true
  else match s with
       | "" => false
       | String _ s' => contains sub s'
       end.

(** [s.split(sep)] for a one-character separator *)
Fixpoint split (sep : ascii) (s : string) : list string :=
  match s with
  | "" => [""]
  | String c s' =>
      if Ascii.eqb c sep then "" :: split sep s'
      else match split sep s' with
           | l :: ls => String c l :: ls
           | [] => [String c ""]
           end
  end.

(** [sep.join(parts)] *)
Definition join (sep : string) (parts : list string) : string :=
  String.concat sep parts.

Fixpoint drop (n : nat) (s : string) : string :=
  match n, s with
  | S n', String _ s' => drop n' s'
  | _, _ => s
  end.

(** [s[:n]] *)
Fixpoint take (n : nat) (s : string) : string :=
  match n, s with
  | S n', String c s' => String c (take n' s')
  | _, _ => ""
  end.

Fixpoint replace_go (old new : string) (skip : nat) (s : string) : string :=
  match s with
  | "" => ""
  | String c s' =>
      match skip with
      | S k => replace_go old new k s'
      | 0 =>
          if starts_with old s
          then new +:+ replace_go old new (String.length old - 1) s'
          else String c (replace_go old new 0 s')
      end
  end.

(** [s.replace(old, new)] for a non-empty [old]: occurrences are replaced
    left to right without overlap. *)
Definition replace (old new s : string) : string := replace_go old new 0 s.

Fixpoint words_go (cur : option string) (s : string) : list string :=
  match s with
  | "" => option_list (String.rev <$> cur)
  | String a s' =>
      if is_space a
      then option_list (String.rev <$> cur) ++ words_go None s'
      else words_go (Some (from_option (String a) (String a "") cur)) s'
  end.
(** the maximal runs of non-blank characters ([\S+]) *)
Definition words : string → list string := words_go None.

Fixpoint digits_value (acc : nat) (s : string) : nat :=
  match s with
  | "" => acc
  | String c s' => digits_value (10 * acc + (N.to_nat (code c) - 48)) s'
  end.

Fixpoint take_while (p : ascii → bool) (s : string) : string :=
  match s with
  | "" => ""
  | String c s' => if p c then String c (take_while p s') else ""
  end.

Fixpoint all_chars (p : ascii → bool) (s : string) : bool :=
  match s with
  | "" => true
  | String c s' => p c && all_chars p s'
  end.

(** the line feed *)
Definition newline : string := String "010"%char EmptyString.

(** [f"{n}"] for a non-negative integer *)
Definition of_nat (n : nat) : string := pretty n.

End PyStr.

(** ** Worksheets and workbooks (openpyxl) *)

Module Xl.

Record worksheet := Worksheet {
  ws_cells : gmap (nat * nat) value;
  ws_current_row : nat
}.

Definition new_worksheet : worksheet := Worksheet ∅ 0.

Definition rows_of (m : gmap (nat * nat) value) : list nat :=
  (λ kv : nat * nat * value, kv.1.1) <$> map_to_list m.
Definition cols_of (m : gmap (nat * nat) value) : list nat :=
  (λ kv : nat * nat * value, kv.1.2) <$> map_to_list m.

(** [ws.max_row] and [ws.max_column]: 1 for a sheet without cells *)
Definition cells_max_row (m : gmap (nat * nat) value) : nat :=
  if decide (m = ∅) then 1 else max_list (rows_of m).
Definition cells_max_column (m : gmap (nat * nat) value) : nat :=
  if decide (m = ∅) then 1 else max_list (cols_of m).
Definition max_row (ws : worksheet) : nat := cells_max_row (ws_cells ws).
Definition max_column (ws : worksheet) : nat :=
  cells_max_column (ws_cells ws).

(** [ws._get_cell(r, c)]: the cell is created, empty, when it is missing *)
Definition touch (r c : nat) (ws : worksheet) : worksheet :=
  match ws_cells ws !! (r, c) with
  | Some _ => ws
  | None =>
      Worksheet (<[(r, c) := VNone]> (ws_cells ws))
                (Nat.max r (ws_current_row ws))
  end.

(** the value at (r, c): [None] where there is no cell *)
Definition cells_value (m : gmap (nat * nat) value) (r c : nat) : value :=
  default VNone (m !! (r, c)).

(** the value of [ws.cell(row=r, column=c)] *)
Definition value_at (r c : nat) (ws : worksheet) : value :=
  cells_value (ws_cells ws) r c.

(** [ws.cell(row=r, column=c, value=v)]: the value is assigned only when
    it is not [None]. Rows and columns are 1-based; the script never
    passes 0. *)
Definition cell (r c : nat) (v : value) (ws : worksheet) : worksheet :=
  let ws' := touch r c ws in
  match v with
  | VNone => ws'
  | _ => Worksheet (<[(r, c) := v]> (ws_cells ws')) (ws_current_row ws')
  end.

Fixpoint put_row (r c : nat) (row : list value)
    (m : gmap (nat * nat) value) : gmap (nat * nat) value :=
  match row with
  | [] => m
  | v :: row' => put_row r (S c) row' (<[(r, c) := v]> m)
  end.

(** [ws.append(row)]: a cell per element, on the row after
    [_current_row] *)
Definition append (row : list value) (ws : worksheet) : worksheet :=
  let r := S (ws_current_row ws) in
  Worksheet (put_row r 1 row (ws_cells ws)) r.

(** [next(ws.iter_rows(min_row=1, max_row=1))]: the cells of row 1 over
    the columns 1 .. [max_column]; iterating creates the missing ones. *)
Definition first_row (ws : worksheet) : list value * worksheet :=
  let cols := seq 1 (max_column ws) in
  ((λ c, value_at 1 c ws) <$> cols, foldr (touch 1) ws cols).

Record workbook := Workbook {
  wb_sheets : list (string * worksheet);
  wb_active : nat
}.

(** [Workbook()] *)
Definition new_workbook : workbook := Workbook [("Sheet", new_worksheet)] 0.

Definition sheetnames (wb : workbook) : list string := (wb_sheets wb).*1.

(** [wb.active] *)
Definition active (wb : workbook) : option worksheet :=
  snd <$> wb_sheets wb !! wb_active wb.

Definition set_active (ws : worksheet) (wb : workbook) : workbook :=
  Workbook (alter (λ p, (p.1, ws)) (wb_active wb) (wb_sheets wb))
           (wb_active wb).

(** [del wb[title]]: the first sheet of that title leaves the workbook *)
Fixpoint remove_sheet (title : string) (l : list (string * worksheet))
    : list (string * worksheet) :=
  match l with
  | [] => []
  | (t, ws) :: l' =>
      if decide (t = title) then l' else (t, ws) :: remove_sheet title l'
  end.

(** Sheet titles are unique up to case; a clash is resolved by a numeric
    suffix, one more than the highest in use ([avoid_duplicate_name]). *)
Fixpoint title_counts (value : string) (skip : nat) (s : string)
    : list nat :=
  match s with
  | "" => []
  | String _ s' =>
      match skip with
      | S k => title_counts value k s'
      | 0 =>
          if PyStr.starts_with (PyStr.lower value) (PyStr.lower s) then
            let rest := PyStr.drop (String.length value) s in
            let ds := PyStr.take_while PyStr.is_digit rest in
            let comma :=
              if PyStr.starts_with "," (PyStr.drop (String.length ds) rest)
              then 1 else 0 in
            (if decide (ds = "") then [] else [PyStr.digits_value 0 ds])
            ++ title_counts value
                 (String.length value + String.length ds + comma - 1) s'
          else title_counts value 0 s'
      end
  end.

Definition avoid_duplicate_name (names : list string) (value : string)
    : string :=
  if existsb (λ n, String.eqb (PyStr.lower n) (PyStr.lower value)) names
  then value +:+
       PyStr.of_nat (S (max_list (title_counts value 0 (PyStr.join "," names))))
  else value.

(** The sheets of a workbook file: the cells that hold a value. *)
Record xlsx := Xlsx {
  x_sheets : list (string * gmap (nat * nat) value);
  x_active : nat
}.

(** What the writer keeps of a value: an empty text is written as a cell
    without a value. *)
Definition blank (v : value) : value :=
  match v with
  | VStr s => if decide (s = "") then VNone else v
  | _ => v
  end.

(** The cells a sheet file holds: they have a value, at a row and a column
    numbered from 1. Cells written without a value are not kept. *)
Definition valued (m : gmap (nat * nat) value) : gmap (nat * nat) value :=
  filter (λ kv : nat * nat * value,
            kv.2 ≠ VNone ∧ (1 ≤ kv.1.1)%nat ∧ (1 ≤ kv.1.2)%nat)
         (blank <$> m).

(** what [wb.save] writes *)
Definition to_xlsx (wb : workbook) : xlsx :=
  Xlsx ((λ p : string * worksheet, (p.1, valued (ws_cells p.2)))
          <$> wb_sheets wb)
       (wb_active wb).

Definition read_sheet (m : gmap (nat * nat) value) : worksheet :=
  let m' := valued m in
  Worksheet m' (if decide (m' = ∅) then 0 else cells_max_row m').

(** what [load_workbook] builds *)
Definition of_xlsx (x : xlsx) : workbook :=
  Workbook ((λ p : string * gmap (nat * nat) value, (p.1, read_sheet p.2))
              <$> x_sheets x)
           (x_active x).

Fixpoint column_letters_value (acc : nat) (s : string) : nat :=
  match s with
  | "" => acc
  | String c s' =>
      column_letters_value (26 * acc + (N.to_nat (PyStr.code c) - 64)) s'
  end.

(** [column_index_from_string]: one to three letters, A .. ZZZ *)
Definition column_index_from_string (s : string) : option nat :=
  let u := PyStr.upper s in
  if PyStr.all_chars PyStr.is_upper u
     && (1 <=? String.length u)%nat && (String.length u <=? 3)%nat
  then Some (column_letters_value 0 u)
  else None.

End Xl.


(** ** Files *)

(** A file is text (a captured page, a session file) or a workbook. *)
Inductive file :=
  | FText (s : string)
  | FXlsx (x : Xl.xlsx).

#[global] Instance outcome_ret : MRet outcome := λ A a, Returned a.
#[global] Instance outcome_bind : MBind outcome := λ A B f m,
  match m with
  | Returned a => f a
  | Raised e => Raised e
  end.

(** [os.path.exists] *)
Definition path_exists (path : string) (fs : gmap string file) : bool :=
  bool_decide (is_Some (fs !! path)).

(** [os.path.join(dir, name)] for a relative [name] *)
Definition path_join (dir name : string) : string :=
  if decide (dir = "") then name
  else if PyStr.starts_with "/" (String.rev dir) then dir +:+ name
  else dir +:+ "/" +:+ name.

Definition load_workbook (path : string) (fs : gmap string file)
    : outcome Xl.workbook :=
  match fs !! path with
  | Some (FXlsx x) => Returned (Xl.of_xlsx x)
  | Some (FText _) => Raised (Exn "BadZipFile" "File is not a zip file")
  | None => Raised (Exn "FileNotFoundError" path)
  end.

(** [wb.save(path)] *)
Definition save_workbook (wb : Xl.workbook) (path : string)
    (fs : gmap string file) : gmap string file :=
  <[path := FXlsx (Xl.to_xlsx wb)]> fs.

(** ** The tabular append store and the column projector *)

Definition _to_jsonable (v : value) : value :=
  match v with
  | VCompound dumps => VStr dumps
  | _ => v
  end.

(** [token is None or token.strip().lower() == "blank column"] *)
Definition is_blank (token : option string) : bool :=
  match token with
  | None => true
  | Some s => String.eqb (PyStr.lower (PyStr.strip s)) "blank column"
  end.

(** The loop body for a valid reference: rows 1 .. [max_row] of the source
    column are read (which creates the missing source cells) and their
    values written to the target column. *)
Definition copy_column (max_row src_col tgt_col : nat)
    (st : Xl.worksheet * Xl.worksheet) : Xl.worksheet * Xl.worksheet :=
  foldl (λ (st : Xl.worksheet * Xl.worksheet) r,
           let src' := Xl.touch r src_col st.1 in
           (src', Xl.cell r tgt_col (Xl.value_at r src_col src') st.2))
        st (seq 1 max_row).

(** The loop body for an invalid reference: an empty column. *)
Definition empty_column (max_row tgt_col : nat) (tgt : Xl.worksheet)
    : Xl.worksheet :=
  foldl (λ tgt r, Xl.cell r tgt_col VNone tgt) tgt (seq 1 max_row).

(** [for token in column_refs: ...], the same loop in
    [save_dict_to_excel_row] and in [copy_columns_by_references]. *)
Fixpoint project_columns (refs : list (option string))
    (max_row tgt_col_idx : nat) (src tgt : Xl.worksheet)
    : Xl.worksheet * Xl.worksheet :=
  match refs with
  | [] => (src, tgt)
  | token :: rest =>
      if is_blank token then
        project_columns rest max_row (S tgt_col_idx) src tgt
      else
        let col_letters := PyStr.strip (default "" token) in
        match Xl.column_index_from_string (PyStr.upper col_letters) with
        | None =>
            project_columns rest max_row (S tgt_col_idx) src
              (empty_column max_row tgt_col_idx tgt)
        | Some src_col_idx =>
            let st := copy_column max_row src_col_idx tgt_col_idx (src, tgt) in
            project_columns rest max_row (S tgt_col_idx) st.1 st.2
        end
  end.

(** [wb[name]]: the first sheet of that title *)
Fixpoint first_titled (name : string) (l : list (string * Xl.worksheet))
    : option Xl.worksheet :=
  match l with
  | [] => None
  | (t, ws) :: l' => if decide (t = name) then Some ws else first_titled name l'
  end.

Definition sheet_named (name : string) (wb : Xl.workbook)
    : option Xl.worksheet :=
  first_titled name (Xl.wb_sheets wb).

(** The source sheet, with its title. *)
Definition select_source (source_sheet_name : option string)
    (wb : Xl.workbook) : outcome (string * Xl.worksheet) :=
  match source_sheet_name with
  | Some name =>
      if decide (name = "") then
        match Xl.wb_sheets wb !! 0 with
        | Some p => Returned p
        | None => Raised (Exn "IndexError" "list index out of range")
        end
      else
        match sheet_named name wb with
        | Some ws => Returned (name, ws)
        | None =>
            Raised (Exn "ValueError"
                        ("Sheet '" +:+ name +:+ "' not found in workbook."))
        end
  | None =>
      match Xl.wb_sheets wb !! 0 with
      | Some p => Returned p
      | None => Raised (Exn "IndexError" "list index out of range")
      end
  end.

(** The first sheet of a title is replaced: in Python the source sheet is
    mutated in place, and it is the first sheet of its title. *)
Fixpoint update_sheet (title : string) (ws : Xl.worksheet)
    (l : list (string * Xl.worksheet)) : list (string * Xl.worksheet) :=
  match l with
  | [] => []
  | (t, w) :: l' =>
      if decide (t = title) then (t, ws) :: l'
      else (t, w) :: update_sheet title ws l'
  end.

(** From "create unique new sheet name" to the end of the token loop: the
    sheet "converted" is deleted when there is one, a new sheet is created
    under that title and filled from the source. A source that was itself
    titled "converted" has left the workbook by then. *)
Definition project_into (refs : list (option string)) (src_title : string)
    (src : Xl.worksheet) (wb : Xl.workbook) : Xl.workbook :=
  let new_name := "converted" in
  let sheets1 :=
    if decide (new_name ∈ Xl.sheetnames wb)
    then Xl.remove_sheet "converted" (Xl.wb_sheets wb)
    else Xl.wb_sheets wb in
  let title := Xl.avoid_duplicate_name sheets1.*1 new_name in
  let max_row := Xl.max_row src in
  let st := project_columns refs max_row 1 src Xl.new_worksheet in
  let sheets2 :=
    if decide (src_title = "converted" ∧ new_name ∈ Xl.sheetnames wb)
    then sheets1
    else update_sheet src_title st.1 sheets1 in
  Xl.Workbook (sheets2 ++ [(title, st.2)]) (Xl.wb_active wb).

Definition column_refs : list (option string) :=
  Some <$>
  [ "a"; "d"; "ar"; "x"; "e"; "as"; "y"; "blank column";
    "i"; "aw"; "ac"; "j"; "ax"; "ad"; "blank column";
    "n"; "bb"; "ah"; "o"; "bc"; "ai"; "blank column";
    "s"; "bg"; "am"; "t"; "bh"; "an" ].

(** [for col_idx, header in enumerate(headers, start=1):
       ws.cell(row=1, column=col_idx, value=header)] *)
Fixpoint write_header (col_idx : nat) (headers : list value)
    (ws : Xl.worksheet) : Xl.worksheet :=
  match headers with
  | [] => ws
  | header :: rest => write_header (S col_idx) rest (Xl.cell 1 col_idx header ws)
  end.

(** [v = data.get(h); _to_jsonable(v) if v is not None else None]; a header
    cell that is not a string is no key of [data]. *)
Definition row_value (data : pydict) (h : value) : value :=
  match h with
  | VStr k =>
      match dict_get data k with
      | VNone => VNone
      | v => _to_jsonable v
      end
  | _ => VNone
  end.

(** From "read existing headers from first row" to [ws.append(row)]: what
    the existing-file branch does to the active sheet. *)
Definition append_row_to_sheet (data : pydict) (ws : Xl.worksheet)
    : Xl.worksheet :=
  let '(existing_headers, ws) := Xl.first_row ws in
  let new_keys :=
    filter (λ k, VStr k ∉ existing_headers) (dict_keys data) in
  let headers :=
    match new_keys with
    | [] => existing_headers
    | _ => (existing_headers ++ (VStr <$> new_keys))%list
    end in
  let ws :=
    match new_keys with
    | [] => ws
    | _ => write_header 1 headers ws
    end in
  let row := row_value data <$> headers in
  Xl.append row ws.

Definition save_dict_to_excel_row (data : pydict) (excel_path : string)
    (fs : gmap string file) : outcome (gmap string file) :=
  if negb (path_exists excel_path fs) then
    let wb := Xl.new_workbook in
    match Xl.active wb with
    | None => Raised (Exn "AttributeError" "'NoneType' object has no attribute 'append'")
    | Some ws =>
        let headers := dict_keys data in
        let ws := Xl.append (VStr <$> headers) ws in
        let row := (λ h, _to_jsonable (dict_get data h)) <$> headers in
        let ws := Xl.append row ws in
        Returned (save_workbook (Xl.set_active ws wb) excel_path fs)
    end
  else
    wb ← load_workbook excel_path fs;
    match Xl.active wb with
    | None => Raised (Exn "AttributeError" "'NoneType' object has no attribute 'iter_rows'")
    | Some ws =>
        let ws := append_row_to_sheet data ws in
        let wb := Xl.set_active ws wb in
        let fs := save_workbook wb excel_path fs in
        src ← select_source None wb;
        let wb := project_into column_refs src.1 src.2 wb in
        Returned (save_workbook wb excel_path fs)
    end.

Definition copy_columns_by_references (file_path : string)
    (column_refs : list (option string)) (source_sheet_name : option string)
    (new_sheet_base_name : string) (fs : gmap string file)
    : outcome (string * gmap string file) :=
  if negb (path_exists file_path fs) then
    Raised (Exn "FileNotFoundError" ("File not found: " +:+ file_path))
  else
    wb ← load_workbook file_path fs;
    src ← select_source source_sheet_name wb;
    let wb := project_into column_refs src.1 src.2 wb in
    Returned ("converted", save_workbook wb file_path fs).


(** ** Parsed documents (BeautifulSoup) *)

Module Html.

Inductive node :=
  | Text (s : string)
  | Elem (tag : string) (attrs : list (string * string)) (children : list node).

(** An element met while walking the tree in document order, with its
    ancestors (nearest first) and the siblings that follow it. *)
Record visit := Visit {
  v_node : node;
  v_ancestors : list node;
  v_next_siblings : list node
}.

Definition tag_is (name : string) (n : node) : bool :=
  match n with
  | Elem t _ _ => String.eqb t name
  | Text _ => false
  end.

Fixpoint assoc (k : string) (l : list (string * string)) : option string :=
  match l with
  | [] => None
  | (k', v) :: l' => if String.eqb k k' then Some v else assoc k l'
  end.

(** [tag.get(name)] *)
Definition attr (name : string) (n : node) : option string :=
  match n with
  | Elem _ attrs _ => assoc name attrs
  | Text _ => None
  end.

Definition attr_is (name v : string) (n : node) : bool :=
  bool_decide (attr name n = Some v).

(** [class] is a multi-valued attribute. *)
Definition has_class (c : string) (n : node) : bool :=
  bool_decide (c ∈ PyStr.words (default "" (attr "class" n))).

(** the strings below a node, in document order *)
Fixpoint strings (n : node) : list string :=
  match n with
  | Text s => [s]
  | Elem _ _ kids =>
      (fix go (ks : list node) : list string :=
         match ks with
         | [] => []
         | k :: ks' => (strings k ++ go ks')%list
         end) kids
  end.

Definition stripped_strings (n : node) : list string :=
  filter (λ s, s ≠ "") (PyStr.strip <$> strings n).

(** [tag.get_text()] *)
Definition get_text (n : node) : string := PyStr.join "" (strings n).
(** [tag.get_text(strip=True)] *)
Definition get_text_strip (n : node) : string :=
  PyStr.join "" (stripped_strings n).
(** [tag.get_text(sep, strip=True)] *)
Definition get_text_sep_strip (sep : string) (n : node) : string :=
  PyStr.join sep (stripped_strings n).

Fixpoint visits (anc : list node) (n : node) (next : list node)
    : list visit :=
  match n with
  | Text _ => []
  | Elem _ _ kids =>
      Visit n anc next ::
      (fix go (ks : list node) : list visit :=
         match ks with
         | [] => []
         | k :: ks' => (visits (n :: anc) k ks' ++ go ks')%list
         end) kids
  end.

(** the elements of a document, in document order *)
Fixpoint document_visits (doc : list node) : list visit :=
  match doc with
  | [] => []
  | n :: doc' => (visits [] n doc' ++ document_visits doc')%list
  end.

(** the elements strictly below a node *)
Definition descendants (n : node) : list node :=
  v_node <$> tail (visits [] n []).

(** [soup.find(...)]: the first element, in document order, that matches *)
Definition find (p : node → bool) (doc : list node) : option visit :=
  List.find (λ v, p (v_node v)) (document_visits doc).

(** [tag.find_next_sibling(name)] *)
Definition find_next_sibling (name : string) (v : visit) : option node :=
  List.find (tag_is name) (v_next_siblings v).

(** [soup.select_one("A B")] for a descendant combinator: the first element
    matching [B] with an ancestor matching [A]. *)
Definition select_one_descendant (a b : node → bool) (doc : list node)
    : option node :=
  v_node <$>
  List.find (λ v, b (v_node v) && existsb a (v_ancestors v))
            (document_visits doc).

End Html.

(** The two tree builders the script asks BeautifulSoup for. *)
Class Soup := {
  lxml : string → list Html.node;
  html_parser : string → list Html.node
}.

(** [open(path, "r", encoding="utf-8").read()] *)
Definition read_text (path : string) (fs : gmap string file)
    : outcome string :=
  match fs !! path with
  | Some (FText s) => Returned s
  | Some (FXlsx _) =>
      Raised (Exn "UnicodeDecodeError" "'utf-8' codec can't decode byte")
  | None => Raised (Exn "FileNotFoundError" path)
  end.

(** ** Regular expressions of the script *)

Definition is_amount_char (c : ascii) : bool :=
  PyStr.is_digit c || Ascii.eqb c ","%char.

(** [\$\s*[\d,]+\.\d{2}] anchored at the start of [s]: the matched text.
    The three classes are disjoint, so the greedy choice is the only one. *)
Definition match_price (s : string) : option string :=
  match s with
  | String "$"%char s1 =>
      let ws := PyStr.take_while PyStr.is_space s1 in
      let s2 := PyStr.drop (String.length ws) s1 in
      let ds := PyStr.take_while is_amount_char s2 in
      match PyStr.drop (String.length ds) s2 with
      | String "."%char (String d1 (String d2 _)) =>
          if negb (String.eqb ds "") && PyStr.is_digit d1 && PyStr.is_digit d2
          then Some ("$" +:+ ws +:+ ds +:+ "." +:+ String d1 (String d2 ""))
          else None
      | _ => None
      end
  | _ => None
  end.

(** [re.search(r"\$\s*[\d,]+\.\d{2}", s)]: the leftmost match *)
Fixpoint search_price (s : string) : option string :=
  match match_price s with
  | Some m => Some m
  | None =>
      match s with
      | "" => None
      | String _ s' => search_price s'
      end
  end.

Fixpoint findall_price_go (skip : nat) (s : string) : list string :=
  match s with
  | "" => []
  | String _ s' =>
      match skip with
      | S k => findall_price_go k s'
      | 0 =>
          match match_price s with
          | Some m => m :: findall_price_go (String.length m - 1) s'
          | None => findall_price_go 0 s'
          end
      end
  end.

(** [re.findall(r"\$\s*[\d,]+\.\d{2}", s)]: the matches from left to right,
    without overlap *)
Definition findall_price (s : string) : list string := findall_price_go 0 s.

Definition is_sku_char (c : ascii) : bool :=
  PyStr.is_alnum c || Ascii.eqb c "-"%char.

(** [sku-([A-Za-z0-9-]+)], ignoring case, anchored at the start of [s]:
    group 1 *)
Definition match_sku (s : string) : option string :=
  if String.eqb (PyStr.lower (PyStr.take 4 s)) "sku-" then
    let g := PyStr.take_while is_sku_char (PyStr.drop 4 s) in
    if String.eqb g "" then None else Some g
  else None.

Fixpoint search_sku (s : string) : option string :=
  match match_sku s with
  | Some g => Some g
  | None =>
      match s with
      | "" => None
      | String _ s' => search_sku s'
      end
  end.

(** ** Shared helpers *)

Definition hex_digit (n : N) : ascii :=
  if (n <? 10)%N then ascii_of_N (48 + n) else ascii_of_N (55 + n).

(** [quote_plus(s, safe="")], one byte at a time *)
Definition quote_plus_char (c : ascii) : string :=
  if PyStr.is_alnum c
     || Ascii.eqb c "_"%char || Ascii.eqb c "."%char
     || Ascii.eqb c "-"%char || Ascii.eqb c "~"%char
  then String c ""
  else if Ascii.eqb c " "%char then "+"
  else String "%"%char
         (String (hex_digit (PyStr.code c / 16))
            (String (hex_digit (PyStr.code c mod 16)) "")).

Fixpoint quote_plus (s : string) : string :=
  match s with
  | "" => ""
  | String c s' => quote_plus_char c +:+ quote_plus s'
  end.

(** the class [A-Za-z0-9._-] *)
Definition is_filename_char (c : ascii) : bool :=
  PyStr.is_alnum c
  || Ascii.eqb c "."%char || Ascii.eqb c "_"%char || Ascii.eqb c "-"%char.

Definition sanitize_filename (s : string) (maxlen : nat) : string :=
  if decide (s = "") then "file"
  else
    let s_enc := quote_plus s in
    let s_clean :=
      PyStr.map_chars (λ c, if is_filename_char c then c else "_"%char) s_enc in
    PyStr.take maxlen s_clean.

(** ** Site extractors *)

Definition parse_amazon_html `{Soup} (html_file_path : string)
    (fs : gmap string file) : outcome (value * value) :=
  if negb (path_exists html_file_path fs) then Returned (VNone, VNone)
  else
    html_content ← read_text html_file_path fs;
    let soup := lxml html_content in
    let span_of (c : string) :=
      Html.find (λ n, Html.tag_is "span" n && Html.has_class c n) soup in
    let price_whole := span_of "a-price-whole" in
    let price_fraction := span_of "a-price-fraction" in
    let price_symbol := span_of "a-price-symbol" in
    let price :=
      match price_whole, price_fraction with
      | Some w, Some f =>
          let symbol_text :=
            match price_symbol with
            | Some sy => PyStr.strip (Html.get_text (Html.v_node sy))
            | None => ""
            end in
          VStr (symbol_text
                +:+ PyStr.strip (Html.get_text (Html.v_node w))
                +:+ "."
                +:+ PyStr.strip (Html.get_text (Html.v_node f)))
      | _, _ => VNone
      end in
    let th_tag :=
      Html.find
        (λ tag, Html.tag_is "th" tag
                && PyStr.contains "item model number"
                     (PyStr.lower (Html.get_text_strip tag))) soup in
    let model_number :=
      match th_tag with
      | Some th =>
          match Html.find_next_sibling "td" th with
          | Some td => VStr (Html.get_text_strip td)
          | None => VNone
          end
      | None => VNone
      end in
    Returned (price, model_number).

Definition parse_bestbuy_html `{Soup} (input_file : string)
    (fs : gmap string file) : outcome (value * value) :=
  if negb (path_exists input_file fs) then
    Returned (VStr "Price not found", VStr "Model number not found")
  else
    html ← read_text input_file fs;
    let soup := lxml html in
    let price_element :=
      Html.select_one_descendant
        (Html.attr_is "data-testid" "price-block-customer-price")
        (Html.tag_is "span") soup in
    let price :=
      match price_element with
      | Some e => Html.get_text_strip e
      | None => "Price not found"
      end in
    let model_element :=
      Html.select_one_descendant
        (Html.has_class "disclaimer") (Html.has_class "inline-block") soup in
    let model_number :=
      match model_element with
      | Some e =>
          PyStr.strip (PyStr.replace "Model:" "" (Html.get_text_strip e))
      | None => "Model number not found"
      end in
    Returned (VStr price, VStr model_number).

Definition extract_sku_from_url (url : string) : value :=
  if decide (url = "") then VNone
  else match search_sku url with
       | Some g => VStr g
       | None => VNone
       end.

(** The radio option read for the price: the one marked checked, else the
    first whose text mentions 512. *)
Definition choose_radio (radios : list Html.node) : option Html.node :=
  match List.find (Html.attr_is "aria-checked" "true") radios with
  | Some r => Some r
  | None => List.find (λ r, PyStr.contains "512" (Html.get_text r)) radios
  end.

(** [for line in text.split("\n"): ...]: the match of the first line that
    holds a dollar sign, does not hold "was" and matches. *)
Fixpoint select_line (lines : list string) : option string :=
  match lines with
  | [] => None
  | line :: rest =>
      if PyStr.contains "$" line
         && negb (PyStr.contains "was" (PyStr.lower line))
      then match search_price line with
           | Some m => Some m
           | None => select_line rest
           end
      else select_line rest
  end.

(** [selected or (prices[-1] if prices else None)] *)
Definition choose_price (text : string) : option string :=
  let prices := findall_price text in
  match select_line (PyStr.split "010"%char text) with
  | Some selected => Some selected
  | None => last prices
  end.

Definition extract_price `{Soup} (filename : string) (fs : gmap string file)
    : outcome value :=
  if negb (path_exists filename fs) then Returned VNone
  else
    f ← read_text filename fs;
    let soup := html_parser f in
    match Html.find (Html.attr_is "id" "device_info") soup with
    | None => Returned VNone
    | Some container =>
        let radios :=
          filter (λ n, Html.attr_is "role" "radio" n = true)
                 (Html.descendants (Html.v_node container)) in
        match choose_radio radios with
        | None => Returned VNone
        | Some target =>
            let text := Html.get_text_sep_strip PyStr.newline target in
            Returned (from_option VStr VNone (choose_price text))
        end
    end.


(** ** Site pipelines *)

Inductive site := Amazon | BestBuy | Samsung.

(** What the browser does for one URL: for each awaited call of the loop
    body, the exception it raises, if any. *)
Record page_run := PageRun {
  on_new_page : option exn;      (* context.new_page() *)
  on_goto : option exn;          (* page.goto(url, ...) *)
  on_network_idle : option exn;  (* page.wait_for_load_state("networkidle") *)
  on_device_info : option exn;   (* page.wait_for_selector("#device_info") *)
  on_device_span : option exn;   (* page.wait_for_selector("#device_info span") *)
  on_interact : option exn;      (* delays, mouse moves and scrolling *)
  on_content : outcome string;   (* page.content() *)
  on_close : option exn          (* page.close() *)
}.

(** The browser engine: launching it, opening a context and reading the
    session state succeed; what happens on a page is up to the engine. *)
Class Browser := {
  page_run_of : site → nat → string → page_run;
  storage_state : site → string  (* the JSON text of the final session state *)
}.

Inductive event :=
  | EvLoadSession (cookies_file : string)
  | EvNewSession
  | EvGoto (url : string)
  | EvWrite (path : string)
  | EvSaveSession (cookies_file : string)
  | EvCloseBrowser.

#[global] Instance event_eq_dec : EqDecision event.
Proof. solve_decision. Defined.

(** The state a pipeline run works on: the files, what was done so far, and
    the local list [results]. *)
Record pstate := PState {
  p_fs : gmap string file;
  p_trace : list event;
  p_results : list pydict
}.

Definition run (A : Type) : Type := pstate → outcome A * pstate.

#[global] Instance run_ret : MRet run := λ A a st, (Returned a, st).
#[global] Instance run_bind : MBind run := λ A B f m st,
  match m st with
  | (Returned a, st') => f a st'
  | (Raised e, st') => (Raised e, st')
  end.

Definition emit (ev : event) : run unit := λ st,
  (Returned (), PState (p_fs st) (p_trace st ++ [ev]) (p_results st)).

(** an awaited call that may raise *)
Definition await (o : option exn) : run unit := λ st,
  match o with
  | None => (Returned (), st)
  | Some e => (Raised e, st)
  end.

Definition lift {A} (o : outcome A) : run A := λ st, (o, st).

Definition with_fs {A} (f : gmap string file → outcome A) : run A := λ st,
  (f (p_fs st), st).

(** [with open(path, "w") as f: f.write(text)] *)
Definition write_text (path text : string) : run unit := λ st,
  (Returned (),
   PState (<[path := FText text]> (p_fs st)) (p_trace st ++ [EvWrite path])
          (p_results st)).

(** [results.append(record)] *)
Definition append_result (record : pydict) : run unit := λ st,
  (Returned (), PState (p_fs st) (p_trace st) (p_results st ++ [record])).

(** [return results] *)
Definition get_results : run (list pydict) := λ st,
  (Returned (p_results st), st).

(** [try: body except Exception as e: handler(e)] *)
Definition try_except {A} (body : run A) (handler : exn → run A) : run A :=
  λ st,
  match body st with
  | (Returned a, st') => (Returned a, st')
  | (Raised e, st') => handler e st'
  end.

Definition is_timeout (e : exn) : bool :=
  String.eqb (exn_kind e) "TimeoutError".

(** [try: body except TimeoutError: handler] *)
Definition try_except_timeout {A} (body : run A) (handler : run A) : run A :=
  λ st,
  match body st with
  | (Raised e, st') => if is_timeout e then handler st' else (Raised e, st')
  | r => r
  end.

(** [try: body finally: cleanup] *)
Definition try_finally {A} (body : run A) (cleanup : run unit) : run A :=
  λ st,
  match body st with
  | (r, st') =>
      match cleanup st' with
      | (Returned _, st'') => (r, st'')
      | (Raised e, st'') => (Raised e, st'')
      end
  end.

Definition ok_record (url output_file : string) (price : value)
    (id_field : string) (id : value) : pydict :=
  [("url", VStr url); ("file", VStr output_file); ("price", price);
   (id_field, id); ("status", VStr "ok")].

Definition error_record (url : string) (id_field : string) (e : exn)
    : pydict :=
  [("url", VStr url); ("file", VNone); ("price", VNone);
   (id_field, VNone); ("status", VStr ("error: " +:+ exn_msg e))].

Definition partial_record (url output_file : string) (sku : value) : pydict :=
  [("url", VStr url); ("file", VStr output_file); ("price", VNone);
   ("sku", sku); ("status", VStr "partial: no device_info")].

(** the context of a pipeline that reuses a session file *)
Definition open_context (cookies_file : string) : run unit := λ st,
  if path_exists cookies_file (p_fs st)
  then emit (EvLoadSession cookies_file) st
  else emit EvNewSession st.

(** [storage_state = await context.storage_state()] and the [json.dump] to
    the session file *)
Definition save_session `{Browser} (s : site) (cookies_file : string)
    : run unit := λ st,
  (Returned (),
   PState (<[cookies_file := FText (storage_state s)]> (p_fs st))
          (p_trace st ++ [EvSaveSession cookies_file]) (p_results st)).

Section pipelines.
Context `{Soup} `{Browser}.

(** *** Amazon *)

Definition amazon_url (output_dir : string) (idx : nat) (url : string)
    : run unit :=
  let pr := page_run_of Amazon idx url in
  try_except
    (let safe_name := PyStr.take 120 (sanitize_filename url 200) in
     let output_file :=
       path_join output_dir
         ("amazon_" +:+ PyStr.of_nat idx +:+ "_" +:+ safe_name +:+ ".html") in
     await (on_new_page pr);;
     emit (EvGoto url);;
     await (on_goto pr);;
     await (on_interact pr);;
     html_content ← lift (on_content pr);
     write_text output_file html_content;;
     parsed ← with_fs (parse_amazon_html output_file);
     await (on_close pr);;
     append_result (ok_record url output_file parsed.1 "model" parsed.2))
    (λ e, append_result (error_record url "model" e)).

Fixpoint amazon_loop (output_dir : string) (idx : nat) (urls : list string)
    : run unit :=
  match urls with
  | [] => mret ()
  | url :: rest =>
      amazon_url output_dir idx url;; amazon_loop output_dir (S idx) rest
  end.

Definition save_amazon_htmls (urls : list string)
    (output_dir cookies_file : string) : run (list pydict) :=
  open_context cookies_file;;
  try_finally
    (amazon_loop output_dir 1 urls;;
     save_session Amazon cookies_file)
    (emit EvCloseBrowser);;
  get_results.

(** *** BestBuy *)

Definition bestbuy_url (output_dir : string) (idx : nat) (url : string)
    : run unit :=
  let pr := page_run_of BestBuy idx url in
  let safe_name := PyStr.take 120 (sanitize_filename url 200) in
  let output_file :=
    path_join output_dir
      ("bestbuy_" +:+ PyStr.of_nat idx +:+ "_" +:+ safe_name +:+ ".html") in
  try_except
    (await (on_new_page pr);;
     emit (EvGoto url);;
     await (on_goto pr);;
     await (on_interact pr);;
     html_content ← lift (on_content pr);
     write_text output_file html_content;;
     parsed ← with_fs (parse_bestbuy_html output_file);
     append_result (ok_record url output_file parsed.1 "model" parsed.2);;
     await (on_close pr))
    (λ e, append_result (error_record url "model" e)).

Fixpoint bestbuy_loop (output_dir : string) (idx : nat) (urls : list string)
    : run unit :=
  match urls with
  | [] => mret ()
  | url :: rest =>
      bestbuy_url output_dir idx url;; bestbuy_loop output_dir (S idx) rest
  end.

Definition save_bestbuy_htmls (urls : list string)
    (output_dir cookies_file : string) : run (list pydict) :=
  open_context cookies_file;;
  try_finally
    (bestbuy_loop output_dir 1 urls;;
     save_session BestBuy cookies_file)
    (emit EvCloseBrowser);;
  get_results.

(** *** Samsung *)

(** [wait_network_idle]: a timeout is reported and ignored *)
Definition wait_network_idle (o : option exn) : run unit :=
  try_except_timeout (await o) (mret ()).

(** One turn of the loop; the inner [try] yields [true] for [continue]. *)
Definition samsung_url (output_dir : string) (idx : nat) (url : string)
    : run unit :=
  let pr := page_run_of Samsung idx url in
  let safe_name := sanitize_filename url 200 in
  let output_file :=
    path_join output_dir
      ("samsung_" +:+ PyStr.of_nat idx +:+ "_" +:+ safe_name +:+ ".html") in
  try_except
    (await (on_new_page pr);;
     emit (EvGoto url);;
     await (on_goto pr);;
     wait_network_idle (on_network_idle pr);;
     continue ← try_except_timeout
       (await (on_device_info pr);; mret false)
       (html ← lift (on_content pr);
        write_text output_file html;;
        let sku := extract_sku_from_url url in
        append_result (partial_record url output_file sku);;
        await (on_close pr);;
        mret true);
     if (continue : bool) then mret ()
     else
       await (on_device_span pr);;
       html ← lift (on_content pr);
       write_text output_file html;;
       price ← with_fs (extract_price output_file);
       let sku := extract_sku_from_url url in
       append_result (ok_record url output_file price "sku" sku);;
       await (on_close pr))
    (λ e, append_result (error_record url "sku" e)).

Fixpoint samsung_loop (output_dir : string) (idx : nat) (urls : list string)
    : run unit :=
  match urls with
  | [] => mret ()
  | url :: rest =>
      samsung_url output_dir idx url;; samsung_loop output_dir (S idx) rest
  end.

(** The Samsung pipeline opens a new context whatever [cookies_file] holds
    and writes no session file: both steps are commented out in the
    script. *)
Definition save_samsung_htmls (urls : list string)
    (output_dir cookies_file : string) : run (list pydict) :=
  emit EvNewSession;;
  try_finally (samsung_loop output_dir 1 urls) (emit EvCloseBrowser);;
  get_results.

Definition pipeline (s : site) (urls : list string)
    (output_dir cookies_file : string) : run (list pydict) :=
  match s with
  | Amazon => save_amazon_htmls urls output_dir cookies_file
  | BestBuy => save_bestbuy_htmls urls output_dir cookies_file
  | Samsung => save_samsung_htmls urls output_dir cookies_file
  end.

(** a pipeline called on a file system: [results] starts empty *)
Definition run_pipeline (s : site) (urls : list string)
    (output_dir cookies_file : string) (fs : gmap string file)
    : outcome (list pydict) * pstate :=
  pipeline s urls output_dir cookies_file (PState fs [] []).

End pipelines.

(** ** Flattening the three result lists ([main]) *)

(** [for k, v in item.items(): flat[f"{site}_{i}_{k}"] = v] *)
Definition flatten_item (site_name : string) (i : nat) (item : pydict)
    (flat : pydict) : pydict :=
  foldl (λ (flat : pydict) (kv : string * value),
           dict_set flat
             (site_name +:+ "_" +:+ PyStr.of_nat i +:+ "_" +:+ kv.1) kv.2)
        flat item.

(** [for i, item in enumerate(res, start=1): ...] *)
Fixpoint flatten_site (site_name : string) (i : nat) (res : list pydict)
    (flat : pydict) : pydict :=
  match res with
  | [] => flat
  | item :: rest =>
      flatten_site site_name (S i) rest (flatten_item site_name i item flat)
  end.

Definition flatten (utcnow : string) (am_res bb_res sam_res : list pydict)
    : pydict :=
  let flat := dict_set [] "run_timestamp" (VStr (utcnow +:+ "Z")) in
  let flat := flatten_site "amazon" 1 am_res flat in
  let flat := flatten_site "bestbuy" 1 bb_res flat in
  flatten_site "samsung" 1 sam_res flat.


(** the URL lists of [main] *)
Definition amazon_urls : list string :=
  [ "https://www.amazon.com/Samsung-Smartphone-Unlocked-Manufacturer-Warranty/dp/B0F7JRKGH1/ref=sr_1_3?crid=2IIQ350CABWC7&keywords=galaxy%2Bz%2Bfold%2B7";
    "https://www.amazon.com/Smartphone-Unlocked-Processor-Manufacturer-Warranty/dp/B0DP3G4GVQ/ref=sr_1_1_sspa?crid=10TW4LFRAIOBO&dib=eyJ2IjoiMSJ9.uqQhueQzsbHe8zENbFmj7bUk0vIwEpi-0APakuwi3hHMu2vGmVltlmCoeqExLjwwHe1NY_y-eiRAZze4TELqwF9A5Z3q2WMC2EPG0p4nD5aGis4NWae_K-CRmvy0IwyOTABmJrdT_nBArRg_3HUXEeD8RiVcw9SrqiFQb-CKPztbZuf4z8k2ncgbVn8qKqGMwy7rSG9Br5vXcD_F-IobKCrdhThEoUQ0RDqrmYpPZPI.EY_aE-DTUSHzDMHcvx2u1pDmmaEgKrcYAQ31_D796hk&dib_tag=se&keywords=s25%2Bultra&qid=1763542293&sprefix=s25%2Caps%2C425&sr=8-1-spons&sp_csd=d2lkZ2V0TmFtZT1zcF9hdGY&th=1";
    "https://www.amazon.com/Samsung-Smartphone-Unlocked-Manufacturer-Warranty/dp/B0F7K3FZ79/ref=sr_1_1_sspa?crid=ZFFPIZBZ98GJ&dib=eyJ2IjoiMSJ9.UCywTCyyKG4bvq7perU6WJwDnwocjQBoU_CBTt0iLEilFUxs7eGFZYXZpU_ioObwnwWuyf6rjjxKURGHvrFykwP0YDyTNEHIJ6iMdK6L--UC4Xf9otHkBAGnuMrKXhDVPrKXBcX3EASPQMHPmIxeZyAUQDkEAC7kjvwYOc851BfCkl7yfIKNjFbb5-rq1n_ZNuEDFncqGGsmuRczfLMtzrq4HfNQyihnc2SfvotrbB8.gsaBvxdWlghc5_yM6ADh4JkaCZsCGwTYiwGF4rklYiw&dib_tag=se&keywords=galaxy%2Bz%2Bflip%2B7&qid=1763542634&sprefix=galaxy%2Bz%2Bflip7%2B%2Caps%2C427&sr=8-1-spons&sp_csd=d2lkZ2V0TmFtZT1zcF9hdGY&th=1";
    "https://www.amazon.com/SAMSUNG-Smartphone-Processor-ProScaler-Manufacturer/dp/B0DYVMVZSY/ref=sr_1_1_sspa?crid=18N7Z6JOQP2BV&dib=eyJ2IjoiMSJ9.nzLYfcsJ7KheFLAc8b9qkf36-GLK18wvNZAtoNJSu1Zuk0LTOxwvIqqD7blO0fqQDvGW1a_cFlDg5Nh6UJs25ksORtqvnynWCvMs3mnXvO49ZOy1Lc0OCa8xgu_zDwki3AucEZejB1tiHQzt8KYuAH3-YcGmTnO7s-Wn_1i_JPAcSstuLawUyqxRadquHocmToV-_PuNbtIeLyuTmsuGn88G4Hs_fJCfV7dzS_zI9l8.tjLmW8sTlnkCiJoCZPOQgL3qCTpiGvJ6gp9QKjm7R24&dib_tag=se&keywords=galaxy%2Bs25%2Bedge&qid=1763542733&sprefix=galaxy%2Bs25%2Bed%2Caps%2C351&sr=8-1-spons&sp_csd=d2lkZ2V0TmFtZT1zcF9hdGY&th=1" ].

Definition bestbuy_urls : list string :=
  [ "https://www.bestbuy.com/product/samsung-galaxy-z-fold7-512gb-unlocked-blue-shadow/JJGRF3XK3P";
    "https://www.bestbuy.com/product/samsung-galaxy-s25-ultra-512gb-unlocked-titanium-black/J3ZYG25H6J";
    "https://www.bestbuy.com/product/samsung-galaxy-z-flip7-512gb-unlocked-jet-black/JJGRF335X6";
    "https://www.bestbuy.com/product/samsung-galaxy-s25-edge-512gb-unlocked-titanium-jet-black/JJGRF3CQKC" ].

Definition samsung_urls : list string :=
  [ "https://www.samsung.com/us/smartphones/galaxy-z-fold7/buy/galaxy-z-fold7-512gb-unlocked-sku-sm-f966udbexaa/";
    "https://www.samsung.com/us/smartphones/galaxy-s25-ultra/buy/galaxy-s25-ultra-512gb-unlocked-sku-sm-s938uzkexaa/";
    "https://www.samsung.com/us/smartphones/galaxy-z-flip7/buy/galaxy-z-flip7-512gb-unlocked-sku-sm-f766uzkexaa/";
    "https://www.samsung.com/us/smartphones/galaxy-s25-ultra/buy/galaxy-s25-edge-512gb-unlocked-sku-sm-s937uzkexaa/" ].

(** [datetime.utcnow().isoformat()] *)
Class Clock := { utcnow_isoformat : string }.

Definition main `{Soup} `{Browser} `{Clock} (fs : gmap string file)
    : outcome (gmap string file) :=
  let am := run_pipeline Amazon amazon_urls "outputs" "amazon_cookies.json" fs in
  am_res ← am.1;
  let bb :=
    run_pipeline BestBuy bestbuy_urls "outputs" "bestbuy_cookies.json"
                 (p_fs am.2) in
  bb_res ← bb.1;
  let sam :=
    run_pipeline Samsung samsung_urls "outputs" "samsung_cookies.json"
                 (p_fs bb.2) in
  sam_res ← sam.1;
  let flat := flatten utcnow_isoformat am_res bb_res sam_res in
  let excel_file := path_join "outputs" "results.xlsx" in
  save_dict_to_excel_row flat excel_file (p_fs sam.2).

(** ** Vocabulary of the specification *)



(** The radio option of a Samsung document that [extract_price] reads. *)
Definition samsung_target `{Soup} (f : string) : option Html.node :=
  container ← Html.find (Html.attr_is "id" "device_info") (html_parser f);
  choose_radio
    (filter (λ n, Html.attr_is "role" "radio" n = true)
            (Html.descendants (Html.v_node container))).

(** The BestBuy markers. *)
Definition bestbuy_price_marker (doc : list Html.node) : option Html.node :=
  Html.select_one_descendant
    (Html.attr_is "data-testid" "price-block-customer-price")
    (Html.tag_is "span") doc.
Definition bestbuy_model_marker (doc : list Html.node) : option Html.node :=
  Html.select_one_descendant
    (Html.has_class "disclaimer") (Html.has_class "inline-block") doc.

(** The Amazon markers. *)
Definition amazon_span (c : string) (doc : list Html.node)
    : option Html.visit :=
  Html.find (λ n, Html.tag_is "span" n && Html.has_class c n) doc.
Definition amazon_model_label (doc : list Html.node) : option Html.visit :=
  Html.find
    (λ tag, Html.tag_is "th" tag
            && PyStr.contains "item model number"
                 (PyStr.lower (Html.get_text_strip tag))) doc.

(** A parser that finds nothing, a browser on which every page loads, and a
    browser on which the device-info region never shows: sample oracles. *)
Definition blank_soup : Soup := {| lxml := λ _, []; html_parser := λ _, [] |}.

Definition page_loads : page_run :=
  PageRun None None None None None None (Returned "<html></html>") None.
Definition page_without_device_info : page_run :=
  PageRun None None None (Some (Exn "TimeoutError" "Timeout 20000ms exceeded."))
          None None (Returned "<html></html>") None.

Definition steady_browser : Browser :=
  {| page_run_of := λ _ _ _, page_loads; storage_state := λ _, "{}" |}.
Definition slow_browser : Browser :=
  {| page_run_of := λ _ _ _, page_without_device_info;
     storage_state := λ _, "{}" |}.


(** Session events, and the shape of a run that reuses a session file:
    the session is set up first (loaded when the file was there), every
    page event comes next, the session is written once, and the browser is
    closed. *)
Definition is_session_event (ev : event) : bool :=
  match ev with
  | EvLoadSession _ | EvNewSession | EvSaveSession _ => true
  | _ => false
  end.

Definition session_discipline (cookies_file : string) (existed : bool)
    (tr : list event) : Prop :=
  ∃ pages,
    tr = ((if existed then EvLoadSession cookies_file else EvNewSession)
          :: pages ++ [EvSaveSession cookies_file; EvCloseBrowser])%list
    ∧ Forall (λ ev, is_session_event ev = false) pages.

(** A run that neither reads nor writes a session file. *)
Definition sessionless (tr : list event) : Prop :=
  ∃ pages,
    tr = (EvNewSession :: pages ++ [EvCloseBrowser])%list
    ∧ Forall (λ ev, is_session_event ev = false) pages.

(** What one turn of a loop may do to the state: page events are added to
    the trace; no session event is. *)
Definition page_events_only (st st' : pstate) : Prop :=
  ∃ evs, p_trace st' = (p_trace st ++ evs)%list
         ∧ Forall (λ ev, is_session_event ev = false) evs.

(** Records of a result list. *)
Definition is_ok_record (id_field : string) (r : pydict) : Prop :=
  ∃ url output_file price id, r = ok_record url output_file price id_field id.
Definition is_error_record (id_field : string) (r : pydict) : Prop :=
  ∃ url e, r = error_record url id_field e.
Definition one_ok_one_error (id_field : string) (res : list pydict) : Prop :=
  ∃ r1 r2, (res = [r1; r2] ∨ res = [r2; r1])
           ∧ is_ok_record id_field r1 ∧ is_error_record id_field r2.

(** A key of the form [<site>_<index>_<field>]. *)
Definition site_key (k : string) : Prop :=
  ∃ s i field,
    s ∈ ["amazon"; "bestbuy"; "samsung"]
    ∧ k = s +:+ "_" +:+ PyStr.of_nat i +:+ "_" +:+ field.

(** A way to check the form of a key. *)
Definition site_key_prefixes (indices : list nat) : list string :=
  s ← ["amazon"; "bestbuy"; "samsung"];
  i ← indices;
  [s +:+ "_" +:+ PyStr.of_nat i +:+ "_"].

Definition non_timestamp_keys (flat : pydict) : list string :=
  filter (λ k, k ≠ "run_timestamp") (dict_keys flat).

(** Sample result lists: one page that loads and one that does not. *)
Definition sample_amazon_results : list pydict :=
  [ok_record "https://www.amazon.com/dp/B0F7JRKGH1"
     "outputs/amazon_1_x.html" (VStr "$1,999.99") "model" (VStr "SM-F966U");
   error_record "https://www.amazon.com/dp/B0DP3G4GVQ" "model"
     (Exn "TimeoutError" "Timeout 30000ms exceeded.")].
Definition sample_bestbuy_results : list pydict :=
  [ok_record "https://www.bestbuy.com/product/JJGRF3XK3P"
     "outputs/bestbuy_1_x.html" (VStr "$1,999.99") "model"
     (VStr "SM-F966UDBEXAA");
   error_record "https://www.bestbuy.com/product/J3ZYG25H6J" "model"
     (Exn "TimeoutError" "Timeout 30000ms exceeded.")].
Definition sample_samsung_results : list pydict :=
  [ok_record "https://www.samsung.com/us/sku-sm-f966udbexaa/"
     "outputs/samsung_1_x.html" (VStr "$2,119.99") "sku"
     (VStr "sm-f966udbexaa");
   error_record "https://www.samsung.com/us/sku-sm-s938uzkexaa/" "sku"
     (Exn "TimeoutError" "Timeout 30000ms exceeded.")].


(** ** Vocabulary of the specification: tables and projections *)

(** element [i] of a row, [None] past its end *)
Definition nth_value (l : list value) (i : nat) : value :=
  default VNone (l !! i).

(** The header of a table, as the store reads it, and its data rows. *)
Definition header (ws : Xl.worksheet) : list value := (Xl.first_row ws).1.
Definition data_rows (ws : Xl.worksheet) : nat := Xl.max_row ws - 1.


(** The table kept in a workbook file: its active sheet. *)
Definition table_of (path : string) (fs : gmap string file)
    : option Xl.worksheet :=
  match fs !! path with
  | Some (FXlsx x) => Xl.active (Xl.of_xlsx x)
  | _ => None
  end.

Definition titles (x : Xl.xlsx) : list string := (Xl.x_sheets x).*1.

(** A workbook of the store: the active sheet is there, and neither it nor
    a sheet before it is the projected view. *)
Definition table_ok (x : Xl.xlsx) : Prop :=
  (Xl.x_active x < length (Xl.x_sheets x))%nat
  ∧ "converted" ∉ take (S (Xl.x_active x)) (titles x).

(** A record with a value to write: some key holds a value that is neither
    [None] nor the empty text. *)
Definition has_value (data : pydict) : Prop :=
  ∃ k, k ∈ dict_keys data ∧ Xl.blank (row_value data (VStr k)) ≠ VNone.

(** A record the store can keep as a row of its own: its keys are not
    empty and it has a value to write. A flattened record is one: it holds
    its time stamp. *)
Definition valid_record (data : pydict) : Prop :=
("" ∉ dict_keys data) ∧ has_value data.

(** The projected view in the words of the specification: output column
    [j] follows token [j]; a blank marker or a malformed reference leaves
    the column empty, a column reference copies the source column for every
    row up to the maximum row of the source. *)
Definition projected_value (refs : list (option string))
    (src : Xl.worksheet) (r j : nat) : value :=
  match refs !! (j - 1) with
  | Some token =>
      if is_blank token then VNone
      else
        match Xl.column_index_from_string
                (PyStr.upper (PyStr.strip (default "" token))) with
        | Some c =>
            if bool_decide (r ≤ Xl.max_row src)%nat then Xl.value_at r c src
            else VNone
        | None => VNone
        end
  | None => VNone
  end.

(** How many sheets have the title of the projected view. *)
Definition converted_sheets (x : Xl.xlsx) : nat :=
  length (filter (λ t, t = "converted") (titles x)).

(** No other title is "converted" up to case. *)
Definition no_case_clash (x : Xl.xlsx) : Prop :=
  ∀ t, t ∈ titles x → PyStr.lower t = "converted" → t = "converted".

(** The sheet a run of the projector has just created: the last one. *)
Definition projected_sheet (x : Xl.xlsx)
    : option (string * gmap (nat * nat) value) :=
  last (Xl.x_sheets x).

(** A sheet as [load_workbook] builds it. *)
Definition read_form (p : string * Xl.worksheet) : Prop :=
  ∃ cs, p.2 = Xl.read_sheet cs.

(** The workbook in memory once the row is appended (the first save). *)
Definition appended_workbook (data : pydict) (x : Xl.xlsx) : Xl.workbook :=
  let wb := Xl.of_xlsx x in
  match Xl.active wb with
  | Some ws => Xl.set_active (append_row_to_sheet data ws) wb
  | None => wb
  end.

(** Sample tables. *)
Definition sample_record : pydict :=
  [("run_timestamp", VStr "2025-01-01T00:00:00Z");
   ("amazon_1_url", VStr "https://www.amazon.com/dp/B0F7JRKGH1");
   ("amazon_1_price", VNone)].
Definition sample_table : Xl.xlsx :=
  Xl.Xlsx
    [("Sheet",
      {[ (1, 1) := VStr "run_timestamp"; (1, 2) := VStr "amazon_1_url";
         (2, 1) := VStr "2024-12-31T00:00:00Z";
         (2, 2) := VStr "https://www.amazon.com/dp/B0F7JRKGH1" ]})] 0.
Definition sample_fs : gmap string file :=
  {[ "outputs/results.xlsx" := FXlsx sample_table ]}.

Open Scope list_scope.
Open Scope nat_scope.

(** ** Vocabulary of the further properties *)


(** An SKU segment starts [s]: the letters [sku-] in any case, then a
    character of the class. *)
Definition sku_at (s : string) : Prop :=
  ∃ p c rest,
    s = p +:+ String c rest ∧ PyStr.lower p = "sku-" ∧ is_sku_char c = true.

(** The name a pipeline gives the identifier of a product, and the file it
    writes the page of its [idx]-th URL to. *)
Definition id_field (s : site) : string :=
  match s with
  | Amazon | BestBuy => "model"
  | Samsung => "sku"
  end.

Definition output_file (s : site) (output_dir : string) (idx : nat)
    (url : string) : string :=
  match s with
  | Amazon =>
      path_join output_dir
        ("amazon_" +:+ PyStr.of_nat idx +:+ "_"
         +:+ PyStr.take 120 (sanitize_filename url 200) +:+ ".html")
  | BestBuy =>
      path_join output_dir
        ("bestbuy_" +:+ PyStr.of_nat idx +:+ "_"
         +:+ PyStr.take 120 (sanitize_filename url 200) +:+ ".html")
  | Samsung =>
      path_join output_dir
        ("samsung_" +:+ PyStr.of_nat idx +:+ "_"
         +:+ sanitize_filename url 200 +:+ ".html")
  end.

(** One turn of the loop of a pipeline, and the loop. *)
Definition site_turn `{Soup} `{Browser} (s : site)
    : string → nat → string → run unit :=
  match s with
  | Amazon => amazon_url
  | BestBuy => bestbuy_url
  | Samsung => samsung_url
  end.

Definition site_loop `{Soup} `{Browser} (s : site)
    : string → nat → list string → run unit :=
  match s with
  | Amazon => amazon_loop
  | BestBuy => bestbuy_loop
  | Samsung => samsung_loop
  end.

(** The record of a URL: an error record, an ok record, or (Samsung) a
    partial record. *)
Definition record_of (s : site) (url path : string) (r : pydict) : Prop :=
  (∃ e, r = error_record url (id_field s) e)
  ∨ (∃ price id, r = ok_record url path price (id_field s) id)
  ∨ (s = Samsung ∧ ∃ sku, r = partial_record url path sku).

(** What a turn adds to [results]: the record of the URL, and after an ok
    or partial record of BestBuy or Samsung possibly an error record for
    the same URL. *)
Definition url_records (s : site) (url path : string) (recs : list pydict)
    : Prop :=
  ∃ r, record_of s url path r
       ∧ (recs = [r]
          ∨ ∃ e, s ≠ Amazon ∧ dict_get r "file" = VStr path
                 ∧ recs = [r; error_record url (id_field s) e]).

(** What a loop adds to [results] for the URLs numbered from [idx]. *)
Inductive loop_records (s : site) (output_dir : string)
    : nat → list string → list pydict → Prop :=
  | loop_records_nil idx : loop_records s output_dir idx [] []
  | loop_records_cons idx url urls recs rest :
      url_records s url (output_file s output_dir idx url) recs →
      loop_records s output_dir (S idx) urls rest →
      loop_records s output_dir idx (url :: urls) (recs ++ rest)%list.

(** [page.close()] never fails. *)
Definition closes `{Browser} (s : site) : Prop :=
  ∀ idx url, on_close (page_run_of s idx url) = None.

(** The page of a URL opens: every awaited call before the capture
    succeeds (for Samsung the wait for an idle network may time out). *)
Definition page_opens (s : site) (pr : page_run) : Prop :=
  on_new_page pr = None ∧ on_goto pr = None
  ∧ match s with
    | Amazon | BestBuy => on_interact pr = None
    | Samsung =>
        (on_network_idle pr = None
         ∨ ∃ e, on_network_idle pr = Some e ∧ is_timeout e = true)
        ∧ on_device_info pr = None ∧ on_device_span pr = None
    end.

(** What a pipeline reads in a captured page: the price and the
    identifier. *)
Definition site_parse `{Soup} (s : site) (path url : string)
    (fs : gmap string file) : outcome (value * value) :=
  match s with
  | Amazon => parse_amazon_html path fs
  | BestBuy => parse_bestbuy_html path fs
  | Samsung =>
      match extract_price path fs with
      | Returned price => Returned (price, extract_sku_from_url url)
      | Raised e => Raised e
      end
  end.

(** Sample browsers: every page behaves as the given page run. *)
Definition browser_of (pr : page_run) : Browser :=
  {| page_run_of := λ _ _ _, pr; storage_state := λ _, "{}" |}.

Definition page_unreachable : page_run :=
  PageRun None (Some (Exn "Error" "net::ERR_NAME_NOT_RESOLVED")) None None
          None None (Returned "") None.
Definition page_without_price : page_run :=
  PageRun None None None None
          (Some (Exn "TimeoutError" "Timeout 15000ms exceeded.")) None
          (Returned "<html></html>") None.
Definition page_close_fails : page_run :=
  PageRun None None None None None None (Returned "<html></html>")
          (Some (Exn "Error" "Target page, context or browser has been closed")).

(** A file that is text stays text; the other files the loop changes are
    output files of its URLs. *)
Definition loop_files (s : site) (d : string) (idx : nat)
    (urls : list string) (fs fs' : gmap string file) : Prop :=
  ∀ p, fs' !! p = fs !! p
       ∨ ∃ i url html,
           urls !! i = Some url ∧ p = output_file s d (idx + i)%nat url
           ∧ fs' !! p = Some (FText html).

Definition files_written (recs : list pydict) (fs : gmap string file)
    : Prop :=
  ∀ rec path, rec ∈ recs → dict_get rec "file" = VStr path →
              ∃ html, fs !! path = Some (FText html).

(** The key [main] gives field [k] of the [i]-th record of a site, and the
    entries the records of a site bring to the flattened record. *)
Definition flat_key (site_name : string) (i : nat) (k : string) : string :=
  site_name +:+ "_" +:+ PyStr.of_nat i +:+ "_" +:+ k.

Fixpoint site_entries (site_name : string) (i : nat) (res : list pydict)
    : pydict :=
  match res with
  | [] => []
  | item :: rest =>
      ((λ kv : string * value, (flat_key site_name i kv.1, kv.2)) <$> item)
      ++ site_entries site_name (S i) rest
  end%list.

(** Result lists of Python dictionaries: in each record a key stands
    once. *)
Definition records (res : list pydict) : Prop :=
  Forall (λ item, NoDup (dict_keys item)) res.


(** A sheet as the writer stores it. *)
Definition stored_sheet (p : string * Xl.worksheet)
    : string * gmap (nat * nat) value :=
  (p.1, Xl.valued (Xl.ws_cells p.2)).

(** A workbook with a table, a sheet of notes and an earlier view, and one
    with a sheet whose title differs from "converted" only by case. *)
Definition sample_notes : gmap (nat * nat) value :=
  {[ (1, 1) := VStr "checked by hand" ]}.
Definition sample_book : Xl.xlsx :=
  Xl.Xlsx
    [("Sheet",
      {[ (1, 1) := VStr "run_timestamp";
         (2, 1) := VStr "2024-12-31T00:00:00Z" ]});
     ("notes", sample_notes);
     ("converted", {[ (1, 1) := VStr "run_timestamp" ]})] 0.
Definition sample_clash_book : Xl.xlsx :=
  Xl.Xlsx
    [("Sheet", {[ (1, 1) := VStr "run_timestamp" ]});
     ("Converted", sample_notes)] 0.
Definition sample_book_fs : gmap string file :=
  {[ "book.xlsx" := FXlsx sample_book ]}.
Definition sample_clash_fs : gmap string file :=
  {[ "book.xlsx" := FXlsx sample_clash_book ]}.

(** A sample clock. *)
Definition sample_clock : Clock :=
  {| utcnow_isoformat := "2025-01-01T00:00:00.000000" |}.

(** The result list of a pipeline when each of its four pages gave one
    record. *)
Definition four_records (id : string) (res : list pydict) : Prop :=
  length res = 4
  ∧ Forall (λ rec, dict_keys rec = ["url"; "file"; "price"; id; "status"]) res.

(** The header of the view for the 28-token layout, on a table laid out by
    a run with four records for each site. *)
Definition view_header : list value :=
  [ VStr "run_timestamp";
    VStr "amazon_1_price"; VStr "samsung_1_price"; VStr "bestbuy_1_price";
    VStr "amazon_1_model"; VStr "samsung_1_sku"; VStr "bestbuy_1_model";
    VNone;
    VStr "amazon_2_price"; VStr "samsung_2_price"; VStr "bestbuy_2_price";
    VStr "amazon_2_model"; VStr "samsung_2_sku"; VStr "bestbuy_2_model";
    VNone;
    VStr "amazon_3_price"; VStr "samsung_3_price"; VStr "bestbuy_3_price";
    VStr "amazon_3_model"; VStr "samsung_3_sku"; VStr "bestbuy_3_model";
    VNone;
    VStr "amazon_4_price"; VStr "samsung_4_price"; VStr "bestbuy_4_price";
    VStr "amazon_4_model"; VStr "samsung_4_sku"; VStr "bestbuy_4_model" ].

(** Sample result lists and a table with their header. *)
Definition sample_four (id : string) : list pydict :=
  replicate 4
    [("url", VStr "https://example.com/p"); ("file", VStr "outputs/p.html");
     ("price", VNone); (id, VNone); ("status", VStr "ok")].
Definition sample_run_table : Xl.worksheet :=
  write_header 1
    (VStr <$> dict_keys (flatten "2025-01-01T00:00:00.000000"
                           (sample_four "model") (sample_four "model")
                           (sample_four "sku")))
    Xl.new_worksheet.

(** * Properties *)

(** ** Site extractors *)

Section extractors.
Context `{Soup}.

Lemma path_exists_false path (fs : gmap string file) :
  path_exists path fs = false ↔ fs !! path = None.
Proof.
  unfold path_exists. rewrite bool_decide_eq_false.
  rewrite <-eq_None_not_Some. done.
Qed.

Lemma path_exists_true path (fs : gmap string file) f :
  fs !! path = Some f → path_exists path fs = true.
Proof. intros Hf. unfold path_exists. apply bool_decide_eq_true. eauto. Qed.

Lemma amazon_missing_file path (fs : gmap string file) :
  path_exists path fs = false →
  parse_amazon_html path fs = Returned (VNone, VNone).
Proof. intros Hp. unfold parse_amazon_html. by rewrite Hp. Qed.

Lemma samsung_missing_file path (fs : gmap string file) :
  path_exists path fs = false → extract_price path fs = Returned VNone.
Proof. intros Hp. unfold extract_price. by rewrite Hp. Qed.

Lemma bestbuy_missing_file path (fs : gmap string file) :
  path_exists path fs = false →
  parse_bestbuy_html path fs
  = Returned (VStr "Price not found", VStr "Model number not found").
Proof. intros Hp. unfold parse_bestbuy_html. by rewrite Hp. Qed.

(** What [parse_bestbuy_html] returns for a captured document. *)
Lemma bestbuy_on_document input_file html (fs : gmap string file) :
  fs !! input_file = Some (FText html) →
  parse_bestbuy_html input_file fs
  = Returned
      (VStr (match bestbuy_price_marker (lxml html) with
             | Some e => Html.get_text_strip e
             | None => "Price not found"
             end),
       VStr (match bestbuy_model_marker (lxml html) with
             | Some e =>
                 PyStr.strip (PyStr.replace "Model:" "" (Html.get_text_strip e))
             | None => "Model number not found"
             end)).
Proof.
  intros Hf. unfold parse_bestbuy_html.
  rewrite (path_exists_true _ _ _ Hf). simpl.
  unfold read_text. rewrite Hf. reflexivity.
Qed.

Lemma amazon_on_document path html (fs : gmap string file) :
  fs !! path = Some (FText html) →
  ∃ price model,
    parse_amazon_html path fs = Returned (price, model)
    ∧ (amazon_span "a-price-whole" (lxml html) = None
       ∨ amazon_span "a-price-fraction" (lxml html) = None → price = VNone)
    ∧ (amazon_model_label (lxml html) = None → model = VNone).
Proof.
  intros Hf. unfold parse_amazon_html.
  rewrite (path_exists_true _ _ _ Hf). simpl.
  unfold read_text. rewrite Hf. simpl.
  eexists _, _. split; [reflexivity|].
  fold (amazon_span "a-price-whole" (lxml html)).
  fold (amazon_span "a-price-fraction" (lxml html)).
  fold (amazon_model_label (lxml html)).
  split.
  - intros [-> | ->]; [done|]. by destruct (amazon_span "a-price-whole" _).
  - by intros ->.
Qed.

Lemma samsung_on_document filename f (fs : gmap string file) :
  fs !! filename = Some (FText f) →
  extract_price filename fs
  = Returned
      (match samsung_target f with
       | Some target =>
           from_option VStr VNone
             (choose_price (Html.get_text_sep_strip PyStr.newline target))
       | None => VNone
       end).
Proof.
  intros Hf. unfold extract_price.
  rewrite (path_exists_true _ _ _ Hf). simpl.
  unfold read_text. rewrite Hf. simpl. unfold samsung_target.
  destruct (Html.find _ _) as [container|]; simpl; [|done].
  by destruct (choose_radio _).
Qed.

(** C5 (as amended): on a path with no file the Amazon extractor yields
    null for price and model and the Samsung extractor yields a null price;
    the BestBuy extractor yields its two "not found" texts. None of them
    raises. *)
Theorem C5_missing_document path (fs : gmap string file) :
  fs !! path = None →
  parse_amazon_html path fs = Returned (VNone, VNone)
  ∧ extract_price path fs = Returned VNone
  ∧ parse_bestbuy_html path fs
    = Returned (VStr "Price not found", VStr "Model number not found").
Proof.
  intros Hp%path_exists_false.
  auto using amazon_missing_file, samsung_missing_file, bestbuy_missing_file.
Qed.

(** C9: when the price marker of a BestBuy document selects nothing the
    price is the text "Price not found", when the model marker selects
    nothing the model is "Model number not found", and the BestBuy
    extractor never yields null; the Amazon extractor yields null for a
    missing price part or model label, the Samsung one for a document
    without a readable radio option. *)
Theorem C9_bestbuy_sentinels path html (fs : gmap string file) :
  fs !! path = Some (FText html) →
  ∃ price model,
    parse_bestbuy_html path fs = Returned (VStr price, VStr model)
    ∧ (bestbuy_price_marker (lxml html) = None → price = "Price not found")
    ∧ (bestbuy_model_marker (lxml html) = None
       → model = "Model number not found")
    ∧ VStr price ≠ VNone ∧ VStr model ≠ VNone
    ∧ (∃ aprice amodel,
         parse_amazon_html path fs = Returned (aprice, amodel)
         ∧ (amazon_span "a-price-whole" (lxml html) = None
            ∨ amazon_span "a-price-fraction" (lxml html) = None
            → aprice = VNone)
         ∧ (amazon_model_label (lxml html) = None → amodel = VNone))
    ∧ (samsung_target html = None → extract_price path fs = Returned VNone).
Proof.
  intros Hf. eexists _, _.
  split; [by apply bestbuy_on_document|].
  split; [by intros ->|]. split; [by intros ->|].
  split; [done|]. split; [done|].
  split; [by apply amazon_on_document|].
  intros Ht. rewrite (samsung_on_document _ _ _ Hf). by rewrite Ht.
Qed.

End extractors.

(** C5 (as stated) fails: for a missing file the BestBuy extractor returns
    its two "not found" texts, not a pair of nulls. *)
Lemma C5_bestbuy_not_null :
  (∅ : gmap string file) !! "outputs/bestbuy_1_x.html" = None
  ∧ @parse_bestbuy_html blank_soup "outputs/bestbuy_1_x.html" ∅
    ≠ Returned (VNone, VNone).
Proof. split; [reflexivity|]. vm_compute. discriminate. Qed.

Lemma C5_missing_document_witness :
  @parse_amazon_html blank_soup "outputs/amazon_1_x.html" ∅
  = Returned (VNone, VNone)
  ∧ @extract_price blank_soup "outputs/amazon_1_x.html" ∅ = Returned VNone
  ∧ @parse_bestbuy_html blank_soup "outputs/amazon_1_x.html" ∅
    = Returned (VStr "Price not found", VStr "Model number not found").
Proof. apply (@C5_missing_document blank_soup). reflexivity. Defined.

Lemma C9_bestbuy_sentinels_witness :
  ∃ price model,
    @parse_bestbuy_html blank_soup "p.html" {[ "p.html" := FText "<html/>" ]}
    = Returned (VStr price, VStr model)
    ∧ price = "Price not found" ∧ model = "Model number not found".
Proof.
  destruct (@C9_bestbuy_sentinels blank_soup "p.html" "<html/>"
              {[ "p.html" := FText "<html/>" ]})
    as (price & model & Hr & Hp & Hm & _); [reflexivity|].
  exists price, model. split; [exact Hr|].
  split; [apply Hp; reflexivity | apply Hm; reflexivity].
Defined.

(** ** The price pattern *)

Lemma take_while_all p s : PyStr.all_chars p (PyStr.take_while p s) = true.
Proof.
  induction s as [|c s IH]; simpl; [done|].
  destruct (p c) eqn:Hc; simpl; [|done]. by rewrite Hc.
Qed.

Lemma string_app_cons c (a b : string) :
  String c a +:+ b = String c (a +:+ b).
Proof. reflexivity. Qed.

Lemma string_app_nil (b : string) : "" +:+ b = b.
Proof. reflexivity. Qed.

Lemma take_while_drop p s :
  s = PyStr.take_while p s
      +:+ PyStr.drop (String.length (PyStr.take_while p s)) s.
Proof.
  induction s as [|c s IH]; simpl; [done|].
  destruct (p c); simpl; [|done].
  rewrite string_app_cons. by rewrite <-IH.
Qed.

Lemma string_app_assoc (a b c : string) : (a +:+ b) +:+ c = a +:+ b +:+ c.
Proof.
  induction a as [|x a IH]; [done|].
  rewrite !string_app_cons. by rewrite IH.
Qed.








Section samsung_price.
Context `{Soup}.


End samsung_price.


(** ** Site pipelines *)

Arguments extract_sku_from_url : simpl never.
Arguments path_join : simpl never.
Arguments sanitize_filename : simpl never.
Arguments parse_amazon_html : simpl never.
Arguments parse_bestbuy_html : simpl never.
Arguments extract_price : simpl never.
Arguments PyStr.of_nat : simpl never.
Arguments PyStr.take : simpl never.

Section pipeline_facts.
Context `{Soup} `{Browser}.

Lemma page_events_only_refl st : page_events_only st st.
Proof. exists []. by rewrite app_nil_r. Qed.

Lemma page_events_only_trans st1 st2 st3 :
  page_events_only st1 st2 → page_events_only st2 st3 →
  page_events_only st1 st3.
Proof.
  intros (e1 & H1 & F1) (e2 & H2 & F2). exists (e1 ++ e2)%list.
  rewrite H2, H1, app_assoc. split; [done|]. by apply Forall_app.
Qed.

Ltac run_step :=
  unfold wait_network_idle, try_except, try_except_timeout, mbind, run_bind,
    mret, run_ret, await, emit, lift, write_text, with_fs, append_result;
  simpl.

Ltac page_events :=
  simpl; rewrite <-?List.app_assoc;
  first [ exists []; rewrite List.app_nil_r; split;
          [reflexivity | apply List.Forall_nil]
        | eexists; split; [reflexivity | repeat constructor] ].

Ltac crunch :=
  repeat (simpl; match goal with
  | |- context [match ?x with Some _ => _ | None => _ end] => destruct x
  | |- context [match ?x with Returned _ => _ | Raised _ => _ end] =>
      destruct x
  | |- context [if is_timeout ?e then _ else _] => destruct (is_timeout e)
  end); simpl.

Lemma amazon_url_returns output_dir idx url st :
  (amazon_url output_dir idx url st).1 = Returned ()
  ∧ page_events_only st (amazon_url output_dir idx url st).2.
Proof.
  unfold amazon_url, page_events_only. run_step.
  crunch; (split; [done | page_events]).
Qed.

Lemma bestbuy_url_returns output_dir idx url st :
  (bestbuy_url output_dir idx url st).1 = Returned ()
  ∧ page_events_only st (bestbuy_url output_dir idx url st).2.
Proof.
  unfold bestbuy_url, page_events_only. run_step.
  crunch; (split; [done | page_events]).
Qed.

Lemma samsung_url_returns output_dir idx url st :
  (samsung_url output_dir idx url st).1 = Returned ()
  ∧ page_events_only st (samsung_url output_dir idx url st).2.
Proof.
  unfold samsung_url, page_events_only. run_step.
  crunch; (split; [done | page_events]).
Qed.

(** A loop runs every turn and returns. *)
Lemma loop_returns (turn : string → nat → string → run ())
    (loop : string → nat → list string → run ()) :
  (∀ d i, loop d i [] = mret ()) →
  (∀ d i u us, loop d i (u :: us) = (turn d i u;; loop d (S i) us)) →
  (∀ d i u st, (turn d i u st).1 = Returned ()
               ∧ page_events_only st (turn d i u st).2) →
  ∀ d us i st,
    (loop d i us st).1 = Returned ()
    ∧ page_events_only st (loop d i us st).2.
Proof.
  intros Hnil Hcons Hturn d us.
  induction us as [|u us IH]; intros i st.
  - rewrite Hnil. simpl. auto using page_events_only_refl.
  - rewrite Hcons. unfold mbind, run_bind.
    destruct (Hturn d i u st) as [Hr Hev].
    destruct (turn d i u st) as [o st1]; simpl in *. subst o.
    destruct (IH (S i) st1) as (Hr' & Hev').
    split; [done|]. by eapply page_events_only_trans.
Qed.

Lemma amazon_loop_returns d us i st :
  (amazon_loop d i us st).1 = Returned ()
  ∧ page_events_only st (amazon_loop d i us st).2.
Proof.
  destruct (loop_returns amazon_url amazon_loop) with d us i st
    as (? & ?); auto using amazon_url_returns.
Qed.

Lemma bestbuy_loop_returns d us i st :
  (bestbuy_loop d i us st).1 = Returned ()
  ∧ page_events_only st (bestbuy_loop d i us st).2.
Proof.
  destruct (loop_returns bestbuy_url bestbuy_loop) with d us i st
    as (? & ?); auto using bestbuy_url_returns.
Qed.

Lemma samsung_loop_returns d us i st :
  (samsung_loop d i us st).1 = Returned ()
  ∧ page_events_only st (samsung_loop d i us st).2.
Proof.
  destruct (loop_returns samsung_url samsung_loop) with d us i st
    as (? & ?); auto using samsung_url_returns.
Qed.

(** A pipeline that reuses a session file, whatever its loop. *)
Lemma session_pipeline_shape (loop : run ()) (s : site) cookies_file fs :
  (∀ st, (loop st).1 = Returned () ∧ page_events_only st (loop st).2) →
  let r :=
    (open_context cookies_file;;
     try_finally (loop;; save_session s cookies_file) (emit EvCloseBrowser);;
     get_results) (PState fs [] []) in
  r.1 = Returned (p_results r.2)
  ∧ session_discipline cookies_file (path_exists cookies_file fs) (p_trace r.2)
  ∧ p_fs r.2 !! cookies_file = Some (FText (storage_state s)).
Proof.
  intros Hloop. unfold open_context, try_finally, get_results, save_session,
    emit, mbind, run_bind. simpl.
  set (start := if path_exists cookies_file fs
                then EvLoadSession cookies_file else EvNewSession).
  assert (∀ st0 : pstate,
    (if path_exists cookies_file fs
     then (Returned (), PState fs [EvLoadSession cookies_file] [])
     else (Returned (), PState fs [EvNewSession] []))
    = (Returned (), PState fs [start] [])) as Hstart.
  { intros _. unfold start. by destruct (path_exists _ _). }
  rewrite (Hstart (PState fs [] [])). clear Hstart.
  destruct (Hloop (PState fs [start] [])) as [Hr (evs & Htr & Hev)].
  destruct (loop (PState fs [start] [])) as [o st1]; simpl in *. subst o.
  simpl. split; [done|]. split.
  - exists evs. rewrite Htr. simpl. split; [|done].
    rewrite <-!List.app_assoc. reflexivity.
  - apply lookup_insert_eq.
Qed.

(** C3 (as amended): the Amazon and BestBuy pipelines, over any URL list
    and whatever happens on each page, return after setting up the session
    first (loading it when the session file exists), then working on the
    pages, then writing the session file once, then closing the browser;
    the session file then holds the final session state. The Samsung
    pipeline always starts a new session and writes no session file. *)
Theorem C3_session_lifecycle (s : site) urls output_dir cookies_file
    (fs : gmap string file) :
  let r := run_pipeline s urls output_dir cookies_file fs in
  r.1 = Returned (p_results r.2)
  ∧ match s with
    | Amazon | BestBuy =>
        session_discipline cookies_file (path_exists cookies_file fs)
                           (p_trace r.2)
        ∧ p_fs r.2 !! cookies_file = Some (FText (storage_state s))
    | Samsung => sessionless (p_trace r.2)
    end.
Proof.
  destruct s; unfold run_pipeline, pipeline.
  - apply (session_pipeline_shape (amazon_loop output_dir 1 urls) Amazon).
    intros st. apply amazon_loop_returns.
  - apply (session_pipeline_shape (bestbuy_loop output_dir 1 urls) BestBuy).
    intros st. apply bestbuy_loop_returns.
  - unfold save_samsung_htmls, try_finally, get_results, emit, mbind,
      run_bind. simpl.
    destruct (samsung_loop_returns output_dir urls 1
                (PState fs [EvNewSession] [])) as [Hr (evs & Htr & Hev)].
    destruct (samsung_loop _ _ _ _) as [o st1]; simpl in *. subst o.
    simpl. split; [done|]. exists evs. rewrite Htr. by split.
Qed.


End pipeline_facts.

(** C3 (as stated) fails for the Samsung pipeline: with a session file in
    place it loads no session and writes none. *)
Lemma C3_samsung_ignores_session :
  let fs : gmap string file := {[ "samsung_cookies.json" := FText "{}" ]} in
  let r := @run_pipeline blank_soup steady_browser Samsung
             ["https://www.samsung.com/us/sku-sm-f966udbexaa/"]
             "outputs" "samsung_cookies.json" fs in
  path_exists "samsung_cookies.json" fs = true
  ∧ (EvLoadSession "samsung_cookies.json" ∉ p_trace r.2)
  ∧ (EvSaveSession "samsung_cookies.json" ∉ p_trace r.2)
  ∧ ¬ session_discipline "samsung_cookies.json" true (p_trace r.2).
Proof.
  vm_compute p_trace. split; [reflexivity|].
  split; [|split].
  - intros Hin.
    repeat (apply elem_of_cons in Hin; destruct Hin as [Hin | Hin];
            [discriminate|]).
    by apply elem_of_nil in Hin.
  - intros Hin.
    repeat (apply elem_of_cons in Hin; destruct Hin as [Hin | Hin];
            [discriminate|]).
    by apply elem_of_nil in Hin.
  - intros (pages & Heq & _). discriminate Heq.
Qed.



(** ** Flattening *)

Lemma starts_with_app p s :
  PyStr.starts_with p s = true → ∃ rest, s = p +:+ rest.
Proof.
  revert s. induction p as [|a p IH]; intros s; simpl.
  - intros _. by exists s.
  - destruct s as [|b s]; [done|].
    intros [->%Ascii.eqb_eq [rest ->]%IH]%andb_true_iff.
    by exists rest.
Qed.

Lemma site_key_check indices k :
  existsb (λ p, PyStr.starts_with p k) (site_key_prefixes indices) = true →
  site_key k.
Proof.
  intros (p & Hp & Hk)%existsb_exists.
  apply starts_with_app in Hk as [field ->].
  apply list_elem_of_In in Hp. unfold site_key_prefixes in Hp.
  apply list_elem_of_bind in Hp as (s & Hp & Hs).
  apply list_elem_of_bind in Hp as (i & Hp & _).
  apply list_elem_of_singleton in Hp as ->.
  exists s, i, field. split; [done|].
  by rewrite !string_app_assoc.
Qed.

Lemma Forall_site_key indices ks :
  forallb (λ k, existsb (λ p, PyStr.starts_with p k)
                        (site_key_prefixes indices)) ks = true →
  Forall site_key ks.
Proof.
  intros Hall. apply Forall_forall. intros k Hk.
  apply list_elem_of_In in Hk.
  eapply site_key_check. by eapply forallb_forall in Hall.
Qed.

(** C6 (as amended): when each of the three pipelines yields one ok record
    and one error record, the flattened record has exactly 30 keys other
    than [run_timestamp] (five fields for each of the six records), all
    distinct and each of the form [<site>_<index>_<field>]. *)
Theorem C6_flattened_keys utcnow am_res bb_res sam_res :
  one_ok_one_error "model" am_res →
  one_ok_one_error "model" bb_res →
  one_ok_one_error "sku" sam_res →
  let flat := flatten utcnow am_res bb_res sam_res in
  length (non_timestamp_keys flat) = 30
  ∧ NoDup (dict_keys flat)
  ∧ Forall site_key (non_timestamp_keys flat).
Proof.
  intros (a1 & a2 & Ha & (? & ? & ? & ? & ->) & (? & ? & ->))
         (b1 & b2 & Hb & (? & ? & ? & ? & ->) & (? & ? & ->))
         (s1 & s2 & Hs & (? & ? & ? & ? & ->) & (? & ? & ->)) flat.
  assert (dict_keys flat
          = dict_keys (flatten ""
              [ok_record "" "" VNone "model" VNone;
               error_record "" "model" (Exn "" "")]
              [ok_record "" "" VNone "model" VNone;
               error_record "" "model" (Exn "" "")]
              [ok_record "" "" VNone "sku" VNone;
               error_record "" "sku" (Exn "" "")])) as Hkeys.
  { subst flat.
    destruct Ha as [-> | ->], Hb as [-> | ->], Hs as [-> | ->];
      vm_compute; reflexivity. }
  unfold non_timestamp_keys. rewrite Hkeys. clear.
  split; [by vm_compute|]. split.
  - apply (bool_decide_unpack _). by vm_compute.
  - apply (Forall_site_key [1; 2]). by vm_compute.
Qed.

Lemma sample_results_shape :
  one_ok_one_error "model" sample_amazon_results
  ∧ one_ok_one_error "model" sample_bestbuy_results
  ∧ one_ok_one_error "sku" sample_samsung_results.
Proof.
  split; [|split].
  - eexists _, _. split; [left; reflexivity|].
    split; [by eexists _, _, _, _ | by eexists _, _].
  - eexists _, _. split; [left; reflexivity|].
    split; [by eexists _, _, _, _ | by eexists _, _].
  - eexists _, _. split; [left; reflexivity|].
    split; [by eexists _, _, _, _ | by eexists _, _].
Defined.

(** C6 (as stated) fails: one ok record and one error record per pipeline
    flatten to thirty keys besides [run_timestamp], not six. *)
Lemma C6_thirty_keys_not_six :
  one_ok_one_error "model" sample_amazon_results
  ∧ one_ok_one_error "model" sample_bestbuy_results
  ∧ one_ok_one_error "sku" sample_samsung_results
  ∧ length (non_timestamp_keys
              (flatten "2025-01-01T00:00:00" sample_amazon_results
                 sample_bestbuy_results sample_samsung_results)) ≠ 6.
Proof.
  destruct sample_results_shape as (Ha & Hb & Hs).
  split; [done|]. split; [done|]. split; [done|].
  vm_compute. lia.
Qed.

Lemma C6_flattened_keys_witness :
  length (non_timestamp_keys
            (flatten "2025-01-01T00:00:00" sample_amazon_results
               sample_bestbuy_results sample_samsung_results)) = 30.
Proof.
  refine (proj1 (C6_flattened_keys "2025-01-01T00:00:00" sample_amazon_results
            sample_bestbuy_results sample_samsung_results _ _ _)).
  - exact (proj1 sample_results_shape).
  - exact (proj1 (proj2 sample_results_shape)).
  - exact (proj2 (proj2 sample_results_shape)).
Defined.

(** ** Cell maps *)

Section cell_maps.
Implicit Types m : gmap (nat * nat) value.
Implicit Types ws : Xl.worksheet.

Lemma cells_value_Some m r c v :
  m !! (r, c) = Some v → Xl.cells_value m r c = v.
Proof. unfold Xl.cells_value. by intros ->. Qed.


Lemma blank_None_inv v : Xl.blank v ≠ VNone → v ≠ VNone.
Proof. by intros H ->. Qed.

Lemma blank_not_None v : Xl.blank v ≠ VNone → Xl.blank v = v.
Proof. destruct v as [|s| |]; simpl; try done. by case_decide. Qed.

Lemma blank_blank v : Xl.blank (Xl.blank v) = Xl.blank v.
Proof.
  destruct (decide (Xl.blank v = VNone)) as [-> | Hn]; [done|].
  by rewrite !(blank_not_None v Hn).
Qed.

Lemma blank_text s : s ≠ "" → Xl.blank (VStr s) = VStr s.
Proof. intros. simpl. by rewrite decide_False. Qed.

Lemma lookup_valued m r c v :
  Xl.valued m !! (r, c) = Some v
  ↔ (Xl.blank <$> m) !! (r, c) = Some v ∧ v ≠ VNone ∧ 1 ≤ r ∧ 1 ≤ c.
Proof. unfold Xl.valued. by rewrite map_lookup_filter_Some. Qed.

Lemma lookup_valued_value m r c v :
  Xl.valued m !! (r, c) = Some v
  ↔ Xl.blank (Xl.cells_value m r c) = v ∧ v ≠ VNone ∧ 1 ≤ r ∧ 1 ≤ c.
Proof.
  rewrite lookup_valued, lookup_fmap. unfold Xl.cells_value.
  destruct (m !! (r, c)) as [v0|]; simpl.
  - split; intros (Hm & ? & ? & ?); (split; [congruence|done]).
  - split; intros (Hm & ? & ? & ?); congruence.
Qed.

(** A sheet file holds the values of the sheet, an empty text left out. *)
Lemma cells_value_valued m r c :
  1 ≤ r → 1 ≤ c →
  Xl.cells_value (Xl.valued m) r c = Xl.blank (Xl.cells_value m r c).
Proof.
  intros Hr Hc.
  destruct (decide (Xl.blank (Xl.cells_value m r c) = VNone)) as [Hn | Hn].
  - rewrite Hn. unfold Xl.cells_value at 1.
    destruct (Xl.valued m !! (r, c)) as [v|] eqn:Hv; [|done].
    apply lookup_valued_value in Hv as (Hv & Hne & _). congruence.
  - apply cells_value_Some, lookup_valued_value. done.
Qed.


(** Two sheets with the same values write the same file. *)
Lemma valued_ext m1 m2 :
  (∀ r c, 1 ≤ r → 1 ≤ c →
     Xl.blank (Xl.cells_value m1 r c) = Xl.blank (Xl.cells_value m2 r c)) →
  Xl.valued m1 = Xl.valued m2.
Proof.
  intros Heq. apply map_eq. intros [r c]. apply option_eq. intros v.
  rewrite !lookup_valued_value.
  split; intros (Hv & ? & ? & ?); (split; [|done]).
  - by rewrite <-Heq.
  - by rewrite Heq.
Qed.

Lemma valued_valued m : Xl.valued (Xl.valued m) = Xl.valued m.
Proof.
  apply valued_ext. intros. rewrite cells_value_valued by done.
  apply blank_blank.
Qed.

(** *** Maxima *)

Lemma max_list_proj_bound (f : nat * nat * value → nat) m k v :
  m !! k = Some v → f (k, v) ≤ max_list (f <$> map_to_list m).
Proof.
  intros Hk. apply max_list_elem_of_le, list_elem_of_fmap.
  exists (k, v). split; [done|]. by apply elem_of_map_to_list.
Qed.

Lemma max_list_proj_attained (f : nat * nat * value → nat) m :
  m ≠ ∅ →
  ∃ k v, m !! k = Some v ∧ f (k, v) = max_list (f <$> map_to_list m).
Proof.
  intros Hne.
  assert (f <$> map_to_list m ≠ []) as Hl.
  { intros Hnil%fmap_nil_inv. by apply map_to_list_empty_iff in Hnil. }
  apply max_list_elem_of, list_elem_of_fmap in Hl as ([k v] & Heq & Hin).
  exists k, v. split; [by apply elem_of_map_to_list|done].
Qed.

Lemma cells_max_row_bound m r c v :
  m !! (r, c) = Some v → r ≤ Xl.cells_max_row m.
Proof.
  intros Hk. unfold Xl.cells_max_row, Xl.rows_of.
  destruct (decide (m = ∅)) as [-> | _]; [done|].
  apply (max_list_proj_bound (λ kv, kv.1.1) _ _ _ Hk).
Qed.

Lemma cells_max_column_bound m r c v :
  m !! (r, c) = Some v → c ≤ Xl.cells_max_column m.
Proof.
  intros Hk. unfold Xl.cells_max_column, Xl.cols_of.
  destruct (decide (m = ∅)) as [-> | _]; [done|].
  apply (max_list_proj_bound (λ kv, kv.1.2) _ _ _ Hk).
Qed.

Lemma cells_max_row_attained m :
  m ≠ ∅ → ∃ c v, m !! (Xl.cells_max_row m, c) = Some v.
Proof.
  intros Hne. unfold Xl.cells_max_row, Xl.rows_of.
  destruct (decide (m = ∅)); [done|].
  destruct (max_list_proj_attained (λ kv, kv.1.1) m Hne)
    as ([r c] & v & Hk & Heq).
  simpl in Heq. rewrite <-Heq. eauto.
Qed.

Lemma cells_max_column_attained m :
  m ≠ ∅ → ∃ r v, m !! (r, Xl.cells_max_column m) = Some v.
Proof.
  intros Hne. unfold Xl.cells_max_column, Xl.cols_of.
  destruct (decide (m = ∅)); [done|].
  destruct (max_list_proj_attained (λ kv, kv.1.2) m Hne)
    as ([r c] & v & Hk & Heq).
  simpl in Heq. rewrite <-Heq. eauto.
Qed.

(** The maximum row of a sheet file, from the values of a sheet. *)
Lemma max_row_valued_eq m R :
  1 ≤ R →
  (∀ r c, 1 ≤ r → 1 ≤ c → Xl.cells_value m r c ≠ VNone → r ≤ R) →
  (R = 1 ∨ ∃ c, 1 ≤ c ∧ Xl.blank (Xl.cells_value m R c) ≠ VNone) →
  Xl.cells_max_row (Xl.valued m) = R.
Proof.
  intros HR Hle Hat. apply Nat.le_antisymm.
  - destruct (decide (Xl.valued m = ∅)) as [He | Hne].
    + unfold Xl.cells_max_row. by rewrite decide_True.
    + destruct (cells_max_row_attained _ Hne) as (c & v & Hk).
      apply lookup_valued_value in Hk as (Hv & Hn & ? & ?).
      apply (Hle _ c); [done..|]. apply blank_None_inv. by rewrite Hv.
  - destruct Hat as [-> | (c & Hc & Hv)].
    + destruct (decide (Xl.valued m = ∅)) as [He | Hne].
      * unfold Xl.cells_max_row. by rewrite decide_True.
      * destruct (cells_max_row_attained _ Hne) as (c & v & Hk).
        by apply lookup_valued in Hk as (_ & _ & ? & _).
    + apply (cells_max_row_bound _ _ c (Xl.blank (Xl.cells_value m R c))).
      by apply lookup_valued_value.
Qed.

Lemma max_column_valued_eq m N :
  1 ≤ N →
  (∀ r c, 1 ≤ r → 1 ≤ c → Xl.cells_value m r c ≠ VNone → c ≤ N) →
  (N = 1 ∨ ∃ r, 1 ≤ r ∧ Xl.blank (Xl.cells_value m r N) ≠ VNone) →
  Xl.cells_max_column (Xl.valued m) = N.
Proof.
  intros HN Hle Hat. apply Nat.le_antisymm.
  - destruct (decide (Xl.valued m = ∅)) as [He | Hne].
    + unfold Xl.cells_max_column. by rewrite decide_True.
    + destruct (cells_max_column_attained _ Hne) as (r & v & Hk).
      apply lookup_valued_value in Hk as (Hv & Hn & ? & ?).
      apply (Hle r _); [done..|]. apply blank_None_inv. by rewrite Hv.
  - destruct Hat as [-> | (r & Hr & Hv)].
    + destruct (decide (Xl.valued m = ∅)) as [He | Hne].
      * unfold Xl.cells_max_column. by rewrite decide_True.
      * destruct (cells_max_column_attained _ Hne) as (r & v & Hk).
        by apply lookup_valued in Hk as (_ & _ & _ & ?).
    + apply (cells_max_column_bound _ r _ (Xl.blank (Xl.cells_value m r N))).
      by apply lookup_valued_value.
Qed.

End cell_maps.

(** ** Sheet operations *)

(** Closing a case analysis on decided conditions. *)
Ltac split_decided :=
  repeat case_decide; try reflexivity; exfalso;
  repeat match goal with H : _ ∧ _ |- _ => destruct H end;
  try lia; try congruence;
  match goal with
  | H : ¬ _ |- False =>
      apply H; repeat split; solve [assumption | lia | congruence]
  end.

Section sheet_ops.
Implicit Types m : gmap (nat * nat) value.
Implicit Types ws : Xl.worksheet.
Implicit Types r c : nat.

Lemma value_at_touch r c ws r' c' :
  Xl.value_at r' c' (Xl.touch r c ws) = Xl.value_at r' c' ws.
Proof.
  unfold Xl.touch, Xl.value_at, Xl.cells_value.
  destruct (Xl.ws_cells ws !! (r, c)) eqn:Hk; [done|]. simpl.
  destruct (decide ((r, c) = (r', c'))) as [[= <- <-] | Hne].
  - by rewrite lookup_insert_eq, Hk.
  - by rewrite lookup_insert_ne.
Qed.


Lemma value_at_cell r c v ws r' c' :
  Xl.value_at r' c' (Xl.cell r c v ws)
  = if decide (r' = r ∧ c' = c ∧ v ≠ VNone) then v
    else Xl.value_at r' c' ws.
Proof.
  unfold Xl.cell.
  assert (Xl.value_at r' c'
            (Xl.Worksheet (<[(r, c) := v]> (Xl.ws_cells (Xl.touch r c ws)))
                          (Xl.ws_current_row (Xl.touch r c ws)))
          = if decide (r' = r ∧ c' = c) then v else Xl.value_at r' c' ws)
    as Hset.
  { unfold Xl.value_at at 1. unfold Xl.cells_value. simpl.
    destruct (decide ((r, c) = (r', c'))) as [[= <- <-] | Hne].
    - rewrite lookup_insert_eq. by rewrite decide_True.
    - rewrite lookup_insert_ne by done.
      rewrite decide_False by (intros [-> ->]; done).
      apply (value_at_touch r c ws r' c'). }
  destruct v; rewrite ?Hset, ?value_at_touch;
    split_decided.
Qed.


Lemma cells_value_put_row r c row m r' c' :
  Xl.cells_value (Xl.put_row r c row m) r' c'
  = if decide (r' = r ∧ c ≤ c' < c + length row)
    then nth_value row (c' - c)
    else Xl.cells_value m r' c'.
Proof.
  revert c m. induction row as [|v row IH]; intros c m; simpl.
  - rewrite decide_False by lia. done.
  - rewrite IH. unfold Xl.cells_value, nth_value.
    destruct (decide (r' = r ∧ c = c')) as [[-> ->] | Hne].
    + rewrite decide_False by lia. rewrite decide_True by lia.
      rewrite lookup_insert_eq. by rewrite Nat.sub_diag.
    + rewrite lookup_insert_ne by (intros [= <- <-]; auto).
      repeat case_decide; try lia; try done.
      replace (c' - c) with (S (c' - S c)) by lia. done.
Qed.






End sheet_ops.

(** ** Appending a row to a sheet read from a file *)

Section append_row.
Implicit Types m cs : gmap (nat * nat) value.
Implicit Types ws : Xl.worksheet.
Implicit Types r c : nat.


Lemma read_sheet_value_at cs r c :
  1 ≤ r → 1 ≤ c →
  Xl.value_at r c (Xl.read_sheet cs) = Xl.blank (Xl.cells_value cs r c).
Proof. intros. unfold Xl.value_at. simpl. by apply cells_value_valued. Qed.






Lemma header_length ws : length (header ws) = Xl.max_column ws.
Proof.
  unfold header, Xl.first_row. simpl. by rewrite length_fmap, length_seq.
Qed.

Lemma header_nth ws c :
  1 ≤ c ≤ Xl.max_column ws →
  nth_value (header ws) (c - 1) = Xl.value_at 1 c ws.
Proof.
  intros Hc. unfold nth_value, header, Xl.first_row. simpl.
  rewrite list_lookup_fmap, lookup_seq_lt by lia. simpl.
  by replace (S (c - 1)) with c by lia.
Qed.

Lemma nth_value_ge (l : list value) i : length l ≤ i → nth_value l i = VNone.
Proof. intros Hi. unfold nth_value. by rewrite lookup_ge_None_2. Qed.



End append_row.

Section reread.
Implicit Types m cs : gmap (nat * nat) value.
Implicit Types ws : Xl.worksheet.
Implicit Types r c : nat.

Lemma read_sheet_valued m : Xl.read_sheet (Xl.valued m) = Xl.read_sheet m.
Proof. unfold Xl.read_sheet. by rewrite valued_valued. Qed.

Lemma nth_value_not_None (l : list value) i :
  nth_value l i ≠ VNone → i < length l.
Proof.
  intros Hv. destruct (decide (i < length l)); [done|].
  rewrite nth_value_ge in Hv by lia. done.
Qed.

Lemma nth_value_ext (l1 l2 : list value) :
  length l1 = length l2 →
  (∀ i, i < length l1 → nth_value l1 i = nth_value l2 i) →
  l1 = l2.
Proof.
  intros Hlen Hnth.
  apply (list_eq_same_length l1 l2 (length l1)); [done..|].
  intros i x y Hi Hx Hy. specialize (Hnth i Hi).
  unfold nth_value in Hnth. by rewrite Hx, Hy in Hnth.
Qed.

Lemma nth_value_keys_blank (ks : list string) i :
  "" ∉ ks →
  Xl.blank (nth_value (VStr <$> ks) i) = nth_value (VStr <$> ks) i.
Proof.
  intros Hks. unfold nth_value. rewrite list_lookup_fmap.
  destruct (ks !! i) as [k|] eqn:Hk; [|done]. simpl.
  apply blank_text. intros ->. apply Hks.
  apply list_elem_of_lookup. eauto.
Qed.



Section with_sheet.
Variables (data : pydict) (cs : gmap (nat * nat) value).
Let ws := Xl.read_sheet cs.
Let ws' := Xl.read_sheet (Xl.ws_cells (append_row_to_sheet data ws)).







End with_sheet.
End reread.

(** ** Workbooks *)

Section workbooks.
Implicit Types l : list (string * Xl.worksheet).
Implicit Types ws src tgt : Xl.worksheet.
Implicit Types r c : nat.

Lemma remove_sheet_absent t l : t ∉ l.*1 → Xl.remove_sheet t l = l.
Proof.
  induction l as [|[t' w] l IH]; simpl; [done|].
  intros Hnot. apply not_elem_of_cons in Hnot as [Hne Hnot].
  rewrite decide_False by done. by rewrite IH.
Qed.


(** Removing the first sheet of a title leaves one fewer of them. *)
Lemma remove_sheet_count t l :
  length (filter (λ t', t' = t) (Xl.remove_sheet t l).*1)
  = length (filter (λ t', t' = t) l.*1) - 1.
Proof.
  induction l as [|[t' w] l IH]; [done|].
  cbn [Xl.remove_sheet]. rewrite (fmap_cons fst). cbn [fst].
  destruct (decide (t' = t)) as [-> | Hne].
  - rewrite filter_cons_True by done. cbn [length]. lia.
  - rewrite (fmap_cons fst). cbn [fst].
    rewrite !filter_cons_False by done. exact IH.
Qed.

Lemma update_sheet_titles t ws l : (update_sheet t ws l).*1 = l.*1.
Proof.
  induction l as [|[t' w] l IH]; [done|].
  cbn [update_sheet]. destruct (decide (t' = t)); [done|].
  rewrite !(fmap_cons fst). by rewrite IH.
Qed.


(** *** The projection loop *)

Lemma copy_column_source max_row src_col tgt_col src tgt r c :
  Xl.value_at r c (copy_column max_row src_col tgt_col (src, tgt)).1
  = Xl.value_at r c src.
Proof.
  unfold copy_column.
  induction max_row as [|k IH]; [done|].
  rewrite seq_S, foldl_snoc. simpl. by rewrite value_at_touch.
Qed.

Lemma copy_column_target max_row src_col tgt_col src tgt r c :
  Xl.value_at r c (copy_column max_row src_col tgt_col (src, tgt)).2
  = if decide (c = tgt_col ∧ 1 ≤ r ≤ max_row
               ∧ Xl.value_at r src_col src ≠ VNone)
    then Xl.value_at r src_col src
    else Xl.value_at r c tgt.
Proof.
  unfold copy_column.
  induction max_row as [|k IH].
  - simpl. rewrite decide_False by lia. done.
  - rewrite seq_S, foldl_snoc. simpl.
    rewrite value_at_cell, IH, value_at_touch.
    fold (copy_column k src_col tgt_col (src, tgt)).
    rewrite copy_column_source.
    destruct (decide (r = S k)) as [-> | Hne]; split_decided.
Qed.

Lemma empty_column_target max_row tgt_col tgt r c :
  Xl.value_at r c (empty_column max_row tgt_col tgt) = Xl.value_at r c tgt.
Proof.
  unfold empty_column.
  induction max_row as [|k IH]; [done|].
  rewrite seq_S, foldl_snoc. rewrite value_at_cell.
  rewrite decide_False; [apply IH|]. by intros (_ & _ & ?).
Qed.

(** The loop only reads the source. *)
Lemma project_columns_source refs max_row k src tgt r c :
  Xl.value_at r c (project_columns refs max_row k src tgt).1
  = Xl.value_at r c src.
Proof.
  revert k src tgt. induction refs as [|token refs IH]; intros k src tgt;
    simpl; [done|].
  destruct (is_blank token); [apply IH|].
  destruct (Xl.column_index_from_string _) as [sc|]; [|apply IH].
  rewrite IH.
  destruct (copy_column max_row sc k (src, tgt)) as [s' t'] eqn:Hcc.
  simpl. change s' with (s', t').1. rewrite <-Hcc.
  apply copy_column_source.
Qed.

Lemma projected_value_nil src r j : projected_value [] src r j = VNone.
Proof. unfold projected_value. by rewrite lookup_nil. Qed.

Lemma projected_value_tail token refs src r i :
  projected_value (token :: refs) src r (S (S i))
  = projected_value refs src r (S i).
Proof.
  unfold projected_value.
  replace (S (S i) - 1) with (S i) by lia.
  replace (S i - 1) with i by lia. done.
Qed.

Lemma projected_value_head token refs src r :
  projected_value (token :: refs) src r 1
  = if is_blank token then VNone
    else match Xl.column_index_from_string
                 (PyStr.upper (PyStr.strip (default "" token))) with
         | Some c =>
             if bool_decide (r ≤ Xl.max_row src) then Xl.value_at r c src
             else VNone
         | None => VNone
         end.
Proof. done. Qed.

(** The loop fills the target as the specification says: the columns from
    the pointer on hold the projected values, the columns before it are
    left as they were. *)
Lemma project_columns_target refs max_row k src src0 tgt r j :
  1 ≤ r →
  Xl.max_row src0 = max_row →
  (∀ r' c', Xl.value_at r' c' src = Xl.value_at r' c' src0) →
  Xl.value_at r j (project_columns refs max_row k src tgt).2
  = if decide (k ≤ j ∧ projected_value refs src0 r (S (j - k)) ≠ VNone)
    then projected_value refs src0 r (S (j - k))
    else Xl.value_at r j tgt.
Proof.
  intros Hr Hmax. revert k src tgt.
  induction refs as [|token refs IH]; intros k src tgt Hsrc.
  - cbn [project_columns snd].
    rewrite decide_False; [done|].
    rewrite projected_value_nil. by intros [_ ?].
  - assert (∀ tgt' src',
      (∀ r' c', Xl.value_at r' c' src' = Xl.value_at r' c' src0) →
      Xl.value_at r j tgt'
      = (if decide (j = k ∧ projected_value (token :: refs) src0 r 1 ≠ VNone)
         then projected_value (token :: refs) src0 r 1
         else Xl.value_at r j tgt) →
      Xl.value_at r j (project_columns refs max_row (S k) src' tgt').2
      = if decide (k ≤ j
                   ∧ projected_value (token :: refs) src0 r (S (j - k)) ≠ VNone)
        then projected_value (token :: refs) src0 r (S (j - k))
        else Xl.value_at r j tgt) as Hstep.
    { intros tgt' src' Hsrc' Htgt'. rewrite (IH _ _ _ Hsrc'), Htgt'.
      destruct (decide (j = k)) as [-> | Hne].
      - rewrite Nat.sub_diag.
        rewrite (decide_False (P := S k ≤ k ∧ _)) by lia.
        split_decided.
      - destruct (decide (k < j)) as [Hlt | Hge].
        + replace (j - k) with (S (j - S k)) by lia.
          rewrite projected_value_tail. split_decided.
        + split_decided. }
    cbn [project_columns]. rewrite projected_value_head in Hstep.
    destruct (is_blank token).
    + apply Hstep; [done|]. rewrite decide_False; [done|]. by intros [_ ?].
    + destruct (Xl.column_index_from_string _) as [sc|].
      * apply Hstep.
        -- intros r' c'.
           destruct (copy_column max_row sc k (src, tgt)) as [s' t'] eqn:Hcc.
           simpl. change s' with (s', t').1. rewrite <-Hcc.
           by rewrite copy_column_source.
        -- destruct (copy_column max_row sc k (src, tgt)) as [s' t'] eqn:Hcc.
           simpl. change t' with (s', t').2. rewrite <-Hcc.
           rewrite copy_column_target, Hsrc, Hmax.
           destruct (decide (r ≤ max_row)).
           ++ rewrite bool_decide_eq_true_2 by done. split_decided.
           ++ rewrite bool_decide_eq_false_2 by done. split_decided.
      * apply Hstep; [done|].
        rewrite empty_column_target.
        rewrite decide_False; [done|]. by intros [_ ?].
Qed.

End workbooks.

(** ** The projection step on a workbook *)

Section projection_step.
Implicit Types l : list (string * Xl.worksheet).
Implicit Types wb : Xl.workbook.
Implicit Types r c j : nat.

Lemma project_into_sheets refs t0 w0 wb :
  let sheets1 := Xl.remove_sheet "converted" (Xl.wb_sheets wb) in
  let st := project_columns refs (Xl.max_row w0) 1 w0 Xl.new_worksheet in
  Xl.wb_sheets (project_into refs t0 w0 wb)
  = (if decide (t0 = "converted" ∧ "converted" ∈ Xl.sheetnames wb)
     then sheets1 else update_sheet t0 st.1 sheets1)
    ++ [(Xl.avoid_duplicate_name sheets1.*1 "converted", st.2)].
Proof.
  unfold project_into. simpl.
  destruct (decide ("converted" ∈ Xl.sheetnames wb)) as [Hin | Hnot].
  - done.
  - rewrite (remove_sheet_absent _ _ Hnot). done.
Qed.

Lemma project_into_active refs t0 w0 wb :
  Xl.wb_active (project_into refs t0 w0 wb) = Xl.wb_active wb.
Proof. done. Qed.

(** The view a run creates holds the projected values, an empty text left
    out. *)
Lemma projected_view_values refs w0 r j :
  1 ≤ r → 1 ≤ j →
  Xl.cells_value
    (Xl.valued (Xl.ws_cells
       (project_columns refs (Xl.max_row w0) 1 w0 Xl.new_worksheet).2)) r j
  = Xl.blank (projected_value refs w0 r j).
Proof.
  intros Hr Hj. rewrite cells_value_valued by done. f_equal.
  change (Xl.value_at r j
            (project_columns refs (Xl.max_row w0) 1 w0 Xl.new_worksheet).2
          = projected_value refs w0 r j).
  rewrite (project_columns_target refs _ 1 w0 w0) by done.
  replace (S (j - 1)) with j by lia.
  case_decide as Hd; [done|].
  change (Xl.value_at r j Xl.new_worksheet) with VNone.
  destruct (decide (projected_value refs w0 r j = VNone)) as [-> | Hne];
    [done|]. exfalso. apply Hd. by split.
Qed.

Lemma project_source_valued refs w0 max_row k tgt :
  Xl.valued (Xl.ws_cells (project_columns refs max_row k w0 tgt).1)
  = Xl.valued (Xl.ws_cells w0).
Proof.
  apply valued_ext. intros r c _ _. f_equal.
  apply (project_columns_source refs max_row k w0 tgt r c).
Qed.

Lemma count_zero_not_elem (t : string) (ts : list string) :
  length (filter (λ t', t' = t) ts) = 0 → t ∉ ts.
Proof.
  intros Hlen Hin.
  assert (t ∈ filter (λ t', t' = t) ts) as Hf
    by (by apply list_elem_of_filter).
  destruct (filter _ ts); [by apply elem_of_nil in Hf | done].
Qed.

Lemma remove_sheet_subset t l t' :
  t' ∈ (Xl.remove_sheet t l).*1 → t' ∈ l.*1.
Proof.
  induction l as [|[t1 w] l IH]; [done|].
  cbn [Xl.remove_sheet]. rewrite (fmap_cons fst). cbn [fst].
  destruct (decide (t1 = t)).
  - intros ?. by apply elem_of_cons; right.
  - rewrite (fmap_cons fst). cbn [fst].
    intros [-> | Hin]%elem_of_cons; apply elem_of_cons; auto.
Qed.

Lemma avoid_duplicate_name_fresh names value :
  (∀ n, n ∈ names → PyStr.lower n ≠ PyStr.lower value) →
  Xl.avoid_duplicate_name names value = value.
Proof.
  intros Hfresh. unfold Xl.avoid_duplicate_name.
  destruct (existsb _ names) eqn:Hex; [|done].
  apply existsb_exists in Hex as (n & Hn & Heq).
  apply String.eqb_eq in Heq. apply list_elem_of_In in Hn.
  by destruct (Hfresh n Hn).
Qed.

Lemma of_xlsx_titles x : Xl.sheetnames (Xl.of_xlsx x) = titles x.
Proof.
  unfold Xl.sheetnames, titles, Xl.of_xlsx. simpl.
  rewrite <-list_fmap_compose. done.
Qed.

Lemma to_xlsx_titles wb : titles (Xl.to_xlsx wb) = Xl.sheetnames wb.
Proof.
  unfold Xl.sheetnames, titles, Xl.to_xlsx. simpl.
  rewrite <-list_fmap_compose. done.
Qed.

Lemma project_into_titles refs t0 w0 wb :
  Xl.sheetnames (project_into refs t0 w0 wb)
  = (Xl.remove_sheet "converted" (Xl.wb_sheets wb)).*1
    ++ [Xl.avoid_duplicate_name
          (Xl.remove_sheet "converted" (Xl.wb_sheets wb)).*1 "converted"].
Proof.
  unfold Xl.sheetnames. rewrite project_into_sheets. cbv zeta.
  rewrite fmap_app. f_equal.
  case_decide; [done|]. apply update_sheet_titles.
Qed.

(** After a run at most one sheet is titled "converted", if at most one
    was before. *)
Lemma project_into_converted refs t0 w0 wb :
  length (filter (λ t, t = "converted") (Xl.sheetnames wb)) ≤ 1 →
  length (filter (λ t, t = "converted")
            (Xl.sheetnames (project_into refs t0 w0 wb))) ≤ 1.
Proof.
  intros Hone. rewrite project_into_titles, filter_app, length_app.
  rewrite remove_sheet_count. fold (Xl.sheetnames wb).
  set (t := Xl.avoid_duplicate_name _ _).
  destruct (decide (t = "converted")).
  - rewrite filter_cons_True by done. simpl. lia.
  - rewrite filter_cons_False by done. simpl. lia.
Qed.

(** The new sheet is titled "converted" when no other title is, up to
    case. *)
Lemma project_into_title wb :
  length (filter (λ t, t = "converted") (Xl.sheetnames wb)) ≤ 1 →
  (∀ t, t ∈ Xl.sheetnames wb → PyStr.lower t = "converted"
        → t = "converted") →
  Xl.avoid_duplicate_name
    (Xl.remove_sheet "converted" (Xl.wb_sheets wb)).*1 "converted"
  = "converted".
Proof.
  intros Hone Hclash. apply avoid_duplicate_name_fresh.
  intros n Hn Hlow.
  assert (n = "converted") as ->.
  { apply Hclash; [by eapply remove_sheet_subset|done]. }
  revert Hn. apply count_zero_not_elem.
  rewrite remove_sheet_count. fold (Xl.sheetnames wb). lia.
Qed.

End projection_step.

(** ** The tabular append store *)

Section store.
Implicit Types x : Xl.xlsx.
Implicit Types fs : gmap string file.

Lemma active_of_xlsx x t cs :
  Xl.x_sheets x !! Xl.x_active x = Some (t, cs) →
  Xl.active (Xl.of_xlsx x) = Some (Xl.read_sheet cs).
Proof.
  intros Hx. unfold Xl.active, Xl.of_xlsx. simpl.
  by rewrite list_lookup_fmap, Hx.
Qed.



Lemma appended_workbook_sheets data x t cs :
  Xl.x_sheets x !! Xl.x_active x = Some (t, cs) →
  let wb := appended_workbook data x in
  Xl.wb_active wb = Xl.x_active x
  ∧ Xl.wb_sheets wb !! Xl.x_active x
    = Some (t, append_row_to_sheet data (Xl.read_sheet cs))
  ∧ Xl.sheetnames wb = titles x
  ∧ (∀ i, i ≠ Xl.x_active x →
          Xl.wb_sheets wb !! i = Xl.wb_sheets (Xl.of_xlsx x) !! i).
Proof.
  intros Hx. unfold appended_workbook.
  rewrite (active_of_xlsx _ _ _ Hx). unfold Xl.set_active. simpl.
  split; [done|]. split; [|split].
  - rewrite list_lookup_alter_eq, list_lookup_fmap, Hx. done.
  - unfold Xl.sheetnames, titles. simpl.
    apply list_eq. intros i. rewrite !list_lookup_fmap.
    destruct (decide (i = Xl.x_active x)) as [-> | Hne].
    + rewrite list_lookup_alter_eq, list_lookup_fmap, Hx. done.
    + rewrite list_lookup_alter_ne by done. rewrite list_lookup_fmap.
      by destruct (Xl.x_sheets x !! i) as [[]|].
  - intros i Hne. by rewrite list_lookup_alter_ne.
Qed.

(** What the existing-file branch writes. *)
Lemma save_existing data path fs x t cs :
  fs !! path = Some (FXlsx x) →
  Xl.x_sheets x !! Xl.x_active x = Some (t, cs) →
  ∃ src,
    Xl.wb_sheets (appended_workbook data x) !! 0 = Some src
    ∧ save_dict_to_excel_row data path fs
      = Returned
          (<[path := FXlsx (Xl.to_xlsx
                       (project_into column_refs src.1 src.2
                          (appended_workbook data x)))]> fs).
Proof.
  intros Hfs Hx.
  destruct (appended_workbook_sheets data x t cs Hx) as (Ha & Hsh & _ & _).
  assert (is_Some (Xl.wb_sheets (appended_workbook data x) !! 0))
    as [src Hsrc].
  { apply lookup_lt_is_Some. apply lookup_lt_Some in Hsh. lia. }
  exists src. split; [done|].
  assert (appended_workbook data x
          = Xl.set_active (append_row_to_sheet data (Xl.read_sheet cs))
              (Xl.of_xlsx x)) as Heq.
  { unfold appended_workbook. by rewrite (active_of_xlsx _ _ _ Hx). }
  unfold save_dict_to_excel_row.
  rewrite (path_exists_true _ _ _ Hfs). cbn [negb].
  unfold load_workbook. rewrite Hfs. cbn [mbind outcome_bind].
  rewrite (active_of_xlsx _ _ _ Hx). rewrite <-Heq.
  unfold select_source. rewrite Hsrc. cbn [mbind outcome_bind].
  unfold save_workbook. by rewrite insert_insert_eq.
Qed.



End store.

Section store_claims.
Implicit Types x : Xl.xlsx.
Implicit Types fs : gmap string file.



Lemma save_new data path fs :
  fs !! path = None →
  save_dict_to_excel_row data path fs
  = Returned
      (<[path := FXlsx
           (Xl.Xlsx
              [("Sheet",
                Xl.valued
                  (Xl.put_row 2 1
                     ((λ h, _to_jsonable (dict_get data h))
                        <$> dict_keys data)
                     (Xl.put_row 1 1 (VStr <$> dict_keys data) ∅)))] 0)]>
         fs).
Proof.
  intros Hfs%path_exists_false. unfold save_dict_to_excel_row.
  rewrite Hfs. reflexivity.
Qed.

(** What the projection step leaves in the file. *)
Lemma project_into_stored refs t0 w0 (wb : Xl.workbook) :
  ∃ older title view,
    Xl.to_xlsx (project_into refs t0 w0 wb)
    = Xl.Xlsx (older ++ [(title, view)]) (Xl.wb_active wb)
    ∧ older.*1 = (Xl.remove_sheet "converted" (Xl.wb_sheets wb)).*1
    ∧ title
      = Xl.avoid_duplicate_name
          (Xl.remove_sheet "converted" (Xl.wb_sheets wb)).*1 "converted"
    ∧ (∀ r j, 1 ≤ r → 1 ≤ j →
         Xl.cells_value view r j = Xl.blank (projected_value refs w0 r j))
    ∧ view
      = Xl.valued (Xl.ws_cells
          (project_columns refs (Xl.max_row w0) 1 w0 Xl.new_worksheet).2).
Proof.
  pose proof (project_into_sheets refs t0 w0 wb) as Hsheets.
  cbv zeta in Hsheets.
  set (sheets1 := Xl.remove_sheet "converted" (Xl.wb_sheets wb)) in *.
  set (st := project_columns refs (Xl.max_row w0) 1 w0 Xl.new_worksheet)
    in *.
  set (sheets2 := if decide (t0 = "converted"
                             ∧ "converted" ∈ Xl.sheetnames wb)
                  then sheets1 else update_sheet t0 st.1 sheets1) in *.
  exists ((λ p : string * Xl.worksheet,
             (p.1, Xl.valued (Xl.ws_cells p.2))) <$> sheets2),
    (Xl.avoid_duplicate_name sheets1.*1 "converted"),
    (Xl.valued (Xl.ws_cells st.2)).
  split; [|split; [|split; [|split]]]; [| | | |done].
  - unfold Xl.to_xlsx.
    rewrite project_into_active, Hsheets, fmap_app.
    rewrite list_fmap_singleton. cbn [fst snd]. reflexivity.
  - rewrite <-list_fmap_compose. subst sheets2.
    case_decide; [done|]. apply update_sheet_titles.
  - done.
  - intros r j Hr Hj. by apply projected_view_values.
Qed.


End store_claims.


Lemma sample_record_valid : valid_record sample_record.
Proof.
  split.
  - intros Hin. vm_compute in Hin.
    repeat (apply elem_of_cons in Hin as [Hin | Hin]; [discriminate|]).
    by apply elem_of_nil in Hin.
  - exists "run_timestamp". split; [|discriminate].
    apply elem_of_cons. by left.
Defined.


Lemma sample_table_one_view : converted_sheets sample_table ≤ 1.
Proof. vm_compute. lia. Defined.





(** ** The column projector *)

Section projector.
Implicit Types x : Xl.xlsx.
Implicit Types fs : gmap string file.

Lemma copy_columns_result path refs name base fs x src :
  fs !! path = Some (FXlsx x) →
  select_source name (Xl.of_xlsx x) = Returned src →
  copy_columns_by_references path refs name base fs
  = Returned
      ("converted",
       <[path := FXlsx (Xl.to_xlsx
                    (project_into refs src.1 src.2 (Xl.of_xlsx x)))]> fs).
Proof.
  intros Hfs Hsrc. unfold copy_columns_by_references.
  rewrite (path_exists_true _ _ _ Hfs). cbn [negb].
  unfold load_workbook. rewrite Hfs. cbn [mbind outcome_bind].
  rewrite Hsrc. reflexivity.
Qed.

Lemma remove_sheet_length t (l : list (string * Xl.worksheet)) :
  t ∈ l.*1 → S (length (Xl.remove_sheet t l)) = length l.
Proof.
  induction l as [|[t' w] l IH]; [by intros ?%elem_of_nil|].
  rewrite (fmap_cons fst). cbn [fst Xl.remove_sheet].
  destruct (decide (t' = t)) as [-> | Hne]; [done|].
  intros [? | Hin]%elem_of_cons; [congruence|].
  cbn [length]. by rewrite IH.
Qed.

(** C7: a run of the projector returns and leaves at most one sheet titled
    "converted" when there was at most one; the sheet it creates holds the
    projection of the layout from the source sheet; a second run with the
    same layout on an unchanged source sheet creates a sheet with the same
    cells, and the workbook does not grow: the earlier view is replaced. *)
Theorem C7_projector_idempotent path refs name base fs x src :
  fs !! path = Some (FXlsx x) →
  converted_sheets x ≤ 1 →
  select_source name (Xl.of_xlsx x) = Returned src →
  ∃ fs1 x1 title view,
    copy_columns_by_references path refs name base fs
    = Returned ("converted", fs1)
    ∧ fs1 !! path = Some (FXlsx x1)
    ∧ converted_sheets x1 ≤ 1
    ∧ projected_sheet x1 = Some (title, view)
    ∧ (no_case_clash x → title = "converted")
    ∧ (∀ r j, 1 ≤ r → 1 ≤ j →
         Xl.cells_value view r j = Xl.blank (projected_value refs src.2 r j))
    ∧ ∀ src',
        select_source name (Xl.of_xlsx x1) = Returned src' →
        src'.2 = src.2 →
        ∃ fs2 x2 title',
          copy_columns_by_references path refs name base fs1
          = Returned ("converted", fs2)
          ∧ fs2 !! path = Some (FXlsx x2)
          ∧ converted_sheets x2 ≤ 1
          ∧ projected_sheet x2 = Some (title', view)
          ∧ ("converted" ∈ titles x1 →
             length (Xl.x_sheets x2) = length (Xl.x_sheets x1)).
Proof.
  intros Hfs Hone Hsrc.
  pose proof (copy_columns_result path refs name base fs x src Hfs Hsrc)
    as Hrun.
  destruct (project_into_stored refs src.1 src.2 (Xl.of_xlsx x))
    as (older & title & view & Heq & Hold & Htitle & Hview & Hv).
  set (x1 := Xl.to_xlsx (project_into refs src.1 src.2 (Xl.of_xlsx x))) in *.
  assert (converted_sheets x1 ≤ 1) as Hone1.
  { unfold converted_sheets, x1. rewrite to_xlsx_titles.
    apply project_into_converted. by rewrite of_xlsx_titles. }
  exists (<[path := FXlsx x1]> fs), x1, title, view.
  split; [exact Hrun|]. split; [apply lookup_insert_eq|].
  split; [exact Hone1|]. split; [|split; [|split; [exact Hview|]]].
  - unfold projected_sheet. rewrite Heq. cbn [Xl.x_sheets].
    apply last_snoc.
  - intros Hclash. rewrite Htitle. apply project_into_title.
    + by rewrite of_xlsx_titles.
    + rewrite of_xlsx_titles. exact Hclash.
  - intros src' Hsrc' Hsame.
    assert (<[path := FXlsx x1]> fs !! path = Some (FXlsx x1)) as Hfs1
      by apply lookup_insert_eq.
    pose proof (copy_columns_result path refs name base _ x1 src' Hfs1 Hsrc')
      as Hrun'.
    destruct (project_into_stored refs src'.1 src'.2 (Xl.of_xlsx x1))
      as (older' & title' & view' & Heq' & Hold' & Htitle' & _ & Hv').
    set (x2 := Xl.to_xlsx (project_into refs src'.1 src'.2 (Xl.of_xlsx x1)))
      in *.
    exists (<[path := FXlsx x2]> (<[path := FXlsx x1]> fs)), x2, title'.
    split; [exact Hrun'|]. split; [apply lookup_insert_eq|].
    split; [|split].
    + unfold converted_sheets, x2. rewrite to_xlsx_titles.
      apply project_into_converted. by rewrite of_xlsx_titles.
    + unfold projected_sheet. rewrite Heq'. cbn [Xl.x_sheets].
      rewrite last_snoc. rewrite Hv, Hv', Hsame. done.
    + intros Hin. rewrite Heq'. cbn [Xl.x_sheets].
      rewrite length_app. cbn [length].
      rewrite <-(length_fmap fst older'), Hold', length_fmap.
      rewrite <-of_xlsx_titles in Hin.
      pose proof (remove_sheet_length _ _ Hin) as Hlen.
      unfold Xl.of_xlsx in Hlen at 2. cbn [Xl.wb_sheets] in Hlen.
      rewrite length_fmap in Hlen. lia.
Qed.

End projector.

(** ** The source sheet after a run *)

Section source_kept.
Implicit Types x : Xl.xlsx.
Implicit Types l : list (string * Xl.worksheet).

Lemma read_form_reread (w : Xl.worksheet) t :
  read_form (t, w) → Xl.read_sheet (Xl.valued (Xl.ws_cells w)) = w.
Proof.
  intros [cs Hw]. simpl in Hw. subst w. cbn [Xl.read_sheet Xl.ws_cells].
  by rewrite !read_sheet_valued.
Qed.

Lemma first_titled_remove t n l :
  n ≠ t → first_titled n (Xl.remove_sheet t l) = first_titled n l.
Proof.
  intros Hne. induction l as [|[t' w] l IH]; [done|].
  cbn [Xl.remove_sheet first_titled].
  destruct (decide (t' = t)) as [-> | Ht].
  - by rewrite decide_False by done.
  - cbn [first_titled]. by rewrite IH.
Qed.

Lemma first_titled_app n l l' w :
  first_titled n l = Some w → first_titled n (l ++ l') = Some w.
Proof.
  induction l as [|[t' w'] l IH]; [done|]. simpl.
  by destruct (decide (t' = n)).
Qed.

(** Writing the workbook and reading it back gives the sheets that were
    read, when the source was only read from. *)
Lemma reread_updated t0 w0 s' l :
  Forall read_form l →
  first_titled t0 l = Some w0 →
  Xl.valued (Xl.ws_cells s') = Xl.valued (Xl.ws_cells w0) →
  (λ p : string * Xl.worksheet,
     (p.1, Xl.read_sheet (Xl.valued (Xl.ws_cells p.2))))
    <$> update_sheet t0 s' l = l.
Proof.
  intros Hall Hfirst Hval.
  induction Hall as [|[t w] l Hw Hall IH]; [done|].
  cbn [update_sheet first_titled] in *.
  destruct (decide (t = t0)) as [-> | Hne].
  - injection Hfirst as ->. rewrite fmap_cons. cbn [fst snd].
    rewrite Hval, (read_form_reread _ _ Hw). f_equal.
    clear IH. induction Hall as [|[t w] l Hw' Hall IH]; [done|].
    rewrite fmap_cons. cbn [fst snd].
    by rewrite (read_form_reread _ _ Hw'), IH.
  - rewrite fmap_cons. cbn [fst snd].
    by rewrite (read_form_reread _ _ Hw), IH.
Qed.

Lemma of_xlsx_read_form x : Forall read_form (Xl.wb_sheets (Xl.of_xlsx x)).
Proof.
  unfold Xl.of_xlsx. cbn [Xl.wb_sheets]. apply Forall_fmap, Forall_true.
  intros [t cs]. by exists cs.
Qed.

Lemma remove_sheet_Forall (P : string * Xl.worksheet → Prop) t l :
  Forall P l → Forall P (Xl.remove_sheet t l).
Proof.
  induction 1 as [|[t' w] l Hp Hall IH]; [done|].
  cbn [Xl.remove_sheet]. destruct (decide (t' = t)); [done|].
  by constructor.
Qed.

Lemma select_source_first name (wb : Xl.workbook) t0 w0 :
  select_source name wb = Returned (t0, w0) →
  first_titled t0 (Xl.wb_sheets wb) = Some w0
  ∧ ((name = None ∨ name = Some "")
     ∧ Xl.wb_sheets wb !! 0 = Some (t0, w0)
     ∨ name = Some t0 ∧ t0 ≠ "").
Proof.
  unfold select_source, sheet_named.
  assert (Xl.wb_sheets wb !! 0 = Some (t0, w0) →
          first_titled t0 (Xl.wb_sheets wb) = Some w0) as Hhead.
  { destruct (Xl.wb_sheets wb) as [|[t w] l]; [done|].
    intros [= -> ->]. simpl. by rewrite decide_True. }
  destruct name as [n|].
  - destruct (decide (n = "")) as [-> | Hne].
    + destruct (Xl.wb_sheets wb !! 0) as [p|] eqn:H0; [|done].
      intros [= ->]. auto.
    + destruct (first_titled n _) as [w|] eqn:Hf; [|done].
      intros [= -> ->]. auto.
  - destruct (Xl.wb_sheets wb !! 0) as [p|] eqn:H0; [|done].
    intros [= ->]. auto.
Qed.

(** A source sheet that is not the view itself is the same sheet on the
    next run. *)
Lemma source_unchanged refs name x t0 w0 :
  select_source name (Xl.of_xlsx x) = Returned (t0, w0) →
  t0 ≠ "converted" →
  select_source name
    (Xl.of_xlsx (Xl.to_xlsx (project_into refs t0 w0 (Xl.of_xlsx x))))
  = Returned (t0, w0).
Proof.
  intros Hsrc Ht0.
  destruct (select_source_first _ _ _ _ Hsrc) as [Hfirst Hname].
  pose proof (project_into_sheets refs t0 w0 (Xl.of_xlsx x)) as Hsheets.
  cbv zeta in Hsheets. rewrite decide_False in Hsheets by (by intros [? _]).
  set (l := Xl.wb_sheets (Xl.of_xlsx x)) in *.
  set (st := project_columns refs (Xl.max_row w0) 1 w0 Xl.new_worksheet)
    in *.
  set (title := Xl.avoid_duplicate_name _ _) in Hsheets.
  assert (Xl.wb_sheets
            (Xl.of_xlsx (Xl.to_xlsx (project_into refs t0 w0 (Xl.of_xlsx x))))
          = Xl.remove_sheet "converted" l
            ++ [(title, Xl.read_sheet (Xl.valued (Xl.ws_cells st.2)))])
    as Hafter.
  { unfold Xl.of_xlsx at 1. unfold Xl.to_xlsx. cbn [Xl.wb_sheets Xl.x_sheets].
    rewrite Hsheets, <-list_fmap_compose, fmap_app.
    rewrite list_fmap_singleton. f_equal.
    apply (reread_updated t0 w0).
    - apply remove_sheet_Forall, of_xlsx_read_form.
    - by rewrite first_titled_remove.
    - apply project_source_valued. }
  unfold select_source, sheet_named. rewrite Hafter.
  assert (first_titled t0 (Xl.remove_sheet "converted" l ++
            [(title, Xl.read_sheet (Xl.valued (Xl.ws_cells st.2)))])
          = Some w0) as Hf.
  { apply first_titled_app. by rewrite first_titled_remove. }
  assert (Xl.wb_sheets (Xl.of_xlsx x) !! 0 = Some (t0, w0) →
          (Xl.remove_sheet "converted" l ++
            [(title, Xl.read_sheet (Xl.valued (Xl.ws_cells st.2)))]) !! 0
          = Some (t0, w0)) as Hhead.
  { fold l. destruct l as [|[t w] l']; [done|].
    intros [= -> ->]. cbn [Xl.remove_sheet].
    by rewrite decide_False. }
  destruct Hname as [[[-> | ->] H0] | [-> Hne]].
  - by rewrite (Hhead H0).
  - rewrite decide_True by done. by rewrite (Hhead H0).
  - rewrite decide_False by done. by rewrite Hf.
Qed.

End source_kept.

Lemma C7_projector_idempotent_witness :
  ∃ fs1 fs2 x1 x2 title1 title2 view,
    copy_columns_by_references "outputs/results.xlsx" column_refs None
      "CopiedColumns" sample_fs = Returned ("converted", fs1)
    ∧ copy_columns_by_references "outputs/results.xlsx" column_refs None
        "CopiedColumns" fs1 = Returned ("converted", fs2)
    ∧ fs1 !! "outputs/results.xlsx" = Some (FXlsx x1)
    ∧ fs2 !! "outputs/results.xlsx" = Some (FXlsx x2)
    ∧ projected_sheet x1 = Some (title1, view)
    ∧ projected_sheet x2 = Some (title2, view)
    ∧ converted_sheets x2 ≤ 1.
Proof.
  pose (w0 := Xl.read_sheet
    ({[ (1, 1) := VStr "run_timestamp"; (1, 2) := VStr "amazon_1_url";
        (2, 1) := VStr "2024-12-31T00:00:00Z";
        (2, 2) := VStr "https://www.amazon.com/dp/B0F7JRKGH1" ]}
     : gmap (nat * nat) value)).
  assert (select_source None (Xl.of_xlsx sample_table)
          = Returned ("Sheet", w0)) as Hsrc by reflexivity.
  destruct (C7_projector_idempotent "outputs/results.xlsx" column_refs None
              "CopiedColumns" sample_fs sample_table ("Sheet", w0)
              eq_refl sample_table_one_view Hsrc)
    as (fs1 & x1 & title & view & Hrun & Hfs1 & _ & Hproj & _ & _ & Hnext).
  pose proof (copy_columns_result "outputs/results.xlsx" column_refs None
                "CopiedColumns" sample_fs sample_table ("Sheet", w0)
                eq_refl Hsrc) as Hrun0.
  rewrite Hrun0 in Hrun. injection Hrun as Hfs. subst fs1.
  rewrite lookup_insert_eq in Hfs1. injection Hfs1 as Hx1. subst x1.
  assert (select_source None
            (Xl.of_xlsx (Xl.to_xlsx
               (project_into column_refs "Sheet" w0 (Xl.of_xlsx sample_table))))
          = Returned ("Sheet", w0)) as Hsrc1.
  { apply source_unchanged; [exact Hsrc | discriminate]. }
  destruct (Hnext ("Sheet", w0) Hsrc1 eq_refl)
    as (fs2 & x2 & title' & Hrun2 & Hfs2 & Hone2 & Hproj2 & _).
  eexists _, fs2, _, x2, title, title', view.
  split; [exact Hrun0|]. split; [exact Hrun2|].
  split; [apply lookup_insert_eq|]. split; [exact Hfs2|].
  split; [exact Hproj|]. split; [exact Hproj2 | exact Hone2].
Defined.

(** ** The tables and records of the script itself *)

Lemma dict_lookup_set_ne (d : pydict) k k0 v :
  k ≠ k0 → dict_lookup (dict_set d k v) k0 = dict_lookup d k0.
Proof.
  intros Hne. induction d as [|[k' v'] d IH]; simpl.
  - by rewrite decide_False by done.
  - destruct (decide (k = k')) as [-> | Hk]; simpl.
    + by rewrite !decide_False by done.
    + destruct (decide (k0 = k')); [done | apply IH].
Qed.

Lemma dict_keys_set (d : pydict) k v k0 :
  k0 ∈ dict_keys d → k0 ∈ dict_keys (dict_set d k v).
Proof.
  unfold dict_keys. induction d as [|[k' v'] d IH]; [by intros ?%elem_of_nil|].
  cbn [dict_set]. destruct (decide (k = k')) as [-> | Hk].
  - rewrite !(fmap_cons fst). done.
  - rewrite !(fmap_cons fst). cbn [fst].
    intros [-> | Hin]%elem_of_cons; apply elem_of_cons; auto.
Qed.

Lemma flatten_site_keeps site_name i res (flat : pydict) k0 :
  (∀ j field, site_name +:+ "_" +:+ PyStr.of_nat j +:+ "_" +:+ field ≠ k0) →
  dict_lookup (flatten_site site_name i res flat) k0 = dict_lookup flat k0
  ∧ (k0 ∈ dict_keys flat →
     k0 ∈ dict_keys (flatten_site site_name i res flat)).
Proof.
  intros Hne. revert i flat. induction res as [|item res IH]; intros i flat.
  - done.
  - cbn [flatten_site].
    assert (∀ flat' : pydict,
      dict_lookup (flatten_item site_name i item flat') k0
      = dict_lookup flat' k0
      ∧ (k0 ∈ dict_keys flat' →
         k0 ∈ dict_keys (flatten_item site_name i item flat'))) as Hitem.
    { unfold flatten_item.
      induction item as [|[k v] item IHi]; intros flat'; [done|].
      cbn [foldl]. destruct (IHi (dict_set flat'
        (site_name +:+ "_" +:+ PyStr.of_nat i +:+ "_" +:+ k) v)) as [H1 H2].
      cbn [fst snd] in *. rewrite H1. split.
      - by apply dict_lookup_set_ne.
      - intros Hin. by apply H2, dict_keys_set. }
    destruct (IH (S i) (flatten_item site_name i item flat)) as [Hl Hk].
    destruct (Hitem flat) as [Hl' Hk'].
    rewrite Hl, Hl'. auto.
Qed.

Lemma dict_keys_set_inv (d : pydict) k v k0 :
  k0 ∈ dict_keys (dict_set d k v) → k0 = k ∨ k0 ∈ dict_keys d.
Proof.
  unfold dict_keys. induction d as [|[k' v'] d IH]; cbn [dict_set].
  - intros [-> | Hin]%elem_of_cons; auto.
  - destruct (decide (k = k')) as [-> | Hk]; rewrite !(fmap_cons fst);
      cbn [fst].
    + intros [-> | Hin]%elem_of_cons; [by left|].
      right. apply elem_of_cons. by right.
    + intros [-> | Hin]%elem_of_cons.
      * right. apply elem_of_cons. by left.
      * destruct (IH Hin) as [-> | Hd]; [by left|].
        right. apply elem_of_cons. by right.
Qed.

Lemma flatten_item_keys site_name i item (flat : pydict) k0 :
  k0 ∈ dict_keys (flatten_item site_name i item flat) →
  k0 ∈ dict_keys flat
  ∨ ∃ field, k0 = site_name +:+ "_" +:+ PyStr.of_nat i +:+ "_" +:+ field.
Proof.
  unfold flatten_item. revert flat.
  induction item as [|[k v] item IH]; intros flat; [by left|].
  cbn [foldl fst snd]. intros [Hin | Hform]%IH; [|by right].
  apply dict_keys_set_inv in Hin as [-> | Hin]; [right; by eexists | by left].
Qed.

Lemma flatten_site_keys site_name i res (flat : pydict) k0 :
  k0 ∈ dict_keys (flatten_site site_name i res flat) →
  k0 ∈ dict_keys flat
  ∨ ∃ j field,
      k0 = site_name +:+ "_" +:+ PyStr.of_nat j +:+ "_" +:+ field.
Proof.
  revert i flat. induction res as [|item res IH]; intros i flat; [by left|].
  cbn [flatten_site]. intros [Hin | Hform]%IH; [|by right].
  apply flatten_item_keys in Hin as [Hin | [field ->]];
    [by left | right; by eexists _, _].
Qed.

(** Every key of a flattened record is [run_timestamp] or of the form
    [<site>_<index>_<field>], whatever the pipelines returned. *)
Lemma flatten_keys_form utcnow am_res bb_res sam_res k :
  k ∈ dict_keys (flatten utcnow am_res bb_res sam_res) →
  k = "run_timestamp" ∨ site_key k.
Proof.
  unfold flatten.
  intros [[[Hin | (j & f & ->)]%flatten_site_keys
          | (j & f & ->)]%flatten_site_keys
         | (j & f & ->)]%flatten_site_keys.
  - left. apply elem_of_cons in Hin as [-> | Hin]; [done|].
    by apply elem_of_nil in Hin.
  - right. exists "amazon", j, f. split; [|done].
    apply elem_of_cons. by left.
  - right. exists "bestbuy", j, f. split; [|done].
    apply elem_of_cons. right. apply elem_of_cons. by left.
  - right. exists "samsung", j, f. split; [|done].
    do 2 (apply elem_of_cons; right). apply elem_of_cons. by left.
Qed.

(** The record [main] builds holds its time stamp. *)
Lemma flatten_has_value utcnow am_res bb_res sam_res :
  has_value (flatten utcnow am_res bb_res sam_res).
Proof.
  exists "run_timestamp". unfold flatten, row_value, dict_get.
  set (flat0 := dict_set [] "run_timestamp" (VStr (utcnow +:+ "Z"))).
  destruct (flatten_site_keeps "amazon" 1 am_res flat0 "run_timestamp")
    as [Ha Ha']; [intros j f; discriminate|].
  destruct (flatten_site_keeps "bestbuy" 1 bb_res
              (flatten_site "amazon" 1 am_res flat0) "run_timestamp")
    as [Hb Hb']; [intros j f; discriminate|].
  destruct (flatten_site_keeps "samsung" 1 sam_res
              (flatten_site "bestbuy" 1 bb_res
                 (flatten_site "amazon" 1 am_res flat0)) "run_timestamp")
    as [Hs Hs']; [intros j f; discriminate|].
  split.
  - apply Hs', Hb', Ha'. apply elem_of_cons. by left.
  - rewrite Hs, Hb, Ha. simpl. case_decide as He; [|done].
    by destruct utcnow.
Qed.

(** The record [main] builds is one the store keeps as a row. *)
Lemma flatten_valid utcnow am_res bb_res sam_res :
  valid_record (flatten utcnow am_res bb_res sam_res).
Proof.
  split; [|apply flatten_has_value].
  intros [Hk | (s & i & f & Hs & Hk)]%flatten_keys_form; [done|].
  repeat (apply elem_of_cons in Hs as [-> | Hs]; [by vm_compute in Hk|]).
  by apply elem_of_nil in Hs.
Qed.

(** The file the store creates is a table of the store. *)
Lemma save_new_table_ok data path (fs : gmap string file) :
  fs !! path = None →
  ∃ fs' x,
    save_dict_to_excel_row data path fs = Returned fs'
    ∧ fs' !! path = Some (FXlsx x) ∧ table_ok x.
Proof.
  intros Hfs. eexists _, _. split; [by apply save_new|].
  split; [apply lookup_insert_eq|].
  split; [simpl; lia|]. unfold titles. simpl.
  intros Hin. apply elem_of_cons in Hin. destruct Hin as [Hin | Hin];
    [discriminate | by apply elem_of_nil in Hin].
Qed.

(** * Further properties of the code *)

(** ** File names *)

Lemma all_chars_app p (a b : string) :
  PyStr.all_chars p (a +:+ b) = PyStr.all_chars p a && PyStr.all_chars p b.
Proof.
  induction a as [|c a IH]; [done|].
  rewrite string_app_cons. simpl. by rewrite IH, andb_assoc.
Qed.

Lemma take_cons n c s :
  PyStr.take (S n) (String c s) = String c (PyStr.take n s).
Proof. reflexivity. Qed.

Lemma all_chars_take p n s :
  PyStr.all_chars p s = true → PyStr.all_chars p (PyStr.take n s) = true.
Proof.
  revert s. induction n as [|n IH]; intros [|c s]; try done.
  rewrite take_cons. cbn [PyStr.all_chars].
  intros [Hc Hs]%andb_true_iff. rewrite Hc. by apply IH.
Qed.

Lemma length_take n s :
  String.length (PyStr.take n s) = Nat.min n (String.length s).
Proof.
  revert s. induction n as [|n IH]; intros [|c s]; try done.
  rewrite take_cons. cbn [String.length]. by rewrite IH.
Qed.

Lemma map_chars_all (p : ascii → bool) (f : ascii → ascii) s :
  (∀ c, p (f c) = true) → PyStr.all_chars p (PyStr.map_chars f s) = true.
Proof. intros Hf. induction s as [|c s IH]; [done|]. simpl. by rewrite Hf. Qed.

Lemma length_map_chars f s :
  String.length (PyStr.map_chars f s) = String.length s.
Proof. induction s as [|c s IH]; [done|]. simpl. by rewrite IH. Qed.

Lemma quote_plus_not_empty s : s ≠ "" → quote_plus s ≠ "".
Proof.
  destruct s as [|c s]; [done|]. intros _. cbn [quote_plus].
  unfold quote_plus_char.
  destruct (_ || _); [done|]. by destruct (Ascii.eqb c " ").
Qed.

Lemma string_length_app (a b : string) :
  String.length (a +:+ b) = String.length a + String.length b.
Proof.
  induction a as [|c a IH]; [done|].
  rewrite string_app_cons. simpl. by rewrite IH.
Qed.

Lemma length_quote_plus s : String.length s ≤ String.length (quote_plus s).
Proof.
  induction s as [|c s IH]; [done|]. cbn [quote_plus].
  rewrite string_length_app. unfold quote_plus_char.
  destruct (_ || _); [simpl; lia|].
  destruct (Ascii.eqb c " "); simpl; lia.
Qed.

Lemma filename_char_quote_plus c :
  is_filename_char c = true → quote_plus_char c = String c "".
Proof.
  unfold is_filename_char, quote_plus_char.
  destruct (PyStr.is_alnum c); [done|]. simpl.
  destruct (Ascii.eqb c "_"); [done|].
  destruct (Ascii.eqb c "."); [done|].
  destruct (Ascii.eqb c "-"); [done|]. done.
Qed.

(** X1: the name [sanitize_filename] returns holds only letters, digits,
    points, underscores and hyphens; for a text that is not empty it has at
    most [maxlen] characters, as many as the quoted text allows, and is not
    empty unless [maxlen] is 0; for the empty text it is "file", whatever
    [maxlen]. *)
Theorem X1_sanitize_filename_safe s maxlen :
  let name := sanitize_filename s maxlen in
  PyStr.all_chars is_filename_char name = true
  ∧ (s ≠ "" →
     String.length name = Nat.min maxlen (String.length (quote_plus s))
     ∧ String.length name ≤ maxlen
     ∧ Nat.min maxlen (String.length s) ≤ String.length name)
  ∧ (s = "" → name = "file").
Proof.
  unfold sanitize_filename. destruct (decide (s = "")) as [-> | Hs].
  - split; [done|]. split; [done|]. done.
  - split; [|split; [|done]].
    + apply all_chars_take, map_chars_all. intros c.
      by destruct (is_filename_char c) eqn:Hc.
    + intros _. rewrite length_take, length_map_chars.
      pose proof (length_quote_plus s). lia.
Qed.

Lemma X1_sanitize_filename_safe_witness :
  sanitize_filename "https://a.b/c?d=1" 200 = "https_3A_2F_2Fa.b_2Fc_3Fd_3D1"
  ∧ String.length (sanitize_filename "https://a.b/c?d=1" 8) = 8
  ∧ sanitize_filename "" 2 = "file".
Proof.
  destruct (X1_sanitize_filename_safe "https://a.b/c?d=1" 8)
    as (_ & Hlen & _).
  destruct (X1_sanitize_filename_safe "" 2) as (_ & _ & Hfile).
  split; [reflexivity|]. split.
  - destruct Hlen as (-> & _); [discriminate | reflexivity].
  - by apply Hfile.
Defined.

Lemma quote_plus_safe s :
  PyStr.all_chars is_filename_char s = true → quote_plus s = s.
Proof.
  induction s as [|c s IH]; [done|]. simpl.
  intros [Hc Hs]%andb_true_iff.
  by rewrite (filename_char_quote_plus c Hc), IH.
Qed.

Lemma map_chars_id (p : ascii → bool) (d : ascii) s :
  PyStr.all_chars p s = true →
  PyStr.map_chars (λ c, if p c then c else d) s = s.
Proof.
  induction s as [|c s IH]; [done|]. simpl.
  intros [Hc Hs]%andb_true_iff. by rewrite Hc, IH.
Qed.

(** X2: a text of letters, digits, points, underscores and hyphens is its
    own file name, cut at [maxlen]. *)
Theorem X2_sanitize_filename_keeps_safe_text s maxlen :
  s ≠ "" →
  PyStr.all_chars is_filename_char s = true →
  sanitize_filename s maxlen = PyStr.take maxlen s.
Proof.
  intros Hs Hsafe. unfold sanitize_filename.
  rewrite decide_False by done.
  by rewrite (quote_plus_safe s Hsafe), (map_chars_id _ _ s Hsafe).
Qed.

Lemma X2_sanitize_filename_keeps_safe_text_witness :
  sanitize_filename "SM-F966U_v1.2" 5 = "SM-F9".
Proof.
  rewrite (X2_sanitize_filename_keeps_safe_text "SM-F966U_v1.2" 5);
    [reflexivity | discriminate | reflexivity].
Defined.

(** ** The SKU of a URL *)

Lemma length_lower s : String.length (PyStr.lower s) = String.length s.
Proof. apply length_map_chars. Qed.

Lemma take_drop n s : s = PyStr.take n s +:+ PyStr.drop n s.
Proof.
  revert s. induction n as [|n IH]; intros [|c s]; try done.
  rewrite take_cons, string_app_cons. cbn [PyStr.drop]. by rewrite <-IH.
Qed.

Lemma take_app_length (a b : string) : PyStr.take (String.length a) (a +:+ b) = a.
Proof.
  induction a as [|c a IH]; [by destruct b|].
  rewrite string_app_cons. cbn [String.length]. by rewrite take_cons, IH.
Qed.

Lemma drop_app_length (a b : string) : PyStr.drop (String.length a) (a +:+ b) = b.
Proof. induction a as [|c a IH]; [by destruct b|]. done. Qed.

Lemma string_app_nil_r (a : string) : a +:+ "" = a.
Proof. induction a as [|c a IH]; [done|]. by rewrite string_app_cons, IH. Qed.

(** After the longest run of characters of a class comes a character that
    is not of the class, or nothing. *)
Lemma take_while_stops p s :
  match PyStr.drop (String.length (PyStr.take_while p s)) s with
  | String c _ => p c = false
  | "" => True
  end.
Proof.
  induction s as [|c s IH]; [done|]. simpl.
  destruct (p c) eqn:Hc; simpl; [exact IH | exact Hc].
Qed.


Lemma match_sku_Some s g :
  match_sku s = Some g →
  g ≠ "" ∧ PyStr.all_chars is_sku_char g = true
  ∧ ∃ p post,
      s = p +:+ g +:+ post ∧ PyStr.lower p = "sku-"
      ∧ match post with String c _ => is_sku_char c = false | "" => True end.
Proof.
  unfold match_sku.
  destruct (String.eqb _ "sku-") eqn:Hp; [|done].
  apply String.eqb_eq in Hp.
  destruct (String.eqb _ "") eqn:Hg; [done|].
  apply String.eqb_neq in Hg. intros [= <-].
  split; [done|]. split; [apply take_while_all|].
  exists (PyStr.take 4 s),
    (PyStr.drop (String.length (PyStr.take_while is_sku_char (PyStr.drop 4 s)))
       (PyStr.drop 4 s)).
  split; [|split; [done|apply take_while_stops]].
  rewrite <-take_while_drop. apply take_drop.
Qed.

Lemma match_sku_at s : sku_at s ↔ is_Some (match_sku s).
Proof.
  split.
  - intros (p & c & rest & -> & Hp & Hc).
    assert (String.length p = 4) as Hlen.
    { by rewrite <-length_lower, Hp. }
    unfold match_sku. rewrite <-Hlen.
    rewrite take_app_length, Hp, drop_app_length. simpl.
    rewrite Hc. simpl. eauto.
  - intros [g Hg]. apply match_sku_Some in Hg
      as (Hne & Hall & p & post & -> & Hp & _).
    destruct g as [|c g]; [done|]. simpl in Hall.
    apply andb_true_iff in Hall as [Hc _].
    exists p, c, (g +:+ post). by rewrite string_app_cons.
Qed.

Lemma search_sku_cons c s :
  search_sku (String c s)
  = match match_sku (String c s) with
    | Some g => Some g
    | None => search_sku s
    end.
Proof. reflexivity. Qed.

Lemma search_sku_Some url g :
  search_sku url = Some g →
  ∃ pre s,
    url = pre +:+ s ∧ match_sku s = Some g
    ∧ ∀ pre1 s1, pre = pre1 +:+ s1 → s1 ≠ "" → match_sku (s1 +:+ s) = None.
Proof.
  induction url as [|c url IH]; [done|].
  rewrite search_sku_cons.
  destruct (match_sku (String c url)) as [g'|] eqn:Hm.
  - intros [= ->]. exists "", (String c url).
    split; [done|]. split; [done|].
    intros pre1 s1 Hpre. destruct pre1, s1; done.
  - intros (pre & s & -> & Hs & Hleft)%IH.
    exists (String c pre), s. split; [done|]. split; [done|].
    intros [|c1 pre1] s1.
    + rewrite string_app_nil. intros <- _. by rewrite string_app_cons.
    + rewrite string_app_cons. intros [= -> ->] Hne.
      by apply (Hleft pre1 s1).
Qed.

Lemma search_sku_None url :
  search_sku url = None ↔ ∀ pre s, url = pre +:+ s → match_sku s = None.
Proof.
  induction url as [|c url IH].
  - split; [|done]. intros _ pre s Hs. by destruct pre, s.
  - rewrite search_sku_cons. split.
    + destruct (match_sku (String c url)) as [g'|] eqn:Hm; [done|].
      intros Hs [|c1 pre] s.
      * rewrite string_app_nil. by intros <-.
      * rewrite string_app_cons. intros [= -> ->].
        by apply (proj1 IH Hs pre s).
    + intros Hall. rewrite (Hall "" (String c url)) by done.
      apply IH. intros pre s ->. apply (Hall (String c pre)). done.
Qed.

(** X3: the SKU [extract_sku_from_url] returns is not empty, is made of
    letters, digits and hyphens, and stands in the URL as it is returned,
    right after the first [sku-] (in any case) that is followed by such a
    character, up to the first character that is none. *)
Theorem X3_extract_sku_sound url g :
  extract_sku_from_url url = VStr g →
  g ≠ "" ∧ PyStr.all_chars is_sku_char g = true
  ∧ ∃ pre p post,
      url = pre +:+ p +:+ g +:+ post
      ∧ PyStr.lower p = "sku-"
      ∧ match post with String c _ => is_sku_char c = false | "" => True end
      ∧ ∀ pre1 s1, pre = pre1 +:+ s1 → s1 ≠ "" →
                   ¬ sku_at (s1 +:+ p +:+ g +:+ post).
Proof.
  unfold extract_sku_from_url. destruct (decide (url = "")); [done|].
  destruct (search_sku url) as [g'|] eqn:Hs; [|done]. intros [= ->].
  apply search_sku_Some in Hs as (pre & s & -> & Hm & Hleft).
  pose proof Hm as (Hne & Hall & p & post & -> & Hp & Hpost)%match_sku_Some.
  split; [done|]. split; [done|].
  exists pre, p, post. split; [done|]. split; [done|]. split; [done|].
  intros pre1 s1 Hpre Hs1 [g' Hg']%match_sku_at.
  by rewrite (Hleft pre1 s1 Hpre Hs1) in Hg'.
Qed.

Lemma X3_extract_sku_sound_witness :
  ∃ pre p post,
    "https://www.samsung.com/us/buy/galaxy-z-fold7-512gb-unlocked-SKU-sm-f966udbexaa/"
    = pre +:+ p +:+ "sm-f966udbexaa" +:+ post
    ∧ PyStr.lower p = "sku-".
Proof.
  destruct (X3_extract_sku_sound
    "https://www.samsung.com/us/buy/galaxy-z-fold7-512gb-unlocked-SKU-sm-f966udbexaa/"
    "sm-f966udbexaa" eq_refl)
    as (_ & _ & pre & p & post & Hurl & Hp & _).
  by exists pre, p, post.
Defined.

(** X4: [extract_sku_from_url] returns a text or [None], and [None] exactly
    for a URL without SKU segment: nowhere in it is [sku-] (in any case)
    followed by a letter, a digit or a hyphen. *)
Theorem X4_extract_sku_none url :
  (extract_sku_from_url url = VNone
   ↔ ∀ pre s, url = pre +:+ s → ¬ sku_at s)
  ∧ (extract_sku_from_url url = VNone
     ∨ ∃ g, extract_sku_from_url url = VStr g).
Proof.
  unfold extract_sku_from_url. split.
  - destruct (decide (url = "")) as [-> | Hne].
    + split; [|done]. intros _ pre s Hs [g Hg]%match_sku_at.
      by destruct pre, s.
    + destruct (search_sku url) as [g|] eqn:Hs.
      * split; [done|]. intros Hall. exfalso.
        apply search_sku_Some in Hs as (pre & s & -> & Hm & _).
        apply (Hall pre s); [done|]. apply match_sku_at. eauto.
      * split; [|done]. intros _ pre s -> [g Hg]%match_sku_at.
        by rewrite (proj1 (search_sku_None _) Hs pre s) in Hg.
  - destruct (decide (url = "")); [by left|].
    destruct (search_sku url); [right; eauto | by left].
Qed.

(** ** Dollar amounts *)





Lemma digit_amount_char c : PyStr.is_digit c = true → is_amount_char c = true.
Proof. unfold is_amount_char. by intros ->. Qed.












Section samsung_price_found.
Context `{Soup}.


End samsung_price_found.


(** ** The model text of a BestBuy page *)



Section bestbuy_model.
Context `{Soup}.


End bestbuy_model.


(** ** One turn of a pipeline loop *)

Ltac run_unfold :=
  unfold wait_network_idle, try_except, try_except_timeout, mbind, run_bind,
    mret, run_ret, await, emit, lift, write_text, with_fs, append_result;
  simpl.

Ltac crunch_eq :=
  repeat (simpl; match goal with
  | |- context [match ?x with Some _ => _ | None => _ end] =>
      destruct x eqn:?
  | |- context [match ?x with Returned _ => _ | Raised _ => _ end] =>
      destruct x eqn:?
  | |- context [if is_timeout ?e then _ else _] =>
      destruct (is_timeout e) eqn:?
  end); simpl.

Section turns.
Context `{Soup} `{Browser}.

Lemma site_loop_cons s d i u us :
  site_loop s d i (u :: us) = (site_turn s d i u;; site_loop s d (S i) us).
Proof. by destruct s. Qed.

Lemma turn_spec s d idx url st :
  let pr := page_run_of s idx url in
  let path := output_file s d idx url in
  let r := site_turn s d idx url st in
  r.1 = Returned ()
  ∧ ∃ recs,
      p_results r.2 = p_results st ++ recs
      ∧ url_records s url path recs
      ∧ (s = Amazon ∨ on_close pr = None → length recs = 1)
      ∧ (p_fs r.2 = p_fs st ∧ (∃ e, recs = [error_record url (id_field s) e])
         ∨ ∃ html, p_fs r.2 = <[path := FText html]> (p_fs st)).
Proof.
  destruct s; cbn [site_turn output_file id_field];
    unfold amazon_url, bestbuy_url, samsung_url; run_unfold; crunch_eq.
  all: split; [reflexivity|].
  all: rewrite <-?List.app_assoc; simpl.
  all: eexists; split; [reflexivity|].
  all: split; [|split].
  all: try (intros [? | ?]; (reflexivity || congruence)).
  all: try (first [ left; split; [reflexivity | eexists; reflexivity]
                  | right; eexists; reflexivity ]).
  all: unfold url_records; eexists; split;
    [| first [ left; reflexivity
             | right; eexists; split; [discriminate|];
               split; [|reflexivity]; reflexivity ] ].
  all: unfold record_of;
    first [ left; eexists; reflexivity
          | right; left; eexists _, _; reflexivity
          | right; right; split; [reflexivity|]; eexists; reflexivity ].
Qed.

End turns.

(** ** What a turn leaves for a URL *)

Section turn_outcomes.
Context `{Soup} `{Browser}.

(** X7: when the page of a URL cannot be opened or the navigation to the
    URL fails, the turn ends without raising, adds the error record of the
    URL (null file, price and identifier, status [error: ] followed by the
    message) to [results] and writes no file. *)
Theorem X7_navigation_failure s d idx url st e :
  let pr := page_run_of s idx url in
  on_new_page pr = Some e ∨ (on_new_page pr = None ∧ on_goto pr = Some e) →
  let r := site_turn s d idx url st in
  let record := error_record url (id_field s) e in
  r.1 = Returned ()
  ∧ p_results r.2 = p_results st ++ [record]
  ∧ p_fs r.2 = p_fs st
  ∧ dict_get record "status" = VStr ("error: " +:+ exn_msg e)
  ∧ dict_get record "file" = VNone
  ∧ dict_get record "price" = VNone
  ∧ dict_get record (id_field s) = VNone.
Proof.
  intros pr Hfail r record. subst pr r record.
  destruct s; cbn [site_turn id_field];
    unfold amazon_url, bestbuy_url, samsung_url; run_unfold;
    (destruct Hfail as [-> | [-> ->]]; simpl; done).
Qed.

(** X8: when the wait for a price inside the device-info region of a
    Samsung page fails, by a timeout or otherwise, the URL gets an error
    record and its document is not written, although the region was
    there. *)
Theorem X8_samsung_price_wait_failure d idx url st e :
  let pr := page_run_of Samsung idx url in
  on_new_page pr = None → on_goto pr = None →
  on_network_idle pr = None
  ∨ (∃ e', on_network_idle pr = Some e' ∧ is_timeout e' = true) →
  on_device_info pr = None →
  on_device_span pr = Some e →
  let r := samsung_url d idx url st in
  r.1 = Returned ()
  ∧ p_results r.2 = p_results st ++ [error_record url "sku" e]
  ∧ p_fs r.2 = p_fs st.
Proof.
  intros pr Hnew Hgoto Hidle Hinfo Hspan r. subst pr r.
  unfold samsung_url. run_unfold. rewrite Hnew, Hgoto. simpl.
  destruct Hidle as [-> | (e' & -> & He')]; simpl; rewrite ?He'; simpl;
    rewrite Hinfo; simpl; rewrite Hspan; done.
Qed.

Lemma site_parse_returns s path url html (fs : gmap string file) :
  ∃ price id,
    site_parse s path url (<[path := FText html]> fs) = Returned (price, id).
Proof.
  assert ((<[path := FText html]> fs) !! path = Some (FText html)) as Hf
    by apply lookup_insert_eq.
  destruct s; cbn [site_parse].
  - destruct (amazon_on_document path html _ Hf) as (p & m & Hr & _). eauto.
  - rewrite (bestbuy_on_document path html _ Hf). eauto.
  - rewrite (samsung_on_document path html _ Hf). eauto.
Qed.

Lemma turn_captured s d idx url st html :
  let pr := page_run_of s idx url in
  let path := output_file s d idx url in
  page_opens s pr →
  on_content pr = Returned html →
  let fs' := <[path := FText html]> (p_fs st) in
  let r := site_turn s d idx url st in
  ∃ price id,
    site_parse s path url fs' = Returned (price, id)
    ∧ r.1 = Returned ()
    ∧ p_fs r.2 = fs'
    ∧ p_trace r.2 = p_trace st ++ [EvGoto url; EvWrite path]
    ∧ p_results r.2
      = p_results st ++
        match on_close pr with
        | None => [ok_record url path price (id_field s) id]
        | Some e =>
            match s with
            | Amazon => [error_record url "model" e]
            | _ => [ok_record url path price (id_field s) id;
                    error_record url (id_field s) e]
            end
        end.
Proof.
  intros pr path (Hnew & Hgoto & Hrest) Hcontent fs' r.
  destruct (site_parse_returns s path url html (p_fs st))
    as (price & id & Hparse).
  exists price, id. split; [exact Hparse|].
  subst pr r fs' path.
  destruct s; cbn [site_turn id_field output_file site_parse] in *;
    unfold amazon_url, bestbuy_url, samsung_url; run_unfold;
    rewrite Hnew, Hgoto; simpl.
  - rewrite Hrest. simpl. rewrite Hcontent. simpl. rewrite Hparse. simpl.
    destruct (on_close _); simpl; rewrite <-?List.app_assoc; done.
  - rewrite Hrest. simpl. rewrite Hcontent. simpl. rewrite Hparse. simpl.
    destruct (on_close _); simpl; rewrite <-?List.app_assoc; done.
  - destruct Hrest as (Hidle & Hinfo & Hspan).
    destruct (extract_price _ _) as [price'|] eqn:Hprice; [|done].
    injection Hparse as <- <-.
    destruct Hidle as [-> | (e' & -> & He')]; simpl; rewrite ?He'; simpl;
      rewrite Hinfo; simpl; rewrite Hspan; simpl; rewrite Hcontent; simpl;
      rewrite Hprice; simpl;
      destruct (on_close _); simpl; rewrite <-?List.app_assoc; done.
Qed.

(** X9: when [page.close()] fails on a page that was captured and read,
    the Amazon pipeline records the URL as an error although its document
    is on disk, and the BestBuy and Samsung pipelines leave two records for
    the URL, the ok record and an error record. *)
Theorem X9_close_failure s d idx url st html e :
  let pr := page_run_of s idx url in
  let path := output_file s d idx url in
  page_opens s pr →
  on_content pr = Returned html →
  on_close pr = Some e →
  let r := site_turn s d idx url st in
  r.1 = Returned ()
  ∧ p_fs r.2 !! path = Some (FText html)
  ∧ ∃ price id,
      p_results r.2
      = p_results st ++
        match s with
        | Amazon => [error_record url "model" e]
        | _ => [ok_record url path price (id_field s) id;
                error_record url (id_field s) e]
        end.
Proof.
  intros pr path Hopen Hcontent Hclose r.
  destruct (turn_captured s d idx url st html Hopen Hcontent)
    as (price & id & _ & Hr & Hfs & _ & Hres).
  fold pr in Hres. rewrite Hclose in Hres.
  split; [exact Hr|]. split.
  - subst r. rewrite Hfs. apply lookup_insert_eq.
  - by exists price, id.
Qed.

(** X10: when the page of a URL opens, is captured and closes, the
    document is written to the output file of the URL and [results] gains
    the ok record of the URL: the URL, the output file, and the price and
    identifier read in the file as written (for Samsung the identifier is
    the SKU of the URL). *)
Theorem X10_ok_record s d idx url st html :
  let pr := page_run_of s idx url in
  let path := output_file s d idx url in
  page_opens s pr →
  on_content pr = Returned html →
  on_close pr = None →
  let fs' := <[path := FText html]> (p_fs st) in
  let r := site_turn s d idx url st in
  ∃ price id,
    site_parse s path url fs' = Returned (price, id)
    ∧ r.1 = Returned ()
    ∧ p_fs r.2 = fs'
    ∧ p_results r.2
      = p_results st ++ [ok_record url path price (id_field s) id]
    ∧ (s = Samsung → id = extract_sku_from_url url).
Proof.
  intros pr path Hopen Hcontent Hclose fs' r.
  destruct (turn_captured s d idx url st html Hopen Hcontent)
    as (price & id & Hparse & Hr & Hfs & _ & Hres).
  fold pr in Hres. rewrite Hclose in Hres.
  exists price, id. split; [exact Hparse|]. split; [exact Hr|].
  split; [exact Hfs|]. split; [exact Hres|].
  intros ->. cbn [site_parse] in Hparse.
  destruct (extract_price _ _); [|done]. by injection Hparse as _ <-.
Qed.

End turn_outcomes.

Lemma X7_navigation_failure_witness :
  p_results
    (@site_turn blank_soup (browser_of page_unreachable) BestBuy "outputs" 1
       "https://www.bestbuy.com/product/JJGRF3XK3P" (PState ∅ [] [])).2
  = [error_record "https://www.bestbuy.com/product/JJGRF3XK3P" "model"
       (Exn "Error" "net::ERR_NAME_NOT_RESOLVED")].
Proof.
  exact (proj1 (proj2
    (@X7_navigation_failure blank_soup (browser_of page_unreachable) BestBuy
       "outputs" 1 "https://www.bestbuy.com/product/JJGRF3XK3P"
       (PState ∅ [] []) _ (or_intror (conj eq_refl eq_refl))))).
Defined.

Lemma X8_samsung_price_wait_failure_witness :
  let r := @samsung_url blank_soup (browser_of page_without_price) "outputs" 1
             "https://www.samsung.com/us/sku-sm-f966udbexaa/"
             (PState ∅ [] []) in
  p_results r.2
  = [error_record "https://www.samsung.com/us/sku-sm-f966udbexaa/" "sku"
       (Exn "TimeoutError" "Timeout 15000ms exceeded.")]
  ∧ p_fs r.2 = ∅.
Proof.
  exact (proj2
    (@X8_samsung_price_wait_failure blank_soup (browser_of page_without_price)
       "outputs" 1 "https://www.samsung.com/us/sku-sm-f966udbexaa/"
       (PState ∅ [] []) _ eq_refl eq_refl (or_introl eq_refl) eq_refl
       eq_refl)).
Defined.

Lemma sample_page_opens s : page_opens s page_close_fails.
Proof. destruct s; repeat split; by left. Defined.

Lemma sample_page_loads s : page_opens s page_loads.
Proof. destruct s; repeat split; by left. Defined.

Lemma X9_close_failure_witness :
  length
    (p_results
       (@site_turn blank_soup (browser_of page_close_fails) Amazon "outputs" 1
          "https://www.amazon.com/dp/B0F7JRKGH1" (PState ∅ [] [])).2) = 1
  ∧ length
      (p_results
         (@site_turn blank_soup (browser_of page_close_fails) BestBuy
            "outputs" 1 "https://www.bestbuy.com/product/JJGRF3XK3P"
            (PState ∅ [] [])).2) = 2.
Proof.
  split.
  - destruct (@X9_close_failure blank_soup (browser_of page_close_fails)
                Amazon "outputs" 1 "https://www.amazon.com/dp/B0F7JRKGH1"
                (PState ∅ [] []) _ _ (sample_page_opens Amazon) eq_refl
                eq_refl) as (_ & _ & price & id & ->). reflexivity.
  - destruct (@X9_close_failure blank_soup (browser_of page_close_fails)
                BestBuy "outputs" 1
                "https://www.bestbuy.com/product/JJGRF3XK3P"
                (PState ∅ [] []) _ _ (sample_page_opens BestBuy) eq_refl
                eq_refl) as (_ & _ & price & id & ->). reflexivity.
Defined.

Lemma X10_ok_record_witness :
  ∃ price,
    p_results
      (@site_turn blank_soup steady_browser Samsung "outputs" 1
         "https://www.samsung.com/us/sku-sm-f966udbexaa/" (PState ∅ [] [])).2
    = [ok_record "https://www.samsung.com/us/sku-sm-f966udbexaa/"
         (output_file Samsung "outputs" 1
            "https://www.samsung.com/us/sku-sm-f966udbexaa/")
         price "sku" (VStr "sm-f966udbexaa")].
Proof.
  destruct (@X10_ok_record blank_soup steady_browser Samsung "outputs" 1
              "https://www.samsung.com/us/sku-sm-f966udbexaa/"
              (PState ∅ [] []) _ (sample_page_loads Samsung) eq_refl eq_refl)
    as (price & id & _ & _ & _ & Hres & Hid).
  exists price. rewrite Hres, (Hid eq_refl). reflexivity.
Defined.

(** ** The loop of a pipeline *)

Section loops.
Context `{Soup} `{Browser}.

Lemma url_records_file s url path recs rec p :
  url_records s url path recs → rec ∈ recs →
  dict_get rec "file" = VStr p → p = path.
Proof.
  intros (r & Hr & Hrecs) Hin Hfile.
  assert (rec = r ∨ ∃ e, rec = error_record url (id_field s) e) as [-> | [e ->]].
  { destruct Hrecs as [-> | (e & _ & _ & ->)].
    - apply list_elem_of_singleton in Hin. by left.
    - apply elem_of_cons in Hin as [-> | Hin]; [by left|].
      apply list_elem_of_singleton in Hin. right. eauto. }
  - destruct Hr as [[e ->] | [(price & id & ->) | (_ & sku & ->)]];
      unfold dict_get, error_record, ok_record, partial_record in Hfile;
      simpl in Hfile; by simplify_eq.
  - done.
Qed.

Lemma loop_spec s d urls idx st :
  let r := site_loop s d idx urls st in
  r.1 = Returned ()
  ∧ ∃ recs,
      p_results r.2 = p_results st ++ recs
      ∧ loop_records s d idx urls recs
      ∧ (s = Amazon ∨ closes s →
         length recs = length urls
         ∧ ∀ i url, urls !! i = Some url →
             ∃ rec, recs !! i = Some rec
                    ∧ record_of s url (output_file s d (idx + i) url) rec)
      ∧ loop_files s d idx urls (p_fs st) (p_fs r.2)
      ∧ files_written recs (p_fs r.2).
Proof.
  revert idx st. induction urls as [|url urls IH]; intros idx st.
  - assert (site_loop s d idx [] st = (Returned (), st)) as ->
      by (by destruct s).
    simpl. split; [done|]. exists []. rewrite app_nil_r.
    split; [done|]. split; [constructor|]. split; [|split].
    + intros _. split; [done|]. intros i url Hi. done.
    + intros p. by left.
    + intros rec path Hin. by apply elem_of_nil in Hin.
  - rewrite site_loop_cons. unfold mbind, run_bind.
    destruct (turn_spec s d idx url st)
      as (Hr1 & recs1 & Hres1 & Hrecs1 & Hone1 & Hfs1).
    destruct (site_turn s d idx url st) as [o st1]. simpl in *. subst o.
    destruct (IH (S idx) st1) as (Hr2 & recs2 & Hres2 & Hrecs2 & Hone2
                                  & Hfs2 & Hwr2).
    split; [exact Hr2|]. exists (recs1 ++ recs2).
    split; [by rewrite Hres2, Hres1, app_assoc|].
    split; [by constructor|]. split; [|split].
    + intros Hc.
      assert (length recs1 = 1) as Hlen1.
      { apply Hone1. destruct Hc as [-> | Hc]; [by left|]. right. apply Hc. }
      destruct (Hone2 Hc) as [Hlen2 Hnth]. split.
      * rewrite length_app, Hlen1, Hlen2. done.
      * destruct recs1 as [|r1 [|? ?]]; try done.
        intros [|i] u Hi; simpl in Hi.
        -- injection Hi as <-. exists r1. split; [done|].
           rewrite Nat.add_0_r.
           destruct Hrecs1 as (r & Hr & [[= ->] | (e & _ & _ & [=])]). done.
        -- destruct (Hnth i u Hi) as (rec & Hrec & Hof).
           exists rec. split; [done|].
           by replace (idx + S i) with (S idx + i) by lia.
    + intros p. destruct (Hfs2 p) as [Heq | (i & u & html & Hi & -> & Hp)].
      * destruct Hfs1 as [[Hst1 _] | [html Hst1]];
          [left; by rewrite Heq, Hst1|].
        destruct (decide (p = output_file s d idx url)) as [-> | Hne].
        -- right. exists 0, url, html. rewrite Nat.add_0_r.
           split; [done|]. split; [done|].
           by rewrite Heq, Hst1, lookup_insert_eq.
        -- left. by rewrite Heq, Hst1, lookup_insert_ne.
      * right. exists (S i), u, html. split; [done|].
        split; [f_equal; lia | done].
    + intros rec path [Hin | Hin]%elem_of_app Hfile; [|by eapply Hwr2].
      assert (path = output_file s d idx url) as ->
        by (by eapply url_records_file).
      assert (∃ html, p_fs st1 !! output_file s d idx url = Some (FText html))
        as [html Hst1].
      { destruct Hfs1 as [[_ [e ->]] | [html Hst1]].
        - apply list_elem_of_singleton in Hin. by subst rec.
        - exists html. rewrite Hst1. apply lookup_insert_eq. }
      destruct (Hfs2 (output_file s d idx url))
        as [Heq | (i & u & html' & _ & _ & Hp)]; [|eauto].
      exists html. by rewrite Heq.
Qed.

End loops.

(** ** The result list of a pipeline *)

Section results.
Context `{Soup} `{Browser}.

Lemma pipeline_run s urls d c (fs : gmap string file) :
  ∃ tr0,
    let l := site_loop s d 1 urls (PState fs tr0 []) in
    let r := run_pipeline s urls d c fs in
    r.1 = Returned (p_results l.2)
    ∧ p_results r.2 = p_results l.2
    ∧ p_fs r.2 = match s with
                 | Samsung => p_fs l.2
                 | _ => <[c := FText (storage_state s)]> (p_fs l.2)
                 end.
Proof.
  exists (match s with
          | Samsung => [EvNewSession]
          | _ => if path_exists c fs then [EvLoadSession c] else [EvNewSession]
          end).
  destruct s; cbn [site_loop]; unfold run_pipeline, pipeline,
    save_amazon_htmls, save_bestbuy_htmls, save_samsung_htmls, open_context,
    try_finally, get_results, save_session, emit, mbind, run_bind; simpl.
  - destruct (path_exists c fs); simpl;
      match goal with |- context [amazon_loop d 1 urls ?st] =>
        destruct (loop_spec Amazon d urls 1 st) as [Hr _];
        cbn [site_loop] in Hr;
        destruct (amazon_loop d 1 urls st) as [o l]; simpl in *; subst o
      end; done.
  - destruct (path_exists c fs); simpl;
      match goal with |- context [bestbuy_loop d 1 urls ?st] =>
        destruct (loop_spec BestBuy d urls 1 st) as [Hr _];
        cbn [site_loop] in Hr;
        destruct (bestbuy_loop d 1 urls st) as [o l]; simpl in *; subst o
      end; done.
  - match goal with |- context [samsung_loop d 1 urls ?st] =>
      destruct (loop_spec Samsung d urls 1 st) as [Hr _];
      cbn [site_loop] in Hr;
      destruct (samsung_loop d 1 urls st) as [o l]; simpl in *; subst o
    end; done.
Qed.

Lemma url_records_length s url path recs :
  url_records s url path recs → 1 ≤ length recs ≤ 2.
Proof. intros (r & _ & [-> | (e & _ & _ & ->)]); simpl; lia. Qed.

Lemma loop_records_length s d idx urls recs :
  loop_records s d idx urls recs →
  length urls ≤ length recs ≤ 2 * length urls.
Proof.
  induction 1 as [|idx url urls recs rest Hu _ IH]; [simpl; lia|].
  apply url_records_length in Hu. rewrite length_app. simpl. lia.
Qed.

Lemma url_records_elem s url path recs rec :
  url_records s url path recs → rec ∈ recs → record_of s url path rec.
Proof.
  intros (r & Hr & Hrecs) Hin.
  destruct Hrecs as [-> | (e & _ & _ & ->)].
  - apply list_elem_of_singleton in Hin. by subst.
  - apply elem_of_cons in Hin as [-> | Hin]; [done|].
    apply list_elem_of_singleton in Hin. subst. left. eauto.
Qed.

Lemma loop_records_elem s d idx urls recs rec :
  loop_records s d idx urls recs → rec ∈ recs →
  ∃ i url, urls !! i = Some url
           ∧ record_of s url (output_file s d (idx + i) url) rec.
Proof.
  induction 1 as [|idx url urls recs rest Hu _ IH]; [by intros ?%elem_of_nil|].
  intros [Hin | Hin]%elem_of_app.
  - exists 0, url. rewrite Nat.add_0_r. split; [done|].
    by eapply url_records_elem.
  - destruct (IH Hin) as (i & u & Hi & Hr). exists (S i), u.
    split; [done|]. by replace (idx + S i) with (S idx + i) by lia.
Qed.

Lemma record_of_url s url path rec :
  record_of s url path rec → dict_get rec "url" = VStr url.
Proof.
  by intros [[e ->] | [(price & id & ->) | (_ & sku & ->)]].
Qed.

Lemma record_of_keys s url path rec :
  record_of s url path rec →
  dict_keys rec = ["url"; "file"; "price"; id_field s; "status"].
Proof.
  intros [[e ->] | [(price & id & ->) | (-> & sku & ->)]]; reflexivity.
Qed.

(** X11: a pipeline returns its result list, whatever happens on the
    pages, with at least one and at most two records for each URL. The
    Amazon pipeline, and the other two when [page.close()] never fails,
    return exactly one record for each URL, in the order of the URLs, each
    record carrying its URL. *)
Theorem X11_results_follow_urls s urls d c (fs : gmap string file) :
  let r := run_pipeline s urls d c fs in
  ∃ results,
    r.1 = Returned results
    ∧ length urls ≤ length results ≤ 2 * length urls
    ∧ (s = Amazon ∨ closes s →
       length results = length urls
       ∧ ∀ i url, urls !! i = Some url →
           ∃ rec, results !! i = Some rec ∧ dict_get rec "url" = VStr url).
Proof.
  destruct (pipeline_run s urls d c fs) as (tr0 & Hr & _ & _).
  destruct (loop_spec s d urls 1 (PState fs tr0 []))
    as (_ & recs & Hres & Hrecs & Hone & _).
  simpl in *. rewrite Hres in Hr.
  exists recs. split; [exact Hr|].
  split; [by eapply loop_records_length|].
  intros Hc. destruct (Hone Hc) as [Hlen Hnth]. split; [done|].
  intros i url Hi. destruct (Hnth i url Hi) as (rec & Hrec & Hof).
  exists rec. split; [done|]. by eapply record_of_url.
Qed.

(** X12: every record of a result list has the five keys [url], [file],
    [price], [model] (for Samsung [sku]) and [status], in this order, and
    carries one of the URLs. It is an error record (status [error: ] and a
    message; file, price and identifier null), an ok record (status [ok],
    a file), or for Samsung a partial record (status
    [partial: no device_info], a file, a null price). *)
Theorem X12_record_shape s urls d c (fs : gmap string file) results rec :
  (run_pipeline s urls d c fs).1 = Returned results →
  rec ∈ results →
  dict_keys rec = ["url"; "file"; "price"; id_field s; "status"]
  ∧ (∃ url, url ∈ urls ∧ dict_get rec "url" = VStr url)
  ∧ ((∃ msg, dict_get rec "status" = VStr ("error: " +:+ msg))
     ∧ dict_get rec "file" = VNone ∧ dict_get rec "price" = VNone
     ∧ dict_get rec (id_field s) = VNone
     ∨ dict_get rec "status" = VStr "ok"
       ∧ (∃ path, dict_get rec "file" = VStr path)
     ∨ s = Samsung
       ∧ dict_get rec "status" = VStr "partial: no device_info"
       ∧ (∃ path, dict_get rec "file" = VStr path)
       ∧ dict_get rec "price" = VNone).
Proof.
  intros Hrun Hin.
  destruct (pipeline_run s urls d c fs) as (tr0 & Hr & _ & _).
  destruct (loop_spec s d urls 1 (PState fs tr0 []))
    as (_ & recs & Hres & Hrecs & _).
  simpl in *. rewrite Hres, Hrun in Hr. injection Hr as ->.
  destruct (loop_records_elem _ _ _ _ _ _ Hrecs Hin) as (i & url & Hi & Hof).
  split; [by eapply record_of_keys|]. split.
  - exists url.
    split; [by eapply list_elem_of_lookup_2 | by eapply record_of_url].
  - destruct Hof as [[e ->] | [(price & id & ->) | (-> & sku & ->)]].
    + left. destruct s; (split; [by exists (exn_msg e)|done]).
    + right; left. split; [by destruct s|].
      by exists (output_file s d (1 + i) url).
    + right; right. split; [done|]. split; [done|]. split; [|done].
      by exists (output_file Samsung d (1 + i) url).
Qed.

(** X13: the file named by a record of a result list is there when the
    pipeline returns, and it is text. *)
Theorem X13_record_files_written s urls d c (fs : gmap string file)
    results rec path :
  (run_pipeline s urls d c fs).1 = Returned results →
  rec ∈ results →
  dict_get rec "file" = VStr path →
  ∃ text, p_fs (run_pipeline s urls d c fs).2 !! path = Some (FText text).
Proof.
  intros Hrun Hin Hfile.
  destruct (pipeline_run s urls d c fs) as (tr0 & Hr & _ & Hfs).
  destruct (loop_spec s d urls 1 (PState fs tr0 []))
    as (_ & recs & Hres & _ & _ & _ & Hwr).
  simpl in *. rewrite Hres, Hrun in Hr. injection Hr as ->.
  destruct (Hwr rec path Hin Hfile) as [html Hp].
  rewrite Hfs. destruct s; [| |by eauto];
    (destruct (decide (path = c)) as [-> | Hne];
     [rewrite lookup_insert_eq | rewrite lookup_insert_ne by done]; eauto).
Qed.

Lemma pipeline_other_files s urls d c (fs : gmap string file) p :
  (∀ i url, urls !! i = Some url → p ≠ output_file s d (S i) url) →
  s = Samsung ∨ p ≠ c →
  p_fs (run_pipeline s urls d c fs).2 !! p = fs !! p.
Proof.
  intros Hout Hc.
  destruct (pipeline_run s urls d c fs) as (tr0 & _ & _ & Hfs).
  destruct (loop_spec s d urls 1 (PState fs tr0 []))
    as (_ & recs & _ & _ & _ & Hfiles & _).
  simpl in *. rewrite Hfs.
  assert (p_fs (site_loop s d 1 urls (PState fs tr0 [])).2 !! p = fs !! p)
    as Hloop.
  { destruct (Hfiles p) as [Heq | (i & url & html & Hi & -> & _)]; [done|].
    by destruct (Hout i url Hi). }
  destruct s; [| |done];
    (destruct Hc as [? | Hne]; [done|]; by rewrite lookup_insert_ne).
Qed.

(** The records of a result list hold each key once. *)
Lemma pipeline_records s urls d c (fs : gmap string file) results :
  (run_pipeline s urls d c fs).1 = Returned results →
  records results
  ∧ Forall (λ rec, length rec = 5) results
  ∧ length urls ≤ length results ≤ 2 * length urls
  ∧ (s = Amazon ∨ closes s → length results = length urls).
Proof.
  intros Hrun.
  destruct (pipeline_run s urls d c fs) as (tr0 & Hr & _ & _).
  destruct (loop_spec s d urls 1 (PState fs tr0 []))
    as (_ & recs & Hres & Hrecs & Hone & _).
  simpl in *. rewrite Hres, Hrun in Hr. injection Hr as ->.
  split; [|split; [|split]].
  - apply Forall_forall. intros rec Hin.
    destruct (loop_records_elem _ _ _ _ _ _ Hrecs Hin) as (i & url & _ & Hof).
    rewrite (record_of_keys _ _ _ _ Hof).
    destruct s; apply (bool_decide_unpack _); by vm_compute.
  - apply Forall_forall. intros rec Hin.
    destruct (loop_records_elem _ _ _ _ _ _ Hrecs Hin) as (i & url & _ & Hof).
    rewrite <-(length_fmap fst). fold (dict_keys rec).
    by rewrite (record_of_keys _ _ _ _ Hof).
  - by eapply loop_records_length.
  - intros Hc. by destruct (Hone Hc).
Qed.

(** X14: a pipeline changes no file other than the output files of its
    URLs and, for Amazon and BestBuy, the session file; the Samsung
    pipeline leaves the session file as it is. *)
Theorem X14_other_files_untouched s urls d c (fs : gmap string file) p :
  (∀ i url, urls !! i = Some url → p ≠ output_file s d (S i) url) →
  s = Samsung ∨ p ≠ c →
  p_fs (run_pipeline s urls d c fs).2 !! p = fs !! p.
Proof. apply pipeline_other_files. Qed.

End results.

Lemma steady_browser_closes s : @closes steady_browser s.
Proof. intros idx url. reflexivity. Defined.

Lemma X11_results_follow_urls_witness :
  ∃ results,
    (@run_pipeline blank_soup steady_browser BestBuy bestbuy_urls "outputs"
       "bestbuy_cookies.json" ∅).1 = Returned results
    ∧ length results = 4.
Proof.
  destruct (@X11_results_follow_urls blank_soup steady_browser BestBuy
              bestbuy_urls "outputs" "bestbuy_cookies.json" ∅)
    as (results & Hr & _ & Hone).
  exists results. split; [exact Hr|].
  exact (proj1 (Hone (or_intror (steady_browser_closes BestBuy)))).
Defined.

Lemma X12_record_shape_witness :
  let url := "https://www.samsung.com/us/sku-sm-f966udbexaa/" in
  let rec := partial_record url (output_file Samsung "outputs" 1 url)
               (VStr "sm-f966udbexaa") in
  dict_keys rec = ["url"; "file"; "price"; "sku"; "status"].
Proof.
  intros url rec.
  exact (proj1
    (@X12_record_shape blank_soup slow_browser Samsung [url] "outputs"
       "samsung_cookies.json" ∅ [rec] rec eq_refl
       (list_elem_of_here rec []))).
Defined.

Lemma X13_record_files_written_witness :
  let url := "https://www.samsung.com/us/sku-sm-f966udbexaa/" in
  ∃ text,
    p_fs (@run_pipeline blank_soup slow_browser Samsung [url] "outputs"
            "samsung_cookies.json" ∅).2
      !! output_file Samsung "outputs" 1 url
    = Some (FText text).
Proof.
  intros url.
  exact (@X13_record_files_written blank_soup slow_browser Samsung [url]
           "outputs" "samsung_cookies.json" ∅
           [partial_record url (output_file Samsung "outputs" 1 url)
              (VStr "sm-f966udbexaa")]
           _ (output_file Samsung "outputs" 1 url) eq_refl
           (list_elem_of_here _ []) eq_refl).
Defined.

Lemma X14_other_files_untouched_witness :
  p_fs (@run_pipeline blank_soup steady_browser Amazon
          ["https://www.amazon.com/dp/B0F7JRKGH1"] "outputs"
          "amazon_cookies.json" sample_fs).2 !! "outputs/results.xlsx"
  = Some (FXlsx sample_table).
Proof.
  apply (@X14_other_files_untouched blank_soup steady_browser Amazon
           ["https://www.amazon.com/dp/B0F7JRKGH1"] "outputs"
           "amazon_cookies.json" sample_fs "outputs/results.xlsx").
  - intros [|i] url Hi; [|done]. injection Hi as <-. by vm_compute.
  - right. discriminate.
Defined.

(** ** The flattened record *)

Lemma string_app_inv_head (a x y : string) : a +:+ x = a +:+ y → x = y.
Proof.
  induction a as [|c a IH]; [done|].
  rewrite !string_app_cons. intros [= Heq]. by apply IH.
Qed.

Lemma pretty_N_char_digit x : PyStr.is_digit (pretty_N_char x) = true.
Proof. unfold pretty_N_char. by repeat case_match. Qed.

Lemma pretty_N_go_digits x s :
  PyStr.all_chars PyStr.is_digit s = true →
  PyStr.all_chars PyStr.is_digit (pretty_N_go x s) = true.
Proof.
  revert s. induction (N.lt_wf_0 x) as [x _ IH]; intros s Hs.
  assert (x = 0 ∨ 0 < x)%N as [-> | Hx] by lia.
  - by rewrite pretty_N_go_0.
  - rewrite pretty_N_go_step by done. apply IH.
    + by apply N.div_lt.
    + simpl. by rewrite pretty_N_char_digit.
Qed.

Lemma pretty_N_go_not_empty x s : s ≠ "" → pretty_N_go x s ≠ "".
Proof.
  revert s. induction (N.lt_wf_0 x) as [x _ IH]; intros s Hs.
  assert (x = 0 ∨ 0 < x)%N as [-> | Hx] by lia.
  - by rewrite pretty_N_go_0.
  - rewrite pretty_N_go_step by done. apply IH; [|done].
    by apply N.div_lt.
Qed.

(** [f"{i}"] is a run of digits, and not empty. *)
Lemma of_nat_digits n : PyStr.all_chars PyStr.is_digit (PyStr.of_nat n) = true.
Proof.
  unfold PyStr.of_nat, pretty, pretty_nat, pretty, pretty_N.
  case_decide; [done|]. by apply pretty_N_go_digits.
Qed.

Lemma of_nat_not_empty n : PyStr.of_nat n ≠ "".
Proof.
  unfold PyStr.of_nat, pretty, pretty_nat, pretty, pretty_N.
  case_decide as Hn; [done|].
  assert (0 < N.of_nat n)%N as Hpos by lia.
  rewrite pretty_N_go_step by done. by apply pretty_N_go_not_empty.
Qed.

Lemma digits_sep_inj (a b x y : string) :
  PyStr.all_chars PyStr.is_digit a = true →
  PyStr.all_chars PyStr.is_digit b = true →
  a +:+ "_" +:+ x = b +:+ "_" +:+ y → a = b ∧ x = y.
Proof.
  revert b. induction a as [|c a IH]; intros [|c' b] Ha Hb.
  - rewrite !string_app_nil. by intros ->%string_app_inv_head.
  - rewrite string_app_nil, !string_app_cons. intros [= <- _].
    simpl in Hb. done.
  - rewrite string_app_nil, !string_app_cons. intros [= -> _].
    simpl in Ha. done.
  - rewrite !string_app_cons. intros [= -> Heq].
    simpl in Ha, Hb.
    apply andb_true_iff in Ha as [_ Ha]. apply andb_true_iff in Hb as [_ Hb].
    destruct (IH b Ha Hb Heq) as [-> ->]. done.
Qed.

Lemma flat_key_inj sn i k j k' :
  flat_key sn i k = flat_key sn j k' → i = j ∧ k = k'.
Proof.
  unfold flat_key. intros Heq%string_app_inv_head.
  rewrite !(string_app_cons "_" ""), !string_app_nil in Heq.
  injection Heq as Heq.
  apply digits_sep_inj in Heq as [Hi ->]; [|apply of_nat_digits..].
  split; [|done]. by apply (inj pretty) in Hi.
Qed.

Lemma dict_lookup_None (d : pydict) k :
  dict_lookup d k = None ↔ k ∉ dict_keys d.
Proof.
  unfold dict_keys. induction d as [|[k' v] d IH]; simpl.
  - split; [|done]. intros _ ?%elem_of_nil. done.
  - rewrite not_elem_of_cons. destruct (decide (k = k')) as [-> | Hne].
    + split; [done|]. by intros [? _].
    + rewrite IH. split; [by intros ?|by intros [_ ?]].
Qed.

(** A key that is new to a dictionary is set at its end. *)
Lemma dict_set_fresh (d : pydict) k v :
  k ∉ dict_keys d → dict_set d k v = d ++ [(k, v)].
Proof.
  unfold dict_keys. induction d as [|[k' v'] d IH]; [done|].
  rewrite (fmap_cons fst). cbn [fst dict_set].
  intros [Hne Hd]%not_elem_of_cons.
  rewrite decide_False by done. by rewrite IH.
Qed.

Lemma dict_lookup_app (d1 d2 : pydict) k :
  dict_lookup (d1 ++ d2) k
  = match dict_lookup d1 k with
    | Some v => Some v
    | None => dict_lookup d2 k
    end.
Proof.
  induction d1 as [|[k' v] d1 IH]; [done|]. simpl.
  by destruct (decide (k = k')).
Qed.

Lemma flatten_item_entries sn i item (flat : pydict) :
  NoDup (dict_keys item) →
  (∀ k, k ∈ dict_keys item → flat_key sn i k ∉ dict_keys flat) →
  flatten_item sn i item flat
  = flat ++ ((λ kv : string * value, (flat_key sn i kv.1, kv.2)) <$> item).
Proof.
  unfold flatten_item. fold (flat_key sn i).
  revert flat. induction item as [|[k v] item IH]; intros flat Hnd Hfresh.
  - by rewrite app_nil_r.
  - unfold dict_keys in Hnd, Hfresh. rewrite (fmap_cons fst) in Hnd, Hfresh.
    cbn [fst] in Hnd, Hfresh. apply NoDup_cons in Hnd as [Hk Hnd].
    cbn [foldl fst snd].
    change (String.append sn
              (String.append "_"
                 (String.append (PyStr.of_nat i) (String.append "_" k))))
      with (flat_key sn i k).
    rewrite dict_set_fresh by (apply Hfresh; by left).
    rewrite IH; [by rewrite <-app_assoc|done|].
    intros k' Hk'. unfold dict_keys. rewrite fmap_app.
    intros [Hin | Hin%list_elem_of_singleton]%elem_of_app.
    + by apply (Hfresh k'); [right|].
    + apply flat_key_inj in Hin as [_ ->]. done.
Qed.

Lemma site_entries_keys sn i res k :
  k ∈ dict_keys (site_entries sn i res) →
  ∃ j k', i ≤ j ∧ k = flat_key sn j k'.
Proof.
  revert i. induction res as [|item res IH]; intros i;
    [by intros ?%elem_of_nil|].
  unfold dict_keys. cbn [site_entries]. rewrite fmap_app.
  intros [Hin | Hin]%elem_of_app.
  - rewrite <-list_fmap_compose in Hin.
    apply list_elem_of_fmap in Hin as ([k' v] & -> & _).
    exists i, k'. split; [lia|done].
  - destruct (IH (S i) Hin) as (j & k' & Hj & ->).
    exists j, k'. split; [lia|done].
Qed.

Lemma flatten_site_entries sn i res (flat : pydict) :
  records res →
  (∀ j k, i ≤ j → flat_key sn j k ∉ dict_keys flat) →
  flatten_site sn i res flat = flat ++ site_entries sn i res.
Proof.
  revert i flat. induction res as [|item res IH]; intros i flat Hrec Hfresh.
  - by rewrite app_nil_r.
  - apply Forall_cons in Hrec as [Hnd Hrec]. cbn [flatten_site site_entries].
    rewrite flatten_item_entries; [|done|by intros k _; apply Hfresh].
    rewrite IH; [by rewrite <-app_assoc|done|].
    intros j k Hj. unfold dict_keys. rewrite fmap_app.
    intros [Hin | Hin]%elem_of_app.
    + apply (Hfresh j k); [lia|done].
    + rewrite <-list_fmap_compose in Hin.
      apply list_elem_of_fmap in Hin as ([k' v] & Heq & _).
      apply flat_key_inj in Heq as [? _]. lia.
Qed.

Lemma not_elem_of_keys_app (d1 d2 : pydict) k :
  k ∉ dict_keys d1 → k ∉ dict_keys d2 → k ∉ dict_keys (d1 ++ d2).
Proof.
  unfold dict_keys. rewrite fmap_app.
  intros H1 H2 [?|?]%elem_of_app; done.
Qed.

(** The keys of a site start with its name: those of two sites differ. *)
Lemma site_entries_other sn c i res k :
  (∀ j k', ∃ rest, flat_key sn j k' = String c rest) →
  (∀ rest, k ≠ String c rest) →
  k ∉ dict_keys (site_entries sn i res).
Proof.
  intros Hsn Hk (j & k' & _ & ->)%site_entries_keys.
  destruct (Hsn j k') as [rest Hr]. by apply (Hk rest).
Qed.

Lemma flat_key_amazon j k : ∃ rest, flat_key "amazon" j k = String "a" rest.
Proof. by eexists. Qed.
Lemma flat_key_bestbuy j k : ∃ rest, flat_key "bestbuy" j k = String "b" rest.
Proof. by eexists. Qed.
Lemma flat_key_samsung j k : ∃ rest, flat_key "samsung" j k = String "s" rest.
Proof. by eexists. Qed.

Lemma time_stamp_fresh sn utcnow c j k :
  (∃ rest, flat_key sn j k = String c rest) → c ≠ "r"%char →
  flat_key sn j k ∉ dict_keys [("run_timestamp", VStr (utcnow +:+ "Z"))].
Proof.
  intros [rest ->] Hc [Hin | Hin%elem_of_nil]%elem_of_cons; [|done].
  by injection Hin.
Qed.

Lemma flatten_entries utcnow am_res bb_res sam_res :
  records am_res → records bb_res → records sam_res →
  flatten utcnow am_res bb_res sam_res
  = ("run_timestamp", VStr (utcnow +:+ "Z"))
    :: site_entries "amazon" 1 am_res
    ++ site_entries "bestbuy" 1 bb_res
    ++ site_entries "samsung" 1 sam_res.
Proof.
  intros Ham Hbb Hsam. unfold flatten. cbn [dict_set].
  rewrite (flatten_site_entries "amazon"); [|done|].
  2:{ intros j k _. by eapply time_stamp_fresh; [apply flat_key_amazon|]. }
  rewrite (flatten_site_entries "bestbuy"); [|done|].
  2:{ intros j k _. apply not_elem_of_keys_app.
      - by eapply time_stamp_fresh; [apply flat_key_bestbuy|].
      - apply (site_entries_other "amazon" "a"); [apply flat_key_amazon|].
        intros rest. by destruct (flat_key_bestbuy j k) as [r ->]. }
  rewrite (flatten_site_entries "samsung"); [|done|].
  2:{ intros j k _. apply not_elem_of_keys_app; [apply not_elem_of_keys_app|].
      - by eapply time_stamp_fresh; [apply flat_key_samsung|].
      - apply (site_entries_other "amazon" "a"); [apply flat_key_amazon|].
        intros rest. by destruct (flat_key_samsung j k) as [r ->].
      - apply (site_entries_other "bestbuy" "b"); [apply flat_key_bestbuy|].
        intros rest. by destruct (flat_key_samsung j k) as [r ->]. }
  by rewrite <-!app_assoc.
Qed.

Lemma length_site_entries sn i res :
  length (site_entries sn i res) = sum_list (length <$> res).
Proof.
  revert i. induction res as [|item res IH]; intros i; [done|].
  cbn [site_entries]. rewrite length_app, length_fmap, IH. done.
Qed.

(** X15: when no record holds a key twice, the flattened record is the
    time stamp followed by the fields of the Amazon records, then of the
    BestBuy records, then of the Samsung records, each list in its order
    and each record with its fields in their order under the keys
    [<site>_<index>_<field>]: no entry is lost or overwritten, and the
    number of keys is one more than the number of fields. *)
Theorem X15_flatten_layout utcnow am_res bb_res sam_res :
  records am_res → records bb_res → records sam_res →
  flatten utcnow am_res bb_res sam_res
  = ("run_timestamp", VStr (utcnow +:+ "Z"))
    :: site_entries "amazon" 1 am_res
    ++ site_entries "bestbuy" 1 bb_res
    ++ site_entries "samsung" 1 sam_res
  ∧ length (dict_keys (flatten utcnow am_res bb_res sam_res))
    = 1 + sum_list (length <$> am_res) + sum_list (length <$> bb_res)
      + sum_list (length <$> sam_res).
Proof.
  intros Ham Hbb Hsam.
  pose proof (flatten_entries utcnow _ _ _ Ham Hbb Hsam) as Heq.
  split; [exact Heq|]. rewrite Heq. unfold dict_keys.
  rewrite (fmap_cons fst), !fmap_app, length_cons, !length_app, !length_fmap.
  rewrite !length_site_entries. lia.
Qed.

Lemma sample_results_records :
  records sample_amazon_results ∧ records sample_bestbuy_results
  ∧ records sample_samsung_results.
Proof.
  repeat split; repeat constructor;
    apply (bool_decide_unpack _); by vm_compute.
Defined.

Lemma X15_flatten_layout_witness :
  dict_keys (flatten "2025-01-01T00:00:00" sample_amazon_results [] [])
  = ["run_timestamp";
     "amazon_1_url"; "amazon_1_file"; "amazon_1_price"; "amazon_1_model";
     "amazon_1_status";
     "amazon_2_url"; "amazon_2_file"; "amazon_2_price"; "amazon_2_model";
     "amazon_2_status"].
Proof.
  rewrite (proj1 (X15_flatten_layout "2025-01-01T00:00:00"
                    sample_amazon_results [] []
                    (proj1 sample_results_records)
                    (Forall_nil_2 _) (Forall_nil_2 _))).
  reflexivity.
Defined.

Lemma dict_lookup_renamed sn i (item : pydict) k :
  dict_lookup ((λ kv : string * value, (flat_key sn i kv.1, kv.2)) <$> item)
              (flat_key sn i k)
  = dict_lookup item k.
Proof.
  induction item as [|[k' v] item IH]; [done|].
  rewrite fmap_cons. cbn [dict_lookup fst snd].
  destruct (decide (k = k')) as [-> | Hne].
  - by rewrite decide_True.
  - rewrite decide_False; [done|]. by intros [_ ?]%flat_key_inj.
Qed.

Lemma dict_lookup_site_entries sn idx res j k :
  dict_lookup (site_entries sn idx res) (flat_key sn (idx + j) k)
  = res !! j ≫= λ item, dict_lookup item k.
Proof.
  revert idx j. induction res as [|item res IH]; intros idx j; [done|].
  cbn [site_entries]. rewrite dict_lookup_app. destruct j as [|j].
  - rewrite Nat.add_0_r, dict_lookup_renamed. simpl.
    destruct (dict_lookup item k) as [v|]; [done|].
    apply dict_lookup_None. intros (j' & k' & Hj & Heq)%site_entries_keys.
    apply flat_key_inj in Heq as [? _]. lia.
  - assert (dict_lookup
              ((λ kv : string * value, (flat_key sn idx kv.1, kv.2)) <$> item)
              (flat_key sn (idx + S j) k) = None) as ->.
    { apply dict_lookup_None. unfold dict_keys.
      rewrite <-list_fmap_compose.
      intros ([k' v] & Heq & _)%list_elem_of_fmap.
      apply flat_key_inj in Heq as [? _]. lia. }
    replace (idx + S j) with (S idx + j) by lia. apply IH.
Qed.

Lemma dict_lookup_other_site sn c i res k :
  (∀ j k', ∃ rest, flat_key sn j k' = String c rest) →
  (∀ rest, k ≠ String c rest) →
  dict_lookup (site_entries sn i res) k = None.
Proof. intros ??. by eapply dict_lookup_None, site_entries_other. Qed.

(** X16: in the flattened record the time stamp is the clock text followed
    by Z, and the key [<site>_<i>_<k>] holds what the [i]-th record of the
    site holds under [k]; it is missing when the site has no [i]-th record
    or that record has no key [k]. *)
Theorem X16_flatten_lookup utcnow am_res bb_res sam_res :
  records am_res → records bb_res → records sam_res →
  let flat := flatten utcnow am_res bb_res sam_res in
  dict_lookup flat "run_timestamp" = Some (VStr (utcnow +:+ "Z"))
  ∧ ∀ i k,
      dict_lookup flat (flat_key "amazon" (S i) k)
      = (am_res !! i ≫= λ item, dict_lookup item k)
      ∧ dict_lookup flat (flat_key "bestbuy" (S i) k)
        = (bb_res !! i ≫= λ item, dict_lookup item k)
      ∧ dict_lookup flat (flat_key "samsung" (S i) k)
        = (sam_res !! i ≫= λ item, dict_lookup item k).
Proof.
  intros Ham Hbb Hsam flat. subst flat.
  rewrite (flatten_entries utcnow _ _ _ Ham Hbb Hsam).
  split; [done|]. intros i k.
  assert (∀ c rest, c ≠ "r"%char →
          ∀ d : pydict,
            dict_lookup (("run_timestamp", VStr (utcnow +:+ "Z")) :: d)
                        (String c rest)
            = dict_lookup d (String c rest)) as Hts.
  { intros c rest Hc d. cbn [dict_lookup]. rewrite decide_False; [done|].
    intros [= ->]. done. }
  assert (∀ o : option value,
            match o with Some v => Some v | None => None end = o) as Hopt
    by (by intros []).
  split; [|split].
  - destruct (flat_key_amazon (S i) k) as [rest Hk].
    rewrite Hk, Hts by done. rewrite <-Hk, !dict_lookup_app.
    change (S i) with (1 + i).
    rewrite (dict_lookup_site_entries "amazon" 1 am_res i k).
    change (1 + i) with (S i).
    rewrite (dict_lookup_other_site "bestbuy" "b");
      [|apply flat_key_bestbuy | by rewrite Hk].
    rewrite (dict_lookup_other_site "samsung" "s");
      [|apply flat_key_samsung | by rewrite Hk].
    apply Hopt.
  - destruct (flat_key_bestbuy (S i) k) as [rest Hk].
    rewrite Hk, Hts by done. rewrite <-Hk, !dict_lookup_app.
    change (S i) with (1 + i).
    rewrite (dict_lookup_site_entries "bestbuy" 1 bb_res i k).
    change (1 + i) with (S i).
    rewrite (dict_lookup_other_site "amazon" "a");
      [|apply flat_key_amazon | by rewrite Hk].
    rewrite (dict_lookup_other_site "samsung" "s");
      [|apply flat_key_samsung | by rewrite Hk].
    apply Hopt.
  - destruct (flat_key_samsung (S i) k) as [rest Hk].
    rewrite Hk, Hts by done. rewrite <-Hk, !dict_lookup_app.
    change (S i) with (1 + i).
    rewrite (dict_lookup_site_entries "samsung" 1 sam_res i k).
    change (1 + i) with (S i).
    rewrite (dict_lookup_other_site "amazon" "a");
      [|apply flat_key_amazon | by rewrite Hk].
    rewrite (dict_lookup_other_site "bestbuy" "b");
      [|apply flat_key_bestbuy | by rewrite Hk].
    done.
Qed.

Lemma X16_flatten_lookup_witness :
  dict_lookup
    (flatten "2025-01-01T00:00:00" sample_amazon_results
       sample_bestbuy_results sample_samsung_results)
    (flat_key "samsung" 1 "sku")
  = Some (VStr "sm-f966udbexaa").
Proof.
  destruct sample_results_records as (Ham & Hbb & Hsam).
  exact (proj2 (proj2 (proj2
    (X16_flatten_lookup "2025-01-01T00:00:00" _ _ _ Ham Hbb Hsam) 0 "sku"))).
Defined.

(** ** The table of a first run *)

Section first_run.
Implicit Types fs : gmap string file.

Lemma row_value_jsonable data k :
  row_value data (VStr k) = _to_jsonable (dict_get data k).
Proof. simpl. by destruct (dict_get data k). Qed.

Lemma nth_value_fmap_keys {A} (f : string → A) (g : A → value)
    (ks : list string) i k :
  ks !! i = Some k → nth_value (g <$> (f <$> ks)) i = g (f k).
Proof.
  intros Hk. unfold nth_value. by rewrite !list_lookup_fmap, Hk.
Qed.

Section with_record.
Variable data : pydict.
Let hdr := VStr <$> dict_keys data.
Let row := (λ h, _to_jsonable (dict_get data h)) <$> dict_keys data.
Let cells := Xl.put_row 2 1 row (Xl.put_row 1 1 hdr ∅).
Let ws' := Xl.read_sheet cells.

Lemma first_cells_value r c :
  1 ≤ r → 1 ≤ c →
  Xl.cells_value cells r c
  = if decide (r = 1) then nth_value hdr (c - 1)
    else if decide (r = 2) then nth_value row (c - 1)
    else VNone.
Proof.
  intros Hr Hc. subst cells.
  rewrite !cells_value_put_row. unfold Xl.cells_value at 1.
  rewrite lookup_empty. cbn [default].
  destruct (decide (r = 1)) as [-> | Hr1].
  - rewrite decide_False by lia.
    case_decide as Hd; [done|].
    rewrite nth_value_ge; [done|]. lia.
  - rewrite (decide_False (P := r = 1 ∧ _)) by lia.
    destruct (decide (r = 2)) as [-> | Hr2].
    + case_decide as Hd; [done|].
      rewrite nth_value_ge; [done|]. lia.
    + rewrite decide_False by lia. done.
Qed.

Lemma first_table_max_column :
  dict_keys data ≠ [] → "" ∉ dict_keys data →
  Xl.max_column ws' = length (dict_keys data).
Proof.
  intros Hne Hks. subst ws'. unfold Xl.max_column. simpl.
  assert (1 ≤ length (dict_keys data)) as Hlen
    by (destruct (dict_keys data); [done | simpl; lia]).
  apply max_column_valued_eq; [done| |].
  - intros r c Hr Hc. rewrite first_cells_value by done.
    subst hdr row. repeat case_decide; [| |done];
      intros Hv%nth_value_not_None; rewrite length_fmap in Hv; lia.
  - right. exists 1. split; [done|].
    rewrite first_cells_value by done. rewrite decide_True by done.
    subst hdr. rewrite nth_value_keys_blank by done.
    destruct (lookup_lt_is_Some_2 (dict_keys data)
                (length (dict_keys data) - 1)) as [k Hk]; [lia|].
    unfold nth_value. by rewrite list_lookup_fmap, Hk.
Qed.

Lemma first_table_max_row : has_value data → Xl.max_row ws' = 2.
Proof.
  intros (k & Hk & Hv). subst ws'. unfold Xl.max_row. simpl.
  apply max_row_valued_eq; [lia| |].
  - intros r c Hr Hc. rewrite first_cells_value by done.
    repeat case_decide; [lia|lia|done].
  - right. apply list_elem_of_lookup in Hk as [i Hi].
    exists (S i). split; [lia|]. rewrite first_cells_value by lia.
    rewrite decide_False, decide_True by lia.
    replace (S i - 1) with i by lia. subst row.
    unfold nth_value. rewrite list_lookup_fmap, Hi. simpl.
    by rewrite <-row_value_jsonable.
Qed.

Lemma first_table_header :
  dict_keys data ≠ [] → "" ∉ dict_keys data → header ws' = hdr.
Proof.
  intros Hne Hks. apply nth_value_ext.
  - rewrite header_length, first_table_max_column by done.
    subst hdr. by rewrite length_fmap.
  - intros i Hi. rewrite header_length in Hi.
    replace i with (S i - 1) at 1 by lia.
    rewrite header_nth by lia.
    subst ws'. rewrite read_sheet_value_at by lia.
    rewrite first_cells_value by lia. rewrite decide_True by done.
    replace (S i - 1) with i by lia. subst hdr.
    by apply nth_value_keys_blank.
Qed.

Lemma first_table_row c :
  1 ≤ c →
  Xl.value_at 2 c ws' = Xl.blank (nth_value (row_value data <$> hdr) (c - 1)).
Proof.
  intros Hc. subst ws'. rewrite read_sheet_value_at by lia.
  rewrite first_cells_value by lia.
  rewrite decide_False, decide_True by lia. f_equal.
  subst hdr row. unfold nth_value. rewrite !list_lookup_fmap.
  destruct (dict_keys data !! (c - 1)) as [k|]; [|done]. simpl.
  by destruct (dict_get data k).
Qed.

End with_record.

Lemma valid_record_keys data :
  valid_record data → dict_keys data ≠ [] ∧ "" ∉ dict_keys data.
Proof.
  intros [Hks (k & Hk & _)]. split; [|done]. intros Hnil.
  rewrite Hnil in Hk. by apply elem_of_nil in Hk.
Qed.

(** X17: on a path without a file, [save_dict_to_excel_row] with a record
    (its keys not empty, one of its values neither [None] nor the empty
    text) creates a workbook with the one sheet "Sheet"; read back, its
    header is the keys of the record in their order and its one data row
    holds the values of the record under their keys (an empty text read
    back as [None]); no other file changes. *)
Theorem X17_first_run_table data path fs :
  fs !! path = None →
  valid_record data →
  ∃ fs' x' ws',
    save_dict_to_excel_row data path fs = Returned fs'
    ∧ fs' !! path = Some (FXlsx x')
    ∧ titles x' = ["Sheet"] ∧ table_ok x'
    ∧ table_of path fs' = Some ws'
    ∧ header ws' = VStr <$> dict_keys data
    ∧ data_rows ws' = 1
    ∧ (∀ c, 1 ≤ c →
         Xl.value_at 2 c ws'
         = Xl.blank (nth_value (row_value data <$> header ws') (c - 1)))
    ∧ ∀ p, p ≠ path → fs' !! p = fs !! p.
Proof.
  intros Hfs Hval.
  destruct (valid_record_keys data Hval) as [Hne Hks].
  destruct Hval as [_ Hval].
  eexists _, _, _. split; [by apply save_new|].
  split; [apply lookup_insert_eq|].
  split; [reflexivity|]. split.
  { split; [simpl; lia|]. unfold titles. simpl.
    intros Hin. apply elem_of_cons in Hin. destruct Hin as [Hin | Hin];
      [discriminate | by apply elem_of_nil in Hin]. }
  split.
  { unfold table_of. rewrite lookup_insert_eq. unfold Xl.active. simpl.
    by rewrite read_sheet_valued. }
  split; [by apply first_table_header|].
  split; [unfold data_rows; by rewrite first_table_max_row|].
  split.
  - intros c Hc. rewrite first_table_header by done.
    by apply first_table_row.
  - intros p Hp. by rewrite lookup_insert_ne.
Qed.

Lemma X17_first_run_table_witness :
  ∃ fs' ws',
    save_dict_to_excel_row sample_record "outputs/results.xlsx" ∅
    = Returned fs'
    ∧ table_of "outputs/results.xlsx" fs' = Some ws'
    ∧ header ws'
      = [VStr "run_timestamp"; VStr "amazon_1_url"; VStr "amazon_1_price"]
    ∧ data_rows ws' = 1.
Proof.
  destruct (X17_first_run_table sample_record "outputs/results.xlsx" ∅
              (lookup_empty _) sample_record_valid)
    as (fs' & x' & ws' & Hrun & _ & _ & _ & Htab & Hhdr & Hrows & _).
  by exists fs', ws'.
Defined.

End first_run.

(** ** A record without a value *)

Section null_record.
Implicit Types fs : gmap string file.
Implicit Types cs : gmap (nat * nat) value.





Section with_sheet.
Variables (data : pydict) (cs : gmap (nat * nat) value).
Let ws := Xl.read_sheet cs.
Let ws' := Xl.read_sheet (Xl.ws_cells (append_row_to_sheet data ws)).



End with_sheet.


End null_record.


(** ** Run after run *)

Section runs.
Implicit Types fs : gmap string file.



End runs.


(** ** The other sheets of a workbook *)

Section other_sheets.
Implicit Types fs : gmap string file.
Implicit Types l : list (string * Xl.worksheet).

Lemma update_sheet_stored t0 s' l w0 :
  first_titled t0 l = Some w0 →
  Xl.valued (Xl.ws_cells s') = Xl.valued (Xl.ws_cells w0) →
  stored_sheet <$> update_sheet t0 s' l = stored_sheet <$> l.
Proof.
  intros Hfirst Hval. induction l as [|[t w] l IH]; [done|].
  cbn [update_sheet first_titled] in *.
  destruct (decide (t = t0)) as [-> | Hne].
  - injection Hfirst as ->. rewrite !fmap_cons. unfold stored_sheet at 1 3.
    cbn [fst snd]. by rewrite Hval.
  - rewrite !fmap_cons. by rewrite IH.
Qed.

Lemma first_titled_Some_elem t l w :
  first_titled t l = Some w → t ∈ l.*1.
Proof.
  induction l as [|[t' w'] l IH]; [done|]. cbn [first_titled].
  rewrite (fmap_cons fst). cbn [fst].
  destruct (decide (t' = t)) as [-> | Hne]; [by left|].
  intros Hf. right. by apply IH.
Qed.

(** What the projection step writes: the sheets as they were read, without
    the first one titled "converted", then the new view. *)
Lemma project_into_stored_sheets refs t0 w0 (wb : Xl.workbook) :
  first_titled t0 (Xl.wb_sheets wb) = Some w0 →
  Xl.x_sheets (Xl.to_xlsx (project_into refs t0 w0 wb))
  = (stored_sheet <$> Xl.remove_sheet "converted" (Xl.wb_sheets wb))
    ++ [(Xl.avoid_duplicate_name
           (Xl.remove_sheet "converted" (Xl.wb_sheets wb)).*1 "converted",
         Xl.valued (Xl.ws_cells
           (project_columns refs (Xl.max_row w0) 1 w0 Xl.new_worksheet).2))].
Proof.
  intros Hfirst. unfold Xl.to_xlsx. cbn [Xl.x_sheets].
  rewrite project_into_sheets. cbv zeta. rewrite fmap_app.
  rewrite list_fmap_singleton. f_equal.
  case_decide as Hd; [done|].
  apply (update_sheet_stored _ _ _ w0); [|apply project_source_valued].
  destruct (decide (t0 = "converted")) as [-> | Hne].
  - exfalso. apply Hd. split; [done|]. by eapply first_titled_Some_elem.
  - by rewrite first_titled_remove.
Qed.

Lemma elem_of_remove_sheet t l (p : string * Xl.worksheet) :
  p ∈ l → p.1 ≠ t → p ∈ Xl.remove_sheet t l.
Proof.
  induction l as [|[t' w] l IH]; [by intros ?%elem_of_nil|].
  cbn [Xl.remove_sheet].
  intros [-> | Hin]%elem_of_cons Hne.
  - cbn [fst] in Hne. rewrite decide_False by done. by left.
  - destruct (decide (t' = t)); [done|]. right. by apply IH.
Qed.

Lemma stored_read_sheet t cs :
  stored_sheet (t, Xl.read_sheet cs) = (t, Xl.valued cs).
Proof. unfold stored_sheet. simpl. by rewrite valued_valued. Qed.

(** X20: [copy_columns_by_references] writes back every sheet that is not
    titled "converted" with the values it read, and returns "converted". *)
Theorem X20_projector_keeps_other_sheets path refs name base fs x src :
  fs !! path = Some (FXlsx x) →
  select_source name (Xl.of_xlsx x) = Returned src →
  ∃ fs' x',
    copy_columns_by_references path refs name base fs
    = Returned ("converted", fs')
    ∧ fs' !! path = Some (FXlsx x')
    ∧ (∀ p, p ≠ path → fs' !! p = fs !! p)
    ∧ ∀ t cs, (t, cs) ∈ Xl.x_sheets x → t ≠ "converted" →
              (t, Xl.valued cs) ∈ Xl.x_sheets x'.
Proof.
  intros Hfs Hsrc. destruct src as [t0 w0].
  destruct (select_source_first _ _ _ _ Hsrc) as [Hfirst _].
  eexists _, _. split; [by eapply copy_columns_result|].
  split; [apply lookup_insert_eq|]. split.
  - intros p Hp. by rewrite lookup_insert_ne.
  - intros t cs Hin Ht. cbn [fst snd].
    rewrite (project_into_stored_sheets refs t0 w0 _ Hfirst).
    apply elem_of_app. left. rewrite <-stored_read_sheet.
    apply list_elem_of_fmap_2, elem_of_remove_sheet; [|done].
    unfold Xl.of_xlsx. cbn [Xl.wb_sheets].
    by apply (list_elem_of_fmap_2
                (λ p : string * gmap (nat * nat) value,
                   (p.1, Xl.read_sheet p.2)) _ (t, cs)).
Qed.

(** X21: on a file that exists, [save_dict_to_excel_row] writes back every
    sheet that is neither the active sheet nor titled "converted" with the
    values it read. *)
Theorem X21_store_keeps_other_sheets data path fs x ta csa :
  fs !! path = Some (FXlsx x) →
  Xl.x_sheets x !! Xl.x_active x = Some (ta, csa) →
  ∃ fs' x',
    save_dict_to_excel_row data path fs = Returned fs'
    ∧ fs' !! path = Some (FXlsx x')
    ∧ (∀ p, p ≠ path → fs' !! p = fs !! p)
    ∧ ∀ i t cs, Xl.x_sheets x !! i = Some (t, cs) →
                i ≠ Xl.x_active x → t ≠ "converted" →
                (t, Xl.valued cs) ∈ Xl.x_sheets x'.
Proof.
  intros Hfs Hx.
  destruct (save_existing data path fs x ta csa Hfs Hx)
    as ([t0 w0] & Hsrc & Hsave).
  destruct (appended_workbook_sheets data x ta csa Hx)
    as (_ & _ & _ & Hrest).
  assert (first_titled t0 (Xl.wb_sheets (appended_workbook data x))
          = Some w0) as Hfirst.
  { destruct (Xl.wb_sheets (appended_workbook data x)) as [|[t w] l];
      [done|]. injection Hsrc as -> ->. simpl. by rewrite decide_True. }
  eexists _, _. split; [exact Hsave|].
  split; [apply lookup_insert_eq|]. split.
  - intros p Hp. by rewrite lookup_insert_ne.
  - intros i t cs Hi Hne Ht. cbn [fst snd].
    rewrite (project_into_stored_sheets column_refs t0 w0 _ Hfirst).
    apply elem_of_app. left. rewrite <-stored_read_sheet.
    apply list_elem_of_fmap_2, elem_of_remove_sheet; [|done].
    apply list_elem_of_lookup. exists i. rewrite (Hrest i Hne).
    unfold Xl.of_xlsx. cbn [Xl.wb_sheets].
    by rewrite list_lookup_fmap, Hi.
Qed.

End other_sheets.

Lemma X20_projector_keeps_other_sheets_witness :
  ∃ fs' x',
    copy_columns_by_references "book.xlsx" column_refs None "CopiedColumns"
      sample_book_fs
    = Returned ("converted", fs')
    ∧ fs' !! "book.xlsx" = Some (FXlsx x')
    ∧ ("notes", Xl.valued sample_notes) ∈ Xl.x_sheets x'.
Proof.
  destruct (X20_projector_keeps_other_sheets "book.xlsx" column_refs None
              "CopiedColumns" sample_book_fs
              sample_book _ eq_refl eq_refl)
    as (fs' & x' & Hrun & Hfs' & _ & Hkeep).
  exists fs', x'. split; [exact Hrun|]. split; [exact Hfs'|].
  apply Hkeep; [|discriminate].
  apply elem_of_cons. right. apply elem_of_cons. by left.
Defined.

Lemma X21_store_keeps_other_sheets_witness :
  ∃ fs' x',
    save_dict_to_excel_row sample_record "book.xlsx"
      sample_book_fs
    = Returned fs'
    ∧ fs' !! "book.xlsx" = Some (FXlsx x')
    ∧ ("notes", Xl.valued sample_notes) ∈ Xl.x_sheets x'.
Proof.
  destruct (X21_store_keeps_other_sheets sample_record "book.xlsx"
              sample_book_fs sample_book _ _
              eq_refl eq_refl)
    as (fs' & x' & Hrun & Hfs' & _ & Hkeep).
  exists fs', x'. split; [exact Hrun|]. split; [exact Hfs'|].
  apply (Hkeep 1); [reflexivity | discriminate | discriminate].
Defined.

(** ** Errors and edges of the column projector *)

Section projector_edges.
Implicit Types fs : gmap string file.

Lemma first_titled_None t (l : list (string * Xl.worksheet)) :
  t ∉ l.*1 → first_titled t l = None.
Proof.
  induction l as [|[t' w] l IH]; [done|]. rewrite (fmap_cons fst).
  cbn [fst first_titled]. intros [Hne Hl]%not_elem_of_cons.
  rewrite decide_False by done. by apply IH.
Qed.

(** X22: [copy_columns_by_references] raises [FileNotFoundError] with the
    message "File not found: " and the path when the file is missing, and
    [ValueError] with the message "Sheet '...' not found in workbook." when
    a source sheet is named that the workbook does not have; in both cases
    nothing is written. An empty source sheet name is no name: the first
    sheet is the source. *)
Theorem X22_projector_errors path refs name base fs :
  (fs !! path = None →
   copy_columns_by_references path refs name base fs
   = Raised (Exn "FileNotFoundError" ("File not found: " +:+ path)))
  ∧ (∀ x n, fs !! path = Some (FXlsx x) → name = Some n → n ≠ "" →
            n ∉ titles x →
            copy_columns_by_references path refs name base fs
            = Raised (Exn "ValueError"
                          ("Sheet '" +:+ n +:+ "' not found in workbook.")))
  ∧ copy_columns_by_references path refs (Some "") base fs
    = copy_columns_by_references path refs None base fs.
Proof.
  split; [|split].
  - intros Hfs%path_exists_false. unfold copy_columns_by_references.
    by rewrite Hfs.
  - intros x n Hfs -> Hn Hnot. unfold copy_columns_by_references.
    rewrite (path_exists_true _ _ _ Hfs). cbn [negb].
    unfold load_workbook. rewrite Hfs. cbn [mbind outcome_bind].
    unfold select_source. rewrite decide_False by done.
    unfold sheet_named. rewrite first_titled_None; [done|].
    by rewrite <-of_xlsx_titles in Hnot.
  - reflexivity.
Qed.

Lemma X22_projector_errors_witness :
  copy_columns_by_references "absent.xlsx" column_refs None "CopiedColumns" ∅
  = Raised (Exn "FileNotFoundError" "File not found: absent.xlsx")
  ∧ copy_columns_by_references "book.xlsx" column_refs (Some "Sheet1")
      "CopiedColumns" sample_book_fs
    = Raised (Exn "ValueError" "Sheet 'Sheet1' not found in workbook.").
Proof.
  split.
  - exact (proj1 (X22_projector_errors "absent.xlsx" column_refs None
                    "CopiedColumns" ∅) (lookup_empty _)).
  - apply (proj1 (proj2 (X22_projector_errors "book.xlsx" column_refs
                           (Some "Sheet1") "CopiedColumns"
                           sample_book_fs))
             sample_book "Sheet1"); [reflexivity | reflexivity | discriminate |].
    intros Hin. vm_compute in Hin.
    repeat (apply elem_of_cons in Hin as [Hin | Hin]; [discriminate|]).
    by apply elem_of_nil in Hin.
Defined.

Lemma avoid_duplicate_name_clash names value :
  (∃ n, n ∈ names ∧ PyStr.lower n = PyStr.lower value) →
  ∃ k, Xl.avoid_duplicate_name names value = value +:+ PyStr.of_nat k
       ∧ Xl.avoid_duplicate_name names value ≠ value.
Proof.
  intros (n & Hn & Hlow). unfold Xl.avoid_duplicate_name.
  assert (existsb (λ n, String.eqb (PyStr.lower n) (PyStr.lower value)) names
          = true) as ->.
  { apply existsb_exists. exists n. split; [by apply list_elem_of_In|].
    by apply String.eqb_eq. }
  eexists. split; [reflexivity|].
  intros Heq. eapply of_nat_not_empty, (string_app_inv_head value).
  rewrite string_app_nil_r. exact Heq.
Qed.

(** X23: when the workbook has no sheet titled "converted" but one whose
    title differs from it only by the case of its letters,
    [copy_columns_by_references] returns "converted" although the sheet it
    created got another title ("converted" followed by a number); the
    workbook has one sheet more, none of them titled "converted", so every
    further run adds a sheet again. *)
Theorem X23_projector_case_clash path refs name base fs x src t :
  fs !! path = Some (FXlsx x) →
  select_source name (Xl.of_xlsx x) = Returned src →
  ("converted" ∉ titles x) →
  t ∈ titles x → PyStr.lower t = "converted" →
  ∃ fs' x' k,
    copy_columns_by_references path refs name base fs
    = Returned ("converted", fs')
    ∧ fs' !! path = Some (FXlsx x')
    ∧ titles x' = titles x ++ ["converted" +:+ PyStr.of_nat k]
    ∧ ("converted" ∉ titles x')
    ∧ t ∈ titles x'
    ∧ length (Xl.x_sheets x') = S (length (Xl.x_sheets x)).
Proof.
  intros Hfs Hsrc Hnot Ht Hlow.
  pose proof (copy_columns_result path refs name base fs x src Hfs Hsrc)
    as Hrun.
  set (x' := Xl.to_xlsx (project_into refs src.1 src.2 (Xl.of_xlsx x))) in *.
  assert (titles x'
          = titles x
            ++ [Xl.avoid_duplicate_name (titles x) "converted"]) as Htitles.
  { unfold x'. rewrite to_xlsx_titles, project_into_titles.
    assert ("converted" ∉ (Xl.wb_sheets (Xl.of_xlsx x)).*1) as Habs.
    { change ("converted" ∉ Xl.sheetnames (Xl.of_xlsx x)).
      by rewrite of_xlsx_titles. }
    rewrite (remove_sheet_absent _ _ Habs).
    change ((Xl.wb_sheets (Xl.of_xlsx x)).*1)
      with (Xl.sheetnames (Xl.of_xlsx x)).
    by rewrite of_xlsx_titles. }
  destruct (avoid_duplicate_name_clash (titles x) "converted")
    as (k & Hk & Hne); [by exists t|].
  exists (<[path := FXlsx x']> fs), x', k.
  split; [exact Hrun|]. split; [apply lookup_insert_eq|].
  split; [by rewrite Htitles, Hk|]. split; [|split].
  - rewrite Htitles. intros [Hin | Hin%list_elem_of_singleton]%elem_of_app;
      [done | by symmetry in Hin].
  - rewrite Htitles. apply elem_of_app. by left.
  - rewrite <-!(length_fmap fst). fold (titles x') (titles x).
    rewrite Htitles, length_app. simpl. lia.
Qed.

End projector_edges.

Lemma X23_projector_case_clash_witness :
  ∃ fs' x' k,
    copy_columns_by_references "book.xlsx" column_refs None "CopiedColumns"
      sample_clash_fs
    = Returned ("converted", fs')
    ∧ fs' !! "book.xlsx" = Some (FXlsx x')
    ∧ titles x' = ["Sheet"; "Converted"; "converted" +:+ PyStr.of_nat k].
Proof.
  destruct (X23_projector_case_clash "book.xlsx" column_refs None
              "CopiedColumns" sample_clash_fs
              sample_clash_book _ "Converted" eq_refl eq_refl)
    as (fs' & x' & k & Hrun & Hfs' & Htitles & _).
  - intros Hin. vm_compute in Hin.
    repeat (apply elem_of_cons in Hin as [Hin | Hin]; [discriminate|]).
    by apply elem_of_nil in Hin.
  - apply elem_of_cons. right. apply elem_of_cons. by left.
  - reflexivity.
  - exists fs', x', k. split; [exact Hrun|]. split; [exact Hfs'|].
    exact Htitles.
Defined.

(** ** A run of the script *)

Lemma results_path : path_join "outputs" "results.xlsx" = "outputs/results.xlsx".
Proof. reflexivity. Qed.

Lemma results_path_no_output s idx url :
  "outputs/results.xlsx" ≠ output_file s "outputs" idx url.
Proof. destruct s; intros Heq; vm_compute in Heq; discriminate. Qed.

Section script_run.
Context `{Soup} `{Browser} `{Clock}.
Implicit Types fs : gmap string file.

(** The three pipelines of [main] return; they leave the results workbook
    as it is; the record [main] flattens their results to is saved. *)
Lemma main_unfold fs :
  ∃ am_res bb_res sam_res fs3,
    main fs
    = save_dict_to_excel_row
        (flatten utcnow_isoformat am_res bb_res sam_res)
        "outputs/results.xlsx" fs3
    ∧ fs3 !! "outputs/results.xlsx" = fs !! "outputs/results.xlsx"
    ∧ records am_res ∧ records bb_res ∧ records sam_res
    ∧ Forall (λ rec, length rec = 5) (am_res ++ bb_res ++ sam_res)
    ∧ length am_res = 4
    ∧ 4 ≤ length bb_res ≤ 8 ∧ 4 ≤ length sam_res ≤ 8
    ∧ (closes BestBuy → length bb_res = 4)
    ∧ (closes Samsung → length sam_res = 4).
Proof.
  unfold main. rewrite results_path.
  set (am := run_pipeline Amazon amazon_urls "outputs" "amazon_cookies.json" fs).
  destruct (pipeline_run Amazon amazon_urls "outputs" "amazon_cookies.json" fs)
    as (tra & Ham & _). cbv zeta in Ham. fold am in Ham.
  set (bb := run_pipeline BestBuy bestbuy_urls "outputs"
               "bestbuy_cookies.json" (p_fs am.2)).
  destruct (pipeline_run BestBuy bestbuy_urls "outputs"
              "bestbuy_cookies.json" (p_fs am.2)) as (trb & Hbb & _).
  cbv zeta in Hbb. fold bb in Hbb.
  set (sam := run_pipeline Samsung samsung_urls "outputs"
                "samsung_cookies.json" (p_fs bb.2)).
  destruct (pipeline_run Samsung samsung_urls "outputs"
              "samsung_cookies.json" (p_fs bb.2)) as (trs & Hsam & _).
  cbv zeta in Hsam. fold sam in Hsam.
  destruct (pipeline_records _ _ _ _ _ _ Ham) as (Hra & H5a & _ & Hla).
  destruct (pipeline_records _ _ _ _ _ _ Hbb) as (Hrb & H5b & Hbb4 & Hlb).
  destruct (pipeline_records _ _ _ _ _ _ Hsam) as (Hrs & H5s & Hsam4 & Hls).
  eexists _, _, _, (p_fs sam.2).
  split; [rewrite Ham, Hbb, Hsam; reflexivity|].
  split.
  { subst sam bb am.
    rewrite pipeline_other_files;
      [|intros; apply results_path_no_output | by left].
    rewrite pipeline_other_files;
      [|intros; apply results_path_no_output | by right].
    rewrite pipeline_other_files;
      [|intros; apply results_path_no_output | by right].
    done. }
  split; [done|]. split; [done|]. split; [done|].
  split; [by rewrite !Forall_app|].
  split; [by apply Hla; left|].
  split; [exact Hbb4|]. split; [exact Hsam4|].
  split; intros Hc; [apply Hlb | apply Hls]; by right.
Qed.

Lemma flatten_time_stamp utcnow am_res bb_res sam_res :
  records am_res → records bb_res → records sam_res →
  dict_keys (flatten utcnow am_res bb_res sam_res) !! 0
  = Some "run_timestamp".
Proof. intros Ha Hb Hs. by rewrite (flatten_entries _ _ _ _ Ha Hb Hs). Qed.

Lemma sum_list_const (n : nat) (l : list pydict) :
  Forall (λ rec, length rec = n) l → sum_list (length <$> l) = n * length l.
Proof.
  induction 1 as [|rec l Hrec _ IH]; [simpl; lia|].
  change (length rec + sum_list (length <$> l) = n * S (length l)).
  rewrite Hrec, IH. lia.
Qed.

Lemma flatten_columns utcnow am_res bb_res sam_res :
  records am_res → records bb_res → records sam_res →
  Forall (λ rec, length rec = 5) (am_res ++ bb_res ++ sam_res) →
  length (dict_keys (flatten utcnow am_res bb_res sam_res))
  = 1 + 5 * (length am_res + length bb_res + length sam_res).
Proof.
  intros Ha Hb Hs [H5a [H5b H5s]%Forall_app]%Forall_app.
  rewrite (flatten_entries _ _ _ _ Ha Hb Hs). unfold dict_keys.
  rewrite (fmap_cons fst), !fmap_app, length_cons, !length_app, !length_fmap.
  rewrite !length_site_entries.
  rewrite !(sum_list_const 5) by done. lia.
Qed.


Lemma flatten_get_time_stamp utcnow am_res bb_res sam_res :
  dict_lookup (flatten utcnow am_res bb_res sam_res) "run_timestamp"
  = Some (VStr (utcnow +:+ "Z")).
Proof.
  unfold flatten.
  set (flat0 := dict_set [] "run_timestamp" (VStr (utcnow +:+ "Z"))).
  destruct (flatten_site_keeps "amazon" 1 am_res flat0 "run_timestamp")
    as [Ha _]; [intros j f; discriminate|].
  destruct (flatten_site_keeps "bestbuy" 1 bb_res
              (flatten_site "amazon" 1 am_res flat0) "run_timestamp")
    as [Hb _]; [intros j f; discriminate|].
  destruct (flatten_site_keeps "samsung" 1 sam_res
              (flatten_site "bestbuy" 1 bb_res
                 (flatten_site "amazon" 1 am_res flat0)) "run_timestamp")
    as [Hs _]; [intros j f; discriminate|].
  by rewrite Hs, Hb, Ha.
Qed.


(** X25: on a file system without [outputs/results.xlsx], [main] returns
    whatever happens on the pages and creates the workbook: its header is
    the keys of the flattened record, the time stamp first, and its one
    data row starts with the time stamp of the run. The header has 61
    columns when [page.close()] never fails (one for the time stamp, five
    for each of the twelve URLs), and at most 101. *)
Theorem X25_main_first_run fs :
  fs !! "outputs/results.xlsx" = None →
  ∃ fs' ws' flat,
    main fs = Returned fs'
    ∧ table_of "outputs/results.xlsx" fs' = Some ws'
    ∧ header ws' = VStr <$> dict_keys flat
    ∧ nth_value (header ws') 0 = VStr "run_timestamp"
    ∧ data_rows ws' = 1
    ∧ Xl.value_at 2 1 ws' = VStr (utcnow_isoformat +:+ "Z")
    ∧ 61 ≤ length (header ws') ≤ 101
    ∧ (closes BestBuy → closes Samsung → length (header ws') = 61).
Proof.
  intros Hfs.
  destruct (main_unfold fs)
    as (am_res & bb_res & sam_res & fs3 & Hmain & Hfs3 & Hra & Hrb & Hrs
        & H5 & Hla & Hlb & Hls & Hcb & Hcs).
  set (flat := flatten utcnow_isoformat am_res bb_res sam_res) in *.
  rewrite Hfs in Hfs3.
  destruct (flatten_valid utcnow_isoformat am_res bb_res sam_res)
    as [Hks Hval]. fold flat in Hks, Hval.
  assert (dict_keys flat ≠ []) as Hne.
  { intros Hnil. destruct Hval as (k & Hk & _). rewrite Hnil in Hk.
    by apply elem_of_nil in Hk. }
  pose proof (first_table_header flat Hne Hks) as Hhdr. cbv zeta in Hhdr.
  pose proof (first_table_max_row flat Hval) as Hmax. cbv zeta in Hmax.
  pose proof (flatten_columns utcnow_isoformat _ _ _ Hra Hrb Hrs H5) as Hlen.
  fold flat in Hlen.
  pose proof (flatten_time_stamp utcnow_isoformat _ _ _ Hra Hrb Hrs) as Hts.
  fold flat in Hts.
  eexists _, _, flat. split; [rewrite Hmain; by apply save_new|].
  split.
  { unfold table_of. rewrite lookup_insert_eq. unfold Xl.active. simpl.
    by rewrite read_sheet_valued. }
  split; [exact Hhdr|]. split; [|split; [|split; [|split]]].
  - rewrite Hhdr. unfold nth_value. by rewrite list_lookup_fmap, Hts.
  - unfold data_rows. by rewrite Hmax.
  - rewrite (first_table_row flat 1) by done. change (1 - 1) with 0.
    unfold nth_value. rewrite !list_lookup_fmap, Hts. simpl.
    unfold dict_get. subst flat. rewrite flatten_get_time_stamp. simpl.
    case_decide as He; [|done]. by destruct utcnow_isoformat.
  - rewrite Hhdr, length_fmap, Hlen. lia.
  - intros Hb Hs. rewrite Hhdr, length_fmap, Hlen.
    rewrite Hla, (Hcb Hb), (Hcs Hs). done.
Qed.

End script_run.


Lemma X25_main_first_run_witness :
  ∃ fs' ws',
    @main blank_soup steady_browser sample_clock ∅ = Returned fs'
    ∧ table_of "outputs/results.xlsx" fs' = Some ws'
    ∧ length (header ws') = 61.
Proof.
  destruct (@X25_main_first_run blank_soup steady_browser sample_clock ∅
              (lookup_empty _))
    as (fs' & ws' & flat & Hrun & Htab & _ & _ & _ & _ & _ & Hlen).
  exists fs', ws'. split; [exact Hrun|]. split; [exact Htab|].
  exact (Hlen (steady_browser_closes BestBuy) (steady_browser_closes Samsung)).
Defined.

(** ** The columns of the view *)

Lemma site_entries_keys_list sn i res :
  dict_keys (site_entries sn i res)
  = match res with
    | [] => []
    | item :: rest =>
        (flat_key sn i <$> dict_keys item)
        ++ dict_keys (site_entries sn (S i) rest)
    end.
Proof.
  destruct res as [|item rest]; [done|].
  unfold dict_keys. cbn [site_entries]. rewrite fmap_app.
  by rewrite <-!list_fmap_compose.
Qed.

Lemma four_records_keys sn id res :
  four_records id res →
  dict_keys (site_entries sn 1 res)
  = (i ← [1; 2; 3; 4];
     flat_key sn i <$> ["url"; "file"; "price"; id; "status"]).
Proof.
  intros [Hlen Hkeys].
  destruct res as [|r1 [|r2 [|r3 [|r4 [|]]]]]; try done.
  apply Forall_cons in Hkeys as [H1 Hkeys].
  apply Forall_cons in Hkeys as [H2 Hkeys].
  apply Forall_cons in Hkeys as [H3 Hkeys].
  apply Forall_cons in Hkeys as [H4 _].
  rewrite !site_entries_keys_list, H1, H2, H3, H4. reflexivity.
Qed.

Lemma four_records_records id res :
  id = "model" ∨ id = "sku" → four_records id res → records res.
Proof.
  intros Hid [_ Hkeys]. eapply Forall_impl; [exact Hkeys|].
  intros rec ->.
  destruct Hid as [-> | ->]; apply (bool_decide_unpack _); vm_compute;
    exact I.
Qed.

Lemma four_records_header utcnow am bb sam :
  four_records "model" am → four_records "model" bb →
  four_records "sku" sam →
  dict_keys (flatten utcnow am bb sam)
  = "run_timestamp"
    :: ((i ← [1; 2; 3; 4];
         flat_key "amazon" i <$> ["url"; "file"; "price"; "model"; "status"])
        ++ (i ← [1; 2; 3; 4];
            flat_key "bestbuy" i
              <$> ["url"; "file"; "price"; "model"; "status"])
        ++ (i ← [1; 2; 3; 4];
            flat_key "samsung" i
              <$> ["url"; "file"; "price"; "sku"; "status"])).
Proof.
  intros Ham Hbb Hsam.
  rewrite flatten_entries;
    [|by apply (four_records_records "model"); [left|]
     |by apply (four_records_records "model"); [left|]
     |by apply (four_records_records "sku"); [right|]].
  unfold dict_keys. rewrite fmap_cons, !fmap_app. simpl.
  fold (dict_keys (site_entries "amazon" 1 am)).
  fold (dict_keys (site_entries "bestbuy" 1 bb)).
  fold (dict_keys (site_entries "samsung" 1 sam)).
  by rewrite !(four_records_keys _ _ _ Ham), !(four_records_keys _ _ _ Hbb),
    !(four_records_keys _ _ _ Hsam).
Qed.

Lemma projected_value_column token c refs src r j :
  refs !! (j - 1) = Some token →
  is_blank token = false →
  Xl.column_index_from_string
    (PyStr.upper (PyStr.strip (default "" token))) = Some c →
  r ≤ Xl.max_row src →
  projected_value refs src r j = Xl.value_at r c src.
Proof.
  intros Hj Hb Hc Hr. unfold projected_value.
  by rewrite Hj, Hb, Hc, bool_decide_true.
Qed.

Lemma projected_value_blank token refs src r j :
  refs !! (j - 1) = Some token →
  is_blank token = true →
  projected_value refs src r j = VNone.
Proof. intros Hj Hb. unfold projected_value. by rewrite Hj, Hb. Qed.

Lemma projected_value_beyond refs src r j :
  length refs < j → projected_value refs src r j = VNone.
Proof.
  intros Hj. unfold projected_value.
  by rewrite lookup_ge_None_2 by lia.
Qed.

(** X26: on a table whose header is the flattened record of a run with four
    records for each site, the 28-token layout of the script shows, for
    each of the four product indices, the three prices (Amazon, Samsung,
    BestBuy) and then the three model or SKU columns, after the time stamp
    and with an empty column between the groups: each named view column
    copies, in every row of the table, the table column with that header;
    the other view columns are empty. *)
Theorem X26_view_columns utcnow am bb sam src :
  four_records "model" am → four_records "model" bb →
  four_records "sku" sam →
  header src = VStr <$> dict_keys (flatten utcnow am bb sam) →
  (∀ j name, view_header !! j = Some (VStr name) →
     ∃ c, 1 ≤ c ≤ Xl.max_column src
          ∧ nth_value (header src) (c - 1) = VStr name
          ∧ ∀ r, r ≤ Xl.max_row src →
              projected_value column_refs src r (S j) = Xl.value_at r c src)
  ∧ (∀ j r, view_header !! j = Some VNone ∨ 28 ≤ j →
       projected_value column_refs src r (S j) = VNone).
Proof.
  intros Ham Hbb Hsam Hhdr.
  rewrite (four_records_header utcnow am bb sam Ham Hbb Hsam) in Hhdr.
  assert (Xl.max_column src = 61) as Hcols.
  { by rewrite <-header_length, Hhdr. }
  split.
  - intros j name Hj.
    do 28 (try destruct j as [|j]).
    all: try discriminate Hj.
    all: injection Hj as <-.
    all: eexists; split; [|split;
      [|intros r Hr; eapply projected_value_column;
        [reflexivity|reflexivity|vm_compute; reflexivity|exact Hr]]].
    all: rewrite ?Hcols, ?Hhdr; try lia; try (vm_compute; reflexivity).
  - intros j r [Hj | Hj].
    + do 28 (try destruct j as [|j]).
      all: try discriminate Hj.
      all: by eapply projected_value_blank.
    + apply projected_value_beyond. simpl. lia.
Qed.

Lemma sample_four_records id : four_records id (sample_four id).
Proof. split; [reflexivity|]. repeat constructor. Defined.

Lemma X26_view_columns_witness :
  ∃ c, 1 ≤ c ≤ Xl.max_column sample_run_table
       ∧ nth_value (header sample_run_table) (c - 1) = VStr "samsung_1_price"
       ∧ ∀ r, r ≤ Xl.max_row sample_run_table →
           projected_value column_refs sample_run_table r 3
           = Xl.value_at r c sample_run_table.
Proof.
  assert (header sample_run_table
          = VStr <$> dict_keys (flatten "2025-01-01T00:00:00.000000"
                                  (sample_four "model") (sample_four "model")
                                  (sample_four "sku"))) as Hhdr.
  { vm_compute. reflexivity. }
  apply (proj1 (X26_view_columns _ _ _ _ sample_run_table
                  (sample_four_records "model") (sample_four_records "model")
                  (sample_four_records "sku") Hhdr) 2 "samsung_1_price").
  reflexivity.
Defined.
